(** * tutor-contrib-cloudfront: the CloudFront client and the reconciliation command

    A shallow embedding of [tutorcloudfront/cloudfront/client.py] and
    [tutorcloudfront/commands.py].

    - The names the client and the command exchange with the provider are
      modelled as [string] (one [ascii] per character), with [str.lower] as
      the ASCII case mapping. Sanitization is also modelled on every Python
      [str], as a list of code points with the Unicode rules of [str.lower]
      ([PyStr]); on ASCII names the two agree.
    - Python dicts read with [.get] ([alias], [origin_config]) are [gmap]s;
      the [origins] dict, whose iteration order the command depends on, is an
      insertion-ordered association list.
    - The boto3 client is an interface ([boto3.Client]); the client methods and the
      command are programs in a state-and-exception monad over a [World] that
      holds the provider's state, the journal of API calls and terminal
      output, and the counter that feeds [uuid4]. *)

From Stdlib Require Import Ascii.
From Stdlib Require String.
From stdpp Require Import base option list gmap strings pretty.

Local Open Scope Z_scope.

(** ** Strings *)

(** The names the client and the command handle are domain names and the
    names derived from them. [Str] holds Python's string operations on ASCII
    strings, one byte per character; on these [str.lower] maps [A]-[Z] to
    [a]-[z] and leaves every other character. [PyStr], further down, models
    [str.lower] on every string, and [sanitize_name_on_ascii] relates the
    two. *)

Module Str.

(** [str.lower] on one ASCII character. *)
Definition lower_char (c : ascii) : ascii :=
  let n := nat_of_ascii c in
  if (Nat.leb 65 n && Nat.leb n 90)%bool then ascii_of_nat (n + 32) else c.

(** [s.lower()] for an ASCII [s]. *)
Fixpoint lower (s : string) : string :=
  match s with
  | EmptyString => EmptyString
  | String c s' => String (lower_char c) (lower s')
  end.

(** [s.replace(old, new)] for one-character [old] and [new], the only way
    the client calls it. *)
Fixpoint replace (old new : ascii) (s : string) : string :=
  match s with
  | EmptyString => EmptyString
  | String c s' =>
      String (if Ascii.eqb c old then new else c) (replace old new s')
  end.

(** What sanitization does to one character, in the words of the contract:
    lowercase, then dot and space become a hyphen. *)
Definition sanitize_char (c : ascii) : ascii :=
  let l := lower_char c in
  if Ascii.eqb l "."%char then "-"%char
  else if Ascii.eqb l " "%char then "-"%char
  else l.

Fixpoint map (f : ascii -> ascii) (s : string) : string :=
  match s with
  | EmptyString => EmptyString
  | String c s' => String (f c) (map f s')
  end.

End Str.

(** ** [CloudFrontClient.__sanitize_name]

    On ASCII names; [PyStr.sanitize_name] is the method on every [str]. *)

Definition sanitize_name (name : string) : string :=
  Str.replace " "%char "-"%char (Str.replace "."%char "-"%char (Str.lower name)).

(** ** The documents exchanged with the provider

    Each Python dict literal of the client becomes a record with the same
    keys; a key that the code adds only on some paths is an [option]. *)

(** [{"Quantity": n, "Items": [...]}] *)
Record StringList := { Quantity : Z; Items : list string }.

Record HeadersConfig := { HeaderBehavior : string; Headers : StringList }.
Record CookiesConfig := { CookieBehavior : string }.
Record QueryStringsConfig := { QueryStringBehavior : string }.

Module CachePolicyConfig.
Record Parameters := {
  EnableAcceptEncodingGzip : bool;
  EnableAcceptEncodingBrotli : bool;
  HeadersConfig_ : HeadersConfig;
  CookiesConfig_ : CookiesConfig;
  QueryStringsConfig_ : QueryStringsConfig;
}.
Record t := {
  Name : string;
  Comment : string;
  DefaultTTL : Z;
  MaxTTL : Z;
  MinTTL : Z;
  ParametersInCacheKeyAndForwardedToOrigin : Parameters;
}.
End CachePolicyConfig.

Module OriginRequestPolicyConfig.
Record t := {
  Name : string;
  Comment : string;
  HeadersConfig_ : HeadersConfig;
  CookiesConfig_ : CookiesConfig;
  QueryStringsConfig_ : QueryStringsConfig;
}.
End OriginRequestPolicyConfig.

Module ResponseHeadersPolicyConfig.
Record Cors := {
  OriginOverride : bool;
  AccessControlAllowCredentials : bool;
  AccessControlMaxAgeSec : Z;
  AccessControlAllowOrigins : StringList;
  AccessControlAllowHeaders : StringList;
  AccessControlAllowMethods : StringList;
}.
Record t := {
  Name : string;
  Comment : string;
  CorsConfig : Cors;
}.
End ResponseHeadersPolicyConfig.

Module DistributionConfig.
Record ViewerCertificate_t := {
  CloudFrontDefaultCertificate : bool;
  SSLSupportMethod : string;
  ACMCertificateArn : option string;
}.
Record GeoRestriction_t := { geo_Quantity : Z; RestrictionType : string }.
Record Restrictions_t := { GeoRestriction : GeoRestriction_t }.
Record AllowedMethods_t := {
  am_Quantity : Z;
  am_Items : list string;
  CachedMethods : StringList;
}.
Record DefaultCacheBehavior_t := {
  TargetOriginId : string;
  Compress : bool;
  ViewerProtocolPolicy : string;
  CachePolicyId : string;
  OriginRequestPolicyId : string;
  ResponseHeadersPolicyId : string;
  AllowedMethods : AllowedMethods_t;
}.
Record CustomOriginConfig_t := {
  HTTPPort : Z;
  HTTPSPort : Z;
  OriginProtocolPolicy : string;
  OriginSslProtocols : StringList;
  OriginReadTimeout : Z;
  OriginKeepaliveTimeout : Z;
}.
Record Origin := {
  Id : string;
  DomainName : string;
  CustomOriginConfig : CustomOriginConfig_t;
}.
Record Origins_t := { o_Quantity : Z; o_Items : list Origin }.
(** [{"Items": [alias_domain]}]: the code writes no ["Quantity"] here. *)
Record Aliases_t := { a_Items : list string }.
Record t := {
  Enabled : bool;
  Staging : bool;
  IsIPV6Enabled : bool;
  CallerReference : string;
  Comment : string;
  ViewerCertificate : ViewerCertificate_t;
  Restrictions : Restrictions_t;
  DefaultCacheBehavior : DefaultCacheBehavior_t;
  Origins : Origins_t;
  Aliases : option Aliases_t;
}.

(** [config["Aliases"] = v] *)
Definition set_Aliases (v : Aliases_t) (c : t) : t :=
  {| Enabled := Enabled c; Staging := Staging c;
     IsIPV6Enabled := IsIPV6Enabled c;
     CallerReference := CallerReference c; Comment := Comment c;
     ViewerCertificate := ViewerCertificate c;
     Restrictions := Restrictions c;
     DefaultCacheBehavior := DefaultCacheBehavior c;
     Origins := Origins c; Aliases := Some v |}.

(** [config["ViewerCertificate"]["ACMCertificateArn"] = arn] *)
Definition set_ACMCertificateArn (arn : string) (c : t) : t :=
  {| Enabled := Enabled c; Staging := Staging c;
     IsIPV6Enabled := IsIPV6Enabled c;
     CallerReference := CallerReference c; Comment := Comment c;
     ViewerCertificate :=
       {| CloudFrontDefaultCertificate :=
            CloudFrontDefaultCertificate (ViewerCertificate c);
          SSLSupportMethod := SSLSupportMethod (ViewerCertificate c);
          ACMCertificateArn := Some arn |};
     Restrictions := Restrictions c;
     DefaultCacheBehavior := DefaultCacheBehavior c;
     Origins := Origins c; Aliases := Aliases c |}.
End DistributionConfig.

(** ** Resources as the provider returns them

    The code reads ["Id"] and the config's ["Name"] of a policy, and
    ["DomainName"] of a listed distribution; both are assigned or stored by
    the provider. *)

Module CachePolicy.
Record t := { Id : string; CachePolicyConfig_ : CachePolicyConfig.t }.
End CachePolicy.

Module OriginRequestPolicy.
Record t := { Id : string; OriginRequestPolicyConfig_ : OriginRequestPolicyConfig.t }.
End OriginRequestPolicy.

Module ResponseHeadersPolicy.
Record t := { Id : string; ResponseHeadersPolicyConfig_ : ResponseHeadersPolicyConfig.t }.
End ResponseHeadersPolicy.

Module Distribution.
Record t := {
  Id : string;
  DomainName : string;
  DistributionConfig_ : DistributionConfig.t;
}.
End Distribution.

(** A list as it appears in a response: the ["Items"] key may be missing,
    which is why the client reads it with [.get("Items", [])]. *)
Record Catalog (A : Type) := { cat_Items : option (list A) }.
Arguments cat_Items {A} _.

Record CachePolicySummary := { CachePolicy_ : CachePolicy.t }.
Record OriginRequestPolicySummary := { OriginRequestPolicy_ : OriginRequestPolicy.t }.
Record ResponseHeadersPolicySummary := { ResponseHeadersPolicy_ : ResponseHeadersPolicy.t }.

Record ListCachePoliciesResponse :=
  { CachePolicyList : Catalog CachePolicySummary }.
Record ListOriginRequestPoliciesResponse :=
  { OriginRequestPolicyList : Catalog OriginRequestPolicySummary }.
Record ListResponseHeadersPoliciesResponse :=
  { ResponseHeadersPolicyList : Catalog ResponseHeadersPolicySummary }.
Record ListDistributionsResponse :=
  { DistributionList : Catalog Distribution.t }.

Record CreateCachePolicyResponse := { resp_CachePolicy : CachePolicy.t }.
Record CreateOriginRequestPolicyResponse :=
  { resp_OriginRequestPolicy : OriginRequestPolicy.t }.
Record CreateResponseHeadersPolicyResponse :=
  { resp_ResponseHeadersPolicy : ResponseHeadersPolicy.t }.
Record CreateDistributionResponse := { resp_Distribution : Distribution.t }.

(** ** Exceptions *)

Inductive exn :=
| ClientError (code : string)   (* raised by the provider's API *)
| KeyError (key : string)       (* [d[key]] on a dict without [key] *)
| NameError (var : string).     (* a variable read before it was bound *)

(** ** The boto3 CloudFront client

    The calls the wrapper makes on [self.__client]. A call may change the
    provider's state and may raise. *)

Module boto3.
Class Client (S : Type) := {
  list_cache_policies :
    string -> S -> (exn + ListCachePoliciesResponse) * S;
  create_cache_policy :
    CachePolicyConfig.t -> S -> (exn + CreateCachePolicyResponse) * S;
  list_origin_request_policies :
    string -> S -> (exn + ListOriginRequestPoliciesResponse) * S;
  create_origin_request_policy :
    OriginRequestPolicyConfig.t -> S ->
    (exn + CreateOriginRequestPolicyResponse) * S;
  list_response_headers_policies :
    string -> S -> (exn + ListResponseHeadersPoliciesResponse) * S;
  create_response_headers_policy :
    ResponseHeadersPolicyConfig.t -> S ->
    (exn + CreateResponseHeadersPolicyResponse) * S;
  list_distributions :
    S -> (exn + ListDistributionsResponse) * S;
  create_distribution :
    DistributionConfig.t -> S -> (exn + CreateDistributionResponse) * S;
}.
End boto3.

(** ** What the command does to the outside world, in order *)

Inductive Event :=
| ListCachePolicies (Type_ : string)
| CreateCachePolicy (cfg : CachePolicyConfig.t)
| ListOriginRequestPolicies (Type_ : string)
| CreateOriginRequestPolicy (cfg : OriginRequestPolicyConfig.t)
| ListResponseHeadersPolicies (Type_ : string)
| CreateResponseHeadersPolicy (cfg : ResponseHeadersPolicyConfig.t)
| ListDistributions
| CreateDistribution (cfg : DistributionConfig.t)
| Echo (line : string).

Definition is_create (e : Event) : bool :=
  match e with
  | CreateCachePolicy _ | CreateOriginRequestPolicy _
  | CreateResponseHeadersPolicy _ | CreateDistribution _ => true
  | _ => false
  end.

Definition is_lookup (e : Event) : bool :=
  match e with
  | ListCachePolicies _ | ListOriginRequestPolicies _
  | ListResponseHeadersPolicies _ | ListDistributions => true
  | _ => false
  end.

Definition is_echo (e : Event) : bool :=
  match e with Echo _ => true | _ => false end.

(** ** The world and the monad of the program *)

Record World (S : Type) := {
  remote : S;                 (* the provider's state *)
  journal : list Event;       (* calls issued and lines printed, oldest first *)
  uuids : nat -> string;      (* the values [str(uuid4())] will take *)
  drawn : nat;                (* how many of them were used *)
}.
Arguments remote {S} _.
Arguments journal {S} _.
Arguments uuids {S} _.
Arguments drawn {S} _.

Definition M (S A : Type) : Type := World S -> (exn + A) * World S.

Definition ret {S A} (a : A) : M S A := fun w => (inr a, w).

Definition raise {S A} (e : exn) : M S A := fun w => (inl e, w).

Definition bind {S A B} (m : M S A) (k : A -> M S B) : M S B :=
  fun w =>
    match m w with
    | (inr a, w') => k a w'
    | (inl e, w') => (inl e, w')
    end.

Notation "'do' x <~ m ; k" := (bind m (fun x => k))
  (at level 10, x name, m at level 100, k at level 200).
Notation "'run' m ; k" := (bind m (fun _ => k))
  (at level 10, m at level 100, k at level 200).

Definition log_event {S} (e : Event) (w : World S) : World S :=
  {| remote := remote w; journal := journal w ++ [e];
     uuids := uuids w; drawn := drawn w |}.

Definition set_remote {S} (s : S) (w : World S) : World S :=
  {| remote := s; journal := journal w; uuids := uuids w; drawn := drawn w |}.

Definition draw {S} (w : World S) : World S :=
  {| remote := remote w; journal := journal w;
     uuids := uuids w; drawn := Datatypes.S (drawn w) |}.

(** Record an event in the journal. *)
Definition emit {S} (e : Event) : M S unit :=
  fun w => (inr tt, log_event e w).

(** Issue an API call: it is journalled, then the provider runs it. *)
Definition call {S A} (e : Event) (op : S -> (exn + A) * S) : M S A :=
  run emit e;
  (fun w => let '(r, s') := op (remote w) in (r, set_remote s' w)).

(** [str(uuid4())] *)
Definition uuid4 {S} : M S string :=
  fun w => (inr (uuids w (drawn w)), draw w).

(** [click.echo(line)] *)
Definition echo {S} (line : string) : M S unit := emit (Echo line).

(** [d[key]] on a dict. *)
Definition getitem {S V} (d : gmap string V) (key : string) : M S V :=
  match d !! key with
  | Some v => ret v
  | None => raise (KeyError key)
  end.

(** ** Python idioms used by the client and the command *)

(** [for item in items: if <cond>: return <value>] followed by [return None]:
    the value picked at the first item that passes the test. *)
Fixpoint first_match {A B} (pick : A -> option B) (items : list A) : option B :=
  match items with
  | [] => None
  | item :: rest =>
      match pick item with
      | Some r => Some r
      | None => first_match pick rest
      end
  end.

(** [len(d) == 0] and the truth value of a dict. *)
Definition len_is_0 {V} (d : gmap string V) : bool := Nat.eqb (size d) 0.
Definition truthy {V} (d : gmap string V) : bool := negb (Nat.eqb (size d) 0).

(** An insertion-ordered dict: [d[k] = v] keeps the place of a key that is
    already there and appends a new one. *)
Definition odict (V : Type) : Type := list (string * V).

Fixpoint dict_set {V} (k : string) (v : V) (d : odict V) : odict V :=
  match d with
  | [] => [(k, v)]
  | (k', v') :: rest =>
      if String.eqb k' k then (k', v) :: rest
      else (k', v') :: dict_set k v rest
  end.

(** [{**d, **more}]: the items of [more] are written in their order. *)
Definition dict_update {V} (d more : odict V) : odict V :=
  fold_left (fun acc kv => dict_set (fst kv) (snd kv) acc) more d.

Definition dict_keys {V} (d : odict V) : list string := map fst d.

Fixpoint dict_get {V} (k : string) (d : odict V) : option V :=
  match d with
  | [] => None
  | (k', v) :: rest => if String.eqb k' k then Some v else dict_get k rest
  end.

(** ** [class CloudFrontClient] *)

Module CloudFrontClient.
Section Client.
Context {S : Type} `{!boto3.Client S}.

(** [get_cache_policy] *)
Definition get_cache_policy (name : string) : M S (option CachePolicy.t) :=
  do response <~ call (ListCachePolicies "custom")
                      (boto3.list_cache_policies "custom");
  let policy_items := default [] (cat_Items (CachePolicyList response)) in
  ret (first_match
         (fun item =>
            let policy := CachePolicy_ item in
            if String.eqb
                 (CachePolicyConfig.Name (CachePolicy.CachePolicyConfig_ policy))
                 (sanitize_name name)
            then Some policy else None)
         policy_items).

(** The [CachePolicyConfig] argument of [create_cache_policy]. *)
Definition cache_policy_config (name : string) (min_ttl default_ttl max_ttl : Z)
  : CachePolicyConfig.t :=
  {| CachePolicyConfig.Name := sanitize_name name;
     CachePolicyConfig.Comment := "CloudFront cache policy for " +:+ name +:+ ".";
     CachePolicyConfig.DefaultTTL := default_ttl;
     CachePolicyConfig.MaxTTL := max_ttl;
     CachePolicyConfig.MinTTL := min_ttl;
     CachePolicyConfig.ParametersInCacheKeyAndForwardedToOrigin :=
       {| CachePolicyConfig.EnableAcceptEncodingGzip := true;
          CachePolicyConfig.EnableAcceptEncodingBrotli := true;
          CachePolicyConfig.HeadersConfig_ :=
            {| HeaderBehavior := "whitelist";
               Headers := {| Quantity := 1; Items := ["Origin"] |} |};
          CachePolicyConfig.CookiesConfig_ := {| CookieBehavior := "none" |};
          CachePolicyConfig.QueryStringsConfig_ :=
            {| QueryStringBehavior := "all" |} |} |}.

(** [create_cache_policy] *)
Definition create_cache_policy (name : string) (min_ttl default_ttl max_ttl : Z)
  : M S CachePolicy.t :=
  let cfg := cache_policy_config name min_ttl default_ttl max_ttl in
  do response <~ call (CreateCachePolicy cfg) (boto3.create_cache_policy cfg);
  ret (resp_CachePolicy response).

(** [get_origin_request_policy] *)
Definition get_origin_request_policy (name : string)
  : M S (option OriginRequestPolicy.t) :=
  do response <~ call (ListOriginRequestPolicies "custom")
                      (boto3.list_origin_request_policies "custom");
  let policy_items := default [] (cat_Items (OriginRequestPolicyList response)) in
  ret (first_match
         (fun item =>
            let policy := OriginRequestPolicy_ item in
            if String.eqb
                 (OriginRequestPolicyConfig.Name
                    (OriginRequestPolicy.OriginRequestPolicyConfig_ policy))
                 (sanitize_name name)
            then Some policy else None)
         policy_items).

(** The [OriginRequestPolicyConfig] argument of [create_origin_request_policy]. *)
Definition origin_request_policy_config (name : string)
  : OriginRequestPolicyConfig.t :=
  {| OriginRequestPolicyConfig.Name := sanitize_name name;
     OriginRequestPolicyConfig.Comment :=
       "CloudFront origin request policy for " +:+ name +:+ ".";
     OriginRequestPolicyConfig.HeadersConfig_ :=
       {| HeaderBehavior := "whitelist";
          Headers := {| Quantity := 1; Items := ["Origin"] |} |};
     OriginRequestPolicyConfig.CookiesConfig_ := {| CookieBehavior := "none" |};
     OriginRequestPolicyConfig.QueryStringsConfig_ :=
       {| QueryStringBehavior := "all" |} |}.

(** [create_origin_request_policy] *)
Definition create_origin_request_policy (name : string)
  : M S OriginRequestPolicy.t :=
  let cfg := origin_request_policy_config name in
  do response <~ call (CreateOriginRequestPolicy cfg)
                      (boto3.create_origin_request_policy cfg);
  ret (resp_OriginRequestPolicy response).

(** [get_response_headers_policy] *)
Definition get_response_headers_policy (name : string)
  : M S (option ResponseHeadersPolicy.t) :=
  do response <~ call (ListResponseHeadersPolicies "custom")
                      (boto3.list_response_headers_policies "custom");
  let policy_items :=
    default [] (cat_Items (ResponseHeadersPolicyList response)) in
  ret (first_match
         (fun item =>
            let policy := ResponseHeadersPolicy_ item in
            if String.eqb
                 (ResponseHeadersPolicyConfig.Name
                    (ResponseHeadersPolicy.ResponseHeadersPolicyConfig_ policy))
                 (sanitize_name name)
            then Some policy else None)
         policy_items).

(** The [ResponseHeadersPolicyConfig] argument of
    [create_response_headers_policy]. *)
Definition response_headers_policy_config (name : string)
  : ResponseHeadersPolicyConfig.t :=
  {| ResponseHeadersPolicyConfig.Name := sanitize_name name;
     ResponseHeadersPolicyConfig.Comment :=
       "CloudFront response headers policy for " +:+ name +:+ ".";
     ResponseHeadersPolicyConfig.CorsConfig :=
       {| ResponseHeadersPolicyConfig.OriginOverride := true;
          ResponseHeadersPolicyConfig.AccessControlAllowCredentials := false;
          ResponseHeadersPolicyConfig.AccessControlMaxAgeSec := 2592000;
          ResponseHeadersPolicyConfig.AccessControlAllowOrigins :=
            {| Quantity := 1; Items := ["*"] |};
          ResponseHeadersPolicyConfig.AccessControlAllowHeaders :=
            {| Quantity := 1; Items := ["*"] |};
          ResponseHeadersPolicyConfig.AccessControlAllowMethods :=
            {| Quantity := 1; Items := ["ALL"] |} |} |}.

(** [create_response_headers_policy] *)
Definition create_response_headers_policy (name : string)
  : M S ResponseHeadersPolicy.t :=
  let cfg := response_headers_policy_config name in
  do response <~ call (CreateResponseHeadersPolicy cfg)
                      (boto3.create_response_headers_policy cfg);
  ret (resp_ResponseHeadersPolicy response).

(** [get_distribution] *)
Definition get_distribution (domain : string) : M S (option Distribution.t) :=
  do response <~ call ListDistributions boto3.list_distributions;
  let distribution_items := default [] (cat_Items (DistributionList response)) in
  ret (first_match
         (fun item =>
            let distribution := item in
            if String.eqb (Distribution.DomainName distribution) domain
            then Some distribution else None)
         distribution_items).

(** The [config] dict of [create_distribution], as it stands when the
    creation call is made: the literal, then the two conditional writes.
    [alias] is already the dict ([None] was replaced by [dict()]);
    [caller_reference] is the value of [str(uuid4())]. *)
Definition distribution_config
    (caller_reference domain : string)
    (cache_policy_id origin_request_policy_id response_headers_policy_id : string)
    (alias : gmap string string) : DistributionConfig.t :=
  let config :=
    {| DistributionConfig.Enabled := true;
       DistributionConfig.Staging := false;
       DistributionConfig.IsIPV6Enabled := true;
       DistributionConfig.CallerReference := caller_reference;
       DistributionConfig.Comment := "Distribution config for " +:+ domain;
       DistributionConfig.ViewerCertificate :=
         {| DistributionConfig.CloudFrontDefaultCertificate := len_is_0 alias;
            DistributionConfig.SSLSupportMethod :=
              if truthy alias then "sni-only" else "static-ip";
            DistributionConfig.ACMCertificateArn := None |};
       DistributionConfig.Restrictions :=
         {| DistributionConfig.GeoRestriction :=
              {| DistributionConfig.geo_Quantity := 0;
                 DistributionConfig.RestrictionType := "none" |} |};
       DistributionConfig.DefaultCacheBehavior :=
         {| DistributionConfig.TargetOriginId := domain;
            DistributionConfig.Compress := true;
            DistributionConfig.ViewerProtocolPolicy := "redirect-to-https";
            DistributionConfig.CachePolicyId := cache_policy_id;
            DistributionConfig.OriginRequestPolicyId := origin_request_policy_id;
            DistributionConfig.ResponseHeadersPolicyId := response_headers_policy_id;
            DistributionConfig.AllowedMethods :=
              {| DistributionConfig.am_Quantity := 2;
                 DistributionConfig.am_Items := ["GET"; "HEAD"];
                 DistributionConfig.CachedMethods :=
                   {| Quantity := 2; Items := ["GET"; "HEAD"] |} |} |};
       DistributionConfig.Origins :=
         {| DistributionConfig.o_Quantity := 1;
            DistributionConfig.o_Items :=
              [ {| DistributionConfig.Id := domain;
                   DistributionConfig.DomainName := domain;
                   DistributionConfig.CustomOriginConfig :=
                     {| DistributionConfig.HTTPPort := 80;
                        DistributionConfig.HTTPSPort := 443;
                        DistributionConfig.OriginProtocolPolicy := "match-viewer";
                        DistributionConfig.OriginSslProtocols :=
                          {| Quantity := 3;
                             Items := ["TLSv1"; "TLSv1.1"; "TLSv1.2"] |};
                        DistributionConfig.OriginReadTimeout := 30;
                        DistributionConfig.OriginKeepaliveTimeout := 5 |} |} ] |};
       DistributionConfig.Aliases := None |} in
  let config :=
    match alias !! "domain" with
    | Some alias_domain =>
        DistributionConfig.set_Aliases
          {| DistributionConfig.a_Items := [alias_domain] |} config
    | None => config
    end in
  let config :=
    match alias !! "certificate_arn" with
    | Some arn => DistributionConfig.set_ACMCertificateArn arn config
    | None => config
    end in
  config.

(** [create_distribution] *)
Definition create_distribution
    (domain cache_policy_id origin_request_policy_id
       response_headers_policy_id : string)
    (alias : option (gmap string string)) : M S Distribution.t :=
  let alias := match alias with None => ∅ | Some a => a end in
  do caller_reference <~ uuid4;
  let config :=
    distribution_config caller_reference domain cache_policy_id
      origin_request_policy_id response_headers_policy_id alias in
  do response <~ call (CreateDistribution config)
                      (boto3.create_distribution config);
  ret (resp_Distribution response).

End Client.
End CloudFrontClient.

(** ** [commands.py] *)

(** The values [config.load] gives for the keys the command reads, with the
    types the plugin documents for them: the entries of
    [CLOUDFRONT_EXTRA_DOMAINS] map keys to strings. An entry that holds
    another kind of value (a YAML [null], say) is not represented. *)
Record LoadedConfig := {
  CLOUDFRONT_AWS_REGION : string;
  CLOUDFRONT_AWS_ACCESS_KEY_ID : string;
  CLOUDFRONT_AWS_SECRET_ACCESS_KEY : string;
  CLOUDFRONT_CACHE_CONFIG : gmap string Z;
  CLOUDFRONT_EXTRA_DOMAINS : list (gmap string string);
  CLOUDFRONT_LMS_DOMAIN : string;
  CLOUDFRONT_CMS_DOMAIN : string;
}.

(** The value kept for a domain in [origins]: [{}] or [{"alias": {...}}]. *)
Abbreviation OriginConfig := (gmap string (gmap string string)).

(** [x[key]] outside the monad. *)
Definition item {V} (d : gmap string V) (key : string) : exn + V :=
  match d !! key with
  | Some v => inr v
  | None => inl (KeyError key)
  end.

(** The dict comprehension over [extra_config], on entries whose values are
    strings. *)
Fixpoint extra_origins (extra_config : list (gmap string string))
    (acc : odict OriginConfig) : exn + odict OriginConfig :=
  match extra_config with
  | [] => inr acc
  | x :: rest =>
      match item x "domain" with
      | inl e => inl e
      | inr k =>
          match item x "alias" with
          | inl e => inl e
          | inr a =>
              match item x "certificate_arn" with
              | inl e => inl e
              | inr c =>
                  extra_origins rest
                    (dict_set k
                       {[ "alias" := {[ "domain" := a; "certificate_arn" := c ]} ]}
                       acc)
              end
          end
      end
  end.

(** The [origins] dict. *)
Definition build_origins (loaded_config : LoadedConfig)
  : exn + odict OriginConfig :=
  let d := dict_set (CLOUDFRONT_LMS_DOMAIN loaded_config) ∅ [] in
  let d := dict_set (CLOUDFRONT_CMS_DOMAIN loaded_config) ∅ d in
  match extra_origins (CLOUDFRONT_EXTRA_DOMAINS loaded_config) [] with
  | inl e => inl e
  | inr extra => inr (dict_update d extra)
  end.

Section Command.
Context {S : Type} `{!boto3.Client S}.

Definition lift {A} (r : exn + A) : M S A :=
  match r with
  | inl e => raise e
  | inr a => ret a
  end.

(** One pass of the body of [for domain, origin_config in origins.items()]. *)
Definition loop_body (cache_config : gmap string Z)
    (domain : string) (origin_config : OriginConfig) : M S unit :=
  let request_policy_name := domain +:+ "-origin-request-policy" in
  do found <~ CloudFrontClient.get_origin_request_policy request_policy_name;
  do request_policy <~
    match found with
    | Some p => ret p
    | None => CloudFrontClient.create_origin_request_policy request_policy_name
    end;
  let response_policy_name := domain +:+ "-response-headers-policy" in
  do found <~ CloudFrontClient.get_response_headers_policy response_policy_name;
  do response_policy <~
    match found with
    | Some p => ret p
    | None => CloudFrontClient.create_response_headers_policy response_policy_name
    end;
  let cache_policy_name := domain +:+ "-cache-policy" in
  do found <~ CloudFrontClient.get_cache_policy cache_policy_name;
  do cache_policy <~
    match found with
    | Some p => ret p
    | None =>
        do default_ttl <~ getitem cache_config "default_ttl";
        do min_ttl <~ getitem cache_config "min_ttl";
        do max_ttl <~ getitem cache_config "max_ttl";
        CloudFrontClient.create_cache_policy
          cache_policy_name min_ttl default_ttl max_ttl
    end;
  do found <~ CloudFrontClient.get_distribution domain;
  match found with
  | Some _ => ret tt
  | None =>
      do _created <~
        CloudFrontClient.create_distribution
          domain
          (CachePolicy.Id cache_policy)
          (OriginRequestPolicy.Id request_policy)
          (ResponseHeadersPolicy.Id response_policy)
          (origin_config !! "alias");
      ret tt
  end.

(** The [for] loop; [domain] is the loop variable as it is bound when the
    loop is entered or resumed, and the result is its binding at the end. *)
Fixpoint for_origins (cache_config : gmap string Z)
    (items : odict OriginConfig) (domain : option string)
  : M S (option string) :=
  match items with
  | [] => ret domain
  | (d, origin_config) :: rest =>
      run loop_body cache_config d origin_config;
      for_origins cache_config rest (Some d)
  end.

(** [create_cloudfront_resources], from the loaded configuration on. *)
Definition create_cloudfront_resources (loaded_config : LoadedConfig)
  : M S unit :=
  let cache_config := CLOUDFRONT_CACHE_CONFIG loaded_config in
  do origins <~ lift (build_origins loaded_config);
  do domain <~ for_origins cache_config origins None;
  match domain with
  | Some d => echo ("CloudFront is set up for " +:+ d)
  | None => raise (NameError "domain")
  end.

End Command.

(** ** A reference provider

    The provider is outside the repository; to run the client and the command
    we use a provider that keeps one catalog per kind of resource, lists a
    catalog in full, and on creation appends the resource it was given under
    a fresh id. A response carries no ["Items"] key when the catalog is empty.
    The host name under which a new distribution is listed (its top-level
    ["DomainName"]) is the provider's choice: [hostname]. *)

Module Cloud.

Record t := {
  cache_policies : list CachePolicy.t;
  origin_request_policies : list OriginRequestPolicy.t;
  response_headers_policies : list ResponseHeadersPolicy.t;
  distributions : list Distribution.t;
  issued : nat;
  hostname : nat -> DistributionConfig.t -> string;
}.

Definition empty (hostname : nat -> DistributionConfig.t -> string) : t :=
  {| cache_policies := []; origin_request_policies := [];
     response_headers_policies := []; distributions := [];
     issued := 0; hostname := hostname |}.

Definition listing {A B} (wrap : A -> B) (l : list A) : Catalog B :=
  match l with
  | [] => {| cat_Items := None |}
  | _ => {| cat_Items := Some (map wrap l) |}
  end.

(** Everything the provider holds was created through the API, so it is
    listed under [Type="custom"] and under no other type. *)
Definition of_type {B} (Type_ : string) (c : Catalog B) : Catalog B :=
  if String.eqb Type_ "custom" then c else {| cat_Items := None |}.

Definition fresh_id (c : t) : string := "id-" +:+ pretty (issued c).

Definition add_cache_policy (cfg : CachePolicyConfig.t) (c : t)
  : CachePolicy.t * t :=
  let r := {| CachePolicy.Id := fresh_id c; CachePolicy.CachePolicyConfig_ := cfg |} in
  (r, {| cache_policies := cache_policies c ++ [r];
         origin_request_policies := origin_request_policies c;
         response_headers_policies := response_headers_policies c;
         distributions := distributions c;
         issued := Datatypes.S (issued c); hostname := hostname c |}).

Definition add_origin_request_policy (cfg : OriginRequestPolicyConfig.t) (c : t)
  : OriginRequestPolicy.t * t :=
  let r := {| OriginRequestPolicy.Id := fresh_id c;
              OriginRequestPolicy.OriginRequestPolicyConfig_ := cfg |} in
  (r, {| cache_policies := cache_policies c;
         origin_request_policies := origin_request_policies c ++ [r];
         response_headers_policies := response_headers_policies c;
         distributions := distributions c;
         issued := Datatypes.S (issued c); hostname := hostname c |}).

Definition add_response_headers_policy (cfg : ResponseHeadersPolicyConfig.t)
    (c : t) : ResponseHeadersPolicy.t * t :=
  let r := {| ResponseHeadersPolicy.Id := fresh_id c;
              ResponseHeadersPolicy.ResponseHeadersPolicyConfig_ := cfg |} in
  (r, {| cache_policies := cache_policies c;
         origin_request_policies := origin_request_policies c;
         response_headers_policies := response_headers_policies c ++ [r];
         distributions := distributions c;
         issued := Datatypes.S (issued c); hostname := hostname c |}).

Definition add_distribution (cfg : DistributionConfig.t) (c : t)
  : Distribution.t * t :=
  let r := {| Distribution.Id := fresh_id c;
              Distribution.DomainName := hostname c (issued c) cfg;
              Distribution.DistributionConfig_ := cfg |} in
  (r, {| cache_policies := cache_policies c;
         origin_request_policies := origin_request_policies c;
         response_headers_policies := response_headers_policies c;
         distributions := distributions c ++ [r];
         issued := Datatypes.S (issued c); hostname := hostname c |}).

#[global] Instance client : boto3.Client t := {|
  boto3.list_cache_policies ty c :=
    (inr {| CachePolicyList :=
              of_type ty
                (listing (fun p => {| CachePolicy_ := p |}) (cache_policies c)) |}, c);
  boto3.create_cache_policy cfg c :=
    let '(r, c') := add_cache_policy cfg c in
    (inr {| resp_CachePolicy := r |}, c');
  boto3.list_origin_request_policies ty c :=
    (inr {| OriginRequestPolicyList :=
              of_type ty
                (listing (fun p => {| OriginRequestPolicy_ := p |})
                   (origin_request_policies c)) |}, c);
  boto3.create_origin_request_policy cfg c :=
    let '(r, c') := add_origin_request_policy cfg c in
    (inr {| resp_OriginRequestPolicy := r |}, c');
  boto3.list_response_headers_policies ty c :=
    (inr {| ResponseHeadersPolicyList :=
              of_type ty
                (listing (fun p => {| ResponseHeadersPolicy_ := p |})
                   (response_headers_policies c)) |}, c);
  boto3.create_response_headers_policy cfg c :=
    let '(r, c') := add_response_headers_policy cfg c in
    (inr {| resp_ResponseHeadersPolicy := r |}, c');
  boto3.list_distributions c :=
    (inr {| DistributionList := listing id (distributions c) |}, c);
  boto3.create_distribution cfg c :=
    let '(r, c') := add_distribution cfg c in
    (inr {| resp_Distribution := r |}, c');
|}.

(** The provider names a new distribution itself, as CloudFront does
    ([d<n>.cloudfront.net]). *)
Definition edge_hostname (n : nat) (_ : DistributionConfig.t) : string :=
  "d" +:+ pretty n +:+ ".cloudfront.net".

(** The provider lists a new distribution under the domain name of its
    first origin. *)
Definition origin_hostname (_ : nat) (cfg : DistributionConfig.t) : string :=
  match DistributionConfig.o_Items (DistributionConfig.Origins cfg) with
  | o :: _ => DistributionConfig.DomainName o
  | [] => EmptyString
  end.

(** A world around a provider state: empty journal, a fixed supply of
    UUID strings. *)
Definition world (c : t) : World t :=
  {| remote := c; journal := [];
     uuids := fun n => "uuid-" +:+ pretty n; drawn := 0 |}.

End Cloud.

(** The journal of a run started with an empty journal. *)
Definition events_of {S A} (r : (exn + A) * World S) : list Event :=
  journal (snd r).

(** Start again from the provider state a run has left, with a fresh journal. *)
Definition next_run {S A} (r : (exn + A) * World S) : World S :=
  {| remote := remote (snd r); journal := [];
     uuids := uuids (snd r); drawn := drawn (snd r) |}.

(** The configuration of the example: two primary domains, one extra. *)
Definition example_config : LoadedConfig :=
  {| CLOUDFRONT_AWS_REGION := "us-east-1";
     CLOUDFRONT_AWS_ACCESS_KEY_ID := "key";
     CLOUDFRONT_AWS_SECRET_ACCESS_KEY := "secret";
     CLOUDFRONT_CACHE_CONFIG :=
       {[ "min_ttl" := 0; "default_ttl" := 300; "max_ttl" := 3600 ]};
     CLOUDFRONT_EXTRA_DOMAINS :=
       [ {[ "domain" := "apps.x"; "alias" := "mfe.x";
            "certificate_arn" := "arn:y" ]} ];
     CLOUDFRONT_LMS_DOMAIN := "lms.x";
     CLOUDFRONT_CMS_DOMAIN := "cms.x" |}.

(** ** Vocabulary of the properties *)

(** [r] is the first element of [l] named [n], or nothing when no element of
    [l] has that name. *)
Definition first_named {A} (name_of : A -> string) (n : string)
    (l : list A) (r : option A) : Prop :=
  match r with
  | Some p =>
      exists before after,
        l = before ++ p :: after /\ name_of p = n /\
        Forall (fun q => name_of q <> n) before
  | None => Forall (fun q => name_of q <> n) l
  end.

(** The name a listed policy carries: the ["Name"] of its config. *)
Definition cache_policy_name (p : CachePolicy.t) : string :=
  CachePolicyConfig.Name (CachePolicy.CachePolicyConfig_ p).

Definition origin_request_policy_name (p : OriginRequestPolicy.t) : string :=
  OriginRequestPolicyConfig.Name (OriginRequestPolicy.OriginRequestPolicyConfig_ p).

Definition response_headers_policy_name (p : ResponseHeadersPolicy.t) : string :=
  ResponseHeadersPolicyConfig.Name
    (ResponseHeadersPolicy.ResponseHeadersPolicyConfig_ p).

(** The resources a list response holds, in order. *)
Definition listed {A B} (proj : A -> B) (c : Catalog A) : list B :=
  map proj (default [] (cat_Items c)).

(** The first element of a list with a given name. *)
Definition find_named {A} (name_of : A -> string) (n : string) (l : list A)
  : option A :=
  first_match (fun p => if String.eqb (name_of p) n then Some p else None) l.

(** What one entry of [CLOUDFRONT_EXTRA_DOMAINS] writes into [origins]:
    its domain as the key and its alias and certificate as the value. *)
Definition entry_of (x : gmap string string) : option (string * OriginConfig) :=
  match x !! "domain", x !! "alias", x !! "certificate_arn" with
  | Some k, Some a, Some c =>
      Some (k, {[ "alias" := {[ "domain" := a; "certificate_arn" := c ]} ]})
  | _, _, _ => None
  end.

(** Using a string as a mapping key: a key seen before keeps its place, a
    new key goes to the end. *)
Definition add_key (k : string) (seen : list string) : list string :=
  if decide (k ∈ seen) then seen else seen ++ [k].

(** The keys of a mapping filled in the order of [l]. *)
Definition dedup_first (l : list string) : list string :=
  fold_left (fun seen k => add_key k seen) l [].

(** Last write wins: the value of a key after the writes [ws], made in
    order over a mapping where the key had value [before]. *)
Definition overwrite {V} (k : string) (before : option V)
    (ws : list (string * V)) : option V :=
  fold_left (fun acc kv => if String.eqb (fst kv) k then Some (snd kv) else acc)
    ws before.

(** The value written last for a key, if any. *)
Definition last_write {V} (k : string) (ws : list (string * V)) : option V :=
  overwrite k None ws.

(** One get-or-create step: the lookup runs; when it finds a resource, that
    resource is used and nothing else happens; when it finds none, the
    creation runs and the resource it returns is used. *)
Definition get_or_create_step {S A} (get : M S (option A)) (create : M S A)
    (w : World S) (found : option A) (used : A) (w' : World S) : Prop :=
  exists after_lookup,
    get w = (inr found, after_lookup) /\
    match found with
    | Some p => used = p /\ w' = after_lookup
    | None => create after_lookup = (inr used, w')
    end.

(** The calls of one step, in order. *)
Definition step_events {A} (lookup create : Event) (found : option A)
  : list Event :=
  lookup :: match found with Some _ => [] | None => [create] end.

(** The calls that write a distribution. *)
Definition creates_distribution (e : Event) : bool :=
  match e with CreateDistribution _ => true | _ => false end.

(** A program that leaves the UUID supply alone and adds [evs] to the
    journal, whatever its outcome. *)
Definition journals {S A} (m : M S A) (evs : list Event) : Prop :=
  forall w, journal (snd (m w)) = journal w ++ evs /\
            uuids (snd (m w)) = uuids w /\
            drawn (snd (m w)) = drawn w.

(** A program that prints nothing: whatever its outcome, it only adds
    events other than [Echo] to the journal. *)
Definition silent {S A} (m : M S A) : Prop :=
  forall w, exists evs,
    journal (snd (m w)) = journal w ++ evs /\
    Forall (fun e => is_echo e = false) evs.

(** The cache policy creation of the loop, with its reads of
    [cache_config]. *)
Definition create_cache_policy_from {S} `{!boto3.Client S}
    (cache_config : gmap string Z)
    (cache_policy_name : string) : M S CachePolicy.t :=
  do default_ttl <~ getitem cache_config "default_ttl";
  do min_ttl <~ getitem cache_config "min_ttl";
  do max_ttl <~ getitem cache_config "max_ttl";
  CloudFrontClient.create_cache_policy
    cache_policy_name min_ttl default_ttl max_ttl.

(** The origins a listed distribution serves, next to the host name it is
    listed under. *)
Definition listed_as (d : Distribution.t) : string * list string :=
  (Distribution.DomainName d,
   map DistributionConfig.DomainName
     (DistributionConfig.o_Items
        (DistributionConfig.Origins (Distribution.DistributionConfig_ d)))).

(** A provider state reached from another by creations only. *)
Definition cloud_extends (c c' : Cloud.t) : Prop :=
  Cloud.cache_policies c `prefix_of` Cloud.cache_policies c' /\
  Cloud.origin_request_policies c `prefix_of` Cloud.origin_request_policies c' /\
  Cloud.response_headers_policies c `prefix_of` Cloud.response_headers_policies c' /\
  Cloud.distributions c `prefix_of` Cloud.distributions c' /\
  Cloud.hostname c' = Cloud.hostname c.

(** The provider holds everything the command wants for a domain. *)
Definition covered (c : Cloud.t) (domain : string) : Prop :=
  is_Some (find_named origin_request_policy_name
             (sanitize_name (domain +:+ "-origin-request-policy"))
             (Cloud.origin_request_policies c)) /\
  is_Some (find_named response_headers_policy_name
             (sanitize_name (domain +:+ "-response-headers-policy"))
             (Cloud.response_headers_policies c)) /\
  is_Some (find_named cache_policy_name
             (sanitize_name (domain +:+ "-cache-policy"))
             (Cloud.cache_policies c)) /\
  is_Some (find_named Distribution.DomainName domain (Cloud.distributions c)).

(** A provider that already holds, for each kind of policy, one policy under
    another name and two under the name [example-com]. *)
Definition stocked_cloud : Cloud.t :=
  let c := Cloud.empty Cloud.edge_hostname in
  let c := snd (Cloud.add_cache_policy
                  (CloudFrontClient.cache_policy_config "other" 0 1 2) c) in
  let c := snd (Cloud.add_cache_policy
                  (CloudFrontClient.cache_policy_config "example.com" 0 1 2) c) in
  let c := snd (Cloud.add_cache_policy
                  (CloudFrontClient.cache_policy_config "Example com" 5 6 7) c) in
  let c := snd (Cloud.add_origin_request_policy
                  (CloudFrontClient.origin_request_policy_config "other") c) in
  let c := snd (Cloud.add_origin_request_policy
                  (CloudFrontClient.origin_request_policy_config "example.com") c) in
  let c := snd (Cloud.add_origin_request_policy
                  (CloudFrontClient.origin_request_policy_config "Example com") c) in
  let c := snd (Cloud.add_response_headers_policy
                  (CloudFrontClient.response_headers_policy_config "other") c) in
  let c := snd (Cloud.add_response_headers_policy
                  (CloudFrontClient.response_headers_policy_config "example.com") c) in
  let c := snd (Cloud.add_response_headers_policy
                  (CloudFrontClient.response_headers_policy_config "Example com") c) in
  c.

(** The alias of the example. *)
Definition example_alias : gmap string string :=
  {[ "domain" := "mfe.example.com"; "certificate_arn" := "arn:x" ]}.

(** The world in which a second run of the command starts, when the first
    run was made on an empty provider that names distributions itself. *)
Definition second_run_world : World Cloud.t :=
  next_run (create_cloudfront_resources example_config
              (Cloud.world (Cloud.empty Cloud.edge_hostname))).

(** ** Python strings beyond ASCII

    [name.lower()] is Unicode-aware: it follows the Unicode lowercase mapping
    of each code point, which may give several code points, and turns a
    capital sigma into a final or a small sigma according to what surrounds
    it. [PyStr] models a [str] as its list of code points and [str.lower] as
    CPython computes it; the Unicode data it consults (the full lowercase
    mapping and the properties Cased and Case_Ignorable) is a parameter.
    [sanitize_name] above is the restriction of [PyStr.sanitize_name] to
    ASCII names. *)

Module PyStr.

(** A [str]: its code points, in order. *)
Definition str : Type := list N.

(** The [str] of an ASCII literal. *)
Fixpoint codes (s : string) : str :=
  match s with
  | EmptyString => []
  | String c s' => N_of_ascii c :: codes s'
  end.

(** The Unicode data behind [str.lower]. *)
Record UnicodeData := {
  to_lower_full : N -> list N;     (* the full lowercase mapping of a code point *)
  is_cased : N -> bool;            (* the property Cased *)
  is_case_ignorable : N -> bool;   (* the property Case_Ignorable *)
}.

Definition capital_sigma : N := 931.   (* U+03A3 *)
Definition final_sigma : N := 962.     (* U+03C2 *)
Definition small_sigma : N := 963.     (* U+03C3 *)
Definition full_stop : N := 46.        (* "." *)
Definition space : N := 32.            (* " " *)
Definition hyphen : N := 45.           (* "-" *)

Section Lower.
Variable U : UnicodeData.

(** The nearest code point, in the direction of the list, that is not
    case-ignorable. *)
Definition first_not_ignorable (l : list N) : option N :=
  List.find (fun c => negb (is_case_ignorable U c)) l.

(** The lowercase of a capital sigma that has [before] in front of it
    (nearest code point first) and [after] behind it: a final sigma when a
    cased letter precedes it and none follows, case-ignorable code points
    being skipped on both sides; a small sigma otherwise. *)
Definition handle_capital_sigma (before after : list N) : N :=
  let preceded :=
    match first_not_ignorable before with
    | Some c => is_cased U c
    | None => false
    end in
  if preceded then
    match first_not_ignorable after with
    | Some c => if is_cased U c then small_sigma else final_sigma
    | None => final_sigma
    end
  else small_sigma.

(** [lower] from a position on: [before] holds the code points already
    passed, nearest first. *)
Fixpoint lower_from (before rest : list N) : str :=
  match rest with
  | [] => []
  | c :: rest' =>
      (if N.eqb c capital_sigma then [handle_capital_sigma before rest']
       else to_lower_full U c)
      ++ lower_from (c :: before) rest'
  end.

(** [s.lower()] *)
Definition lower (s : str) : str := lower_from [] s.

(** [s.replace(old, new)] for one-character [old] and [new]. *)
Definition replace (old new : N) (s : str) : str :=
  map (fun c => if N.eqb c old then new else c) s.

(** [CloudFrontClient.__sanitize_name] *)
Definition sanitize_name (name : str) : str :=
  replace space hyphen (replace full_stop hyphen (lower name)).

End Lower.

(** The lowercase of an ASCII code point; other code points are left. *)
Definition ascii_lower (c : N) : N :=
  if (N.leb 65 c && N.leb c 90)%bool then (c + 32)%N else c.

(** A code point that lowercasing leaves as it is. *)
Definition settled (U : UnicodeData) (c : N) : Prop :=
  to_lower_full U c = [c] /\ c <> capital_sigma.

(** The facts about the Unicode data that the properties rest on: on ASCII
    the lowercase mapping is the ASCII one; lowercasing produces code points
    that lowercasing leaves alone, the two lowercase sigmas among them; the
    hyphen is neither cased nor case-ignorable. *)
Record sound (U : UnicodeData) : Prop := {
  lower_ascii :
    forall c, (c < 128)%N -> to_lower_full U c = [ascii_lower c];
  lower_settled :
    forall c c', c' ∈ to_lower_full U c -> settled U c';
  sigmas_settled : settled U small_sigma /\ settled U final_sigma;
  hyphen_neutral :
    is_cased U hyphen = false /\ is_case_ignorable U hyphen = false;
}.

(** What the two [replace] calls of the method do to one code point. *)
Definition hyphenate (c : N) : N :=
  if (N.eqb c full_stop || N.eqb c space)%bool then hyphen else c.

(** A code point that ASCII sanitization leaves alone: no ASCII capital,
    full stop or space. *)
Definition clean (c : N) : bool :=
  (negb (N.leb 65 c && N.leb c 90) && negb (N.eqb c full_stop)
   && negb (N.eqb c space))%bool.

(** A part of the Unicode data, enough to run the examples: ASCII, the
    letters E-acute (U+00C9, U+00E9), capital I with dot above (U+0130,
    whose lowercase is [i] followed by the combining dot U+0307), alpha
    (U+0391, U+03B1) and the sigmas. *)
Definition fragment : UnicodeData :=
  {| to_lower_full c :=
       if N.eqb c 304 then [105; 775]%N
       else if N.eqb c 201 then [233]%N
       else if N.eqb c 913 then [945]%N
       else if N.eqb c 931 then [963]%N
       else [ascii_lower c];
     is_cased c :=
       ((N.leb 65 c && N.leb c 90) || (N.leb 97 c && N.leb c 122)
        || N.eqb c 201 || N.eqb c 233 || N.eqb c 304
        || N.eqb c 913 || N.eqb c 945
        || N.eqb c 931 || N.eqb c 962 || N.eqb c 963)%bool;
     is_case_ignorable c :=
       (N.eqb c 46 || N.eqb c 39 || N.eqb c 775)%bool |}.

End PyStr.

(** The suffixes the command appends to a domain to name its policies. *)
Definition policy_suffixes : list string :=
  ["-origin-request-policy"; "-response-headers-policy"; "-cache-policy"].

(** ** The passes of the command *)

(** What one pass of the loop over [(domain, origin_config)] does between
    the worlds [w] and [w']: four get-or-create steps, in the order origin
    request policy, response headers policy, cache policy, distribution,
    each creating exactly when its lookup found nothing; the distribution is
    created with the ids of the three policies used; the journal grows by
    the calls of these steps and by nothing else. *)
Definition pass_steps {S} `{!boto3.Client S}
    (cache_config : gmap string Z) (domain : string)
    (origin_config : OriginConfig) (w w' : World S) : Prop :=
  exists (found_request : option OriginRequestPolicy.t)
         (found_response : option ResponseHeadersPolicy.t)
         (found_cache : option CachePolicy.t)
         (found_distribution : option Distribution.t)
         request_policy response_policy cache_policy distribution
         (w1 w2 w3 : World S) (min_ttl default_ttl max_ttl : Z)
         (evs : list Event),
    let request_policy_name := domain +:+ "-origin-request-policy" in
    let response_policy_name := domain +:+ "-response-headers-policy" in
    let cache_policy_name := domain +:+ "-cache-policy" in
    get_or_create_step
      (CloudFrontClient.get_origin_request_policy request_policy_name)
      (CloudFrontClient.create_origin_request_policy request_policy_name)
      w found_request request_policy w1 /\
    get_or_create_step
      (CloudFrontClient.get_response_headers_policy response_policy_name)
      (CloudFrontClient.create_response_headers_policy response_policy_name)
      w1 found_response response_policy w2 /\
    get_or_create_step
      (CloudFrontClient.get_cache_policy cache_policy_name)
      (create_cache_policy_from cache_config cache_policy_name)
      w2 found_cache cache_policy w3 /\
    get_or_create_step
      (CloudFrontClient.get_distribution domain)
      (CloudFrontClient.create_distribution domain
         (CachePolicy.Id cache_policy)
         (OriginRequestPolicy.Id request_policy)
         (ResponseHeadersPolicy.Id response_policy)
         (origin_config !! "alias"))
      w3 found_distribution distribution w' /\
    (found_cache = None ->
     cache_config !! "min_ttl" = Some min_ttl /\
     cache_config !! "default_ttl" = Some default_ttl /\
     cache_config !! "max_ttl" = Some max_ttl) /\
    journal w' = journal w ++ evs /\
    evs =
      step_events (ListOriginRequestPolicies "custom")
        (CreateOriginRequestPolicy
           (CloudFrontClient.origin_request_policy_config request_policy_name))
        found_request
      ++ step_events (ListResponseHeadersPolicies "custom")
           (CreateResponseHeadersPolicy
              (CloudFrontClient.response_headers_policy_config
                 response_policy_name))
           found_response
      ++ step_events (ListCachePolicies "custom")
           (CreateCachePolicy
              (CloudFrontClient.cache_policy_config cache_policy_name
                 min_ttl default_ttl max_ttl))
           found_cache
      ++ step_events ListDistributions
           (CreateDistribution
              (CloudFrontClient.distribution_config (uuids w (drawn w)) domain
                 (CachePolicy.Id cache_policy)
                 (OriginRequestPolicy.Id request_policy)
                 (ResponseHeadersPolicy.Id response_policy)
                 (match origin_config !! "alias" with
                  | None => ∅
                  | Some a => a
                  end)))
           found_distribution /\
    (is_Some found_distribution ->
     Forall (fun e => creates_distribution e = false) evs) /\
    Forall (fun e => is_lookup e = true \/ is_create e = true) evs.

(** One pass per item, in the order of the items, each starting in the world
    the pass before it left. *)
Fixpoint passes {S}
    (pass : string -> OriginConfig -> World S -> World S -> Prop)
    (items : odict OriginConfig) (w w' : World S) : Prop :=
  match items with
  | [] => w' = w
  | (domain, origin_config) :: rest =>
      exists w1, pass domain origin_config w w1 /\ passes pass rest w1 w'
  end.

(** ** Vocabulary of the further properties *)

(** The first key an entry of [CLOUDFRONT_EXTRA_DOMAINS] lacks, in the order
    in which the dict comprehension reads them. *)
Definition missing_key (x : gmap string string) : option string :=
  match x !! "domain", x !! "alias", x !! "certificate_arn" with
  | None, _, _ => Some "domain"
  | Some _, None, _ => Some "alias"
  | Some _, Some _, None => Some "certificate_arn"
  | Some _, Some _, Some _ => None
  end.

(** The first TTL key [cache_config] lacks, in the order in which the call
    of [create_cache_policy] reads them. *)
Definition missing_ttl (cache_config : gmap string Z) : option string :=
  match cache_config !! "default_ttl", cache_config !! "min_ttl",
        cache_config !! "max_ttl" with
  | None, _, _ => Some "default_ttl"
  | Some _, None, _ => Some "min_ttl"
  | Some _, Some _, None => Some "max_ttl"
  | Some _, Some _, Some _ => None
  end.

(** The idempotency tokens of the distribution creations among [evs]. *)
Definition caller_references (evs : list Event) : list string :=
  omap (fun e =>
          match e with
          | CreateDistribution cfg => Some (DistributionConfig.CallerReference cfg)
          | _ => None
          end) evs.

(** How many events of [evs] pass the test [f]. *)
Definition count_events (f : Event -> bool) (evs : list Event) : nat :=
  length (List.filter f evs).

(** A distribution configuration is coherent when it either relies on the
    provider's default certificate and registers no alias, or registers one
    alias together with a certificate of its own. *)
Definition coherent (cfg : DistributionConfig.t) : Prop :=
  let vc := DistributionConfig.ViewerCertificate cfg in
  (DistributionConfig.Aliases cfg = None /\
   DistributionConfig.CloudFrontDefaultCertificate vc = true /\
   DistributionConfig.SSLSupportMethod vc = "static-ip" /\
   DistributionConfig.ACMCertificateArn vc = None)
  \/ (exists alias_domain arn,
        DistributionConfig.Aliases cfg
          = Some {| DistributionConfig.a_Items := [alias_domain] |} /\
        DistributionConfig.CloudFrontDefaultCertificate vc = false /\
        DistributionConfig.SSLSupportMethod vc = "sni-only" /\
        DistributionConfig.ACMCertificateArn vc = Some arn).

(** *** A provider with a call budget

    The reference provider behind a quota: each call spends one unit of the
    budget, and a call made with no budget left raises and changes nothing. *)

Module Throttled.

Record t := { cloud : Cloud.t; budget : nat }.

Definition guarded {A} (op : Cloud.t -> (exn + A) * Cloud.t) (st : t)
  : (exn + A) * t :=
  match budget st with
  | O => (inl (ClientError "Throttling"), st)
  | Datatypes.S n =>
      let '(r, c') := op (cloud st) in
      (r, {| cloud := c'; budget := n |})
  end.

#[global] Instance client : boto3.Client t := {|
  boto3.list_cache_policies ty := guarded (boto3.list_cache_policies ty);
  boto3.create_cache_policy cfg := guarded (boto3.create_cache_policy cfg);
  boto3.list_origin_request_policies ty :=
    guarded (boto3.list_origin_request_policies ty);
  boto3.create_origin_request_policy cfg :=
    guarded (boto3.create_origin_request_policy cfg);
  boto3.list_response_headers_policies ty :=
    guarded (boto3.list_response_headers_policies ty);
  boto3.create_response_headers_policy cfg :=
    guarded (boto3.create_response_headers_policy cfg);
  boto3.list_distributions := guarded boto3.list_distributions;
  boto3.create_distribution cfg := guarded (boto3.create_distribution cfg);
|}.

(** A world around an empty provider that allows [n] calls. *)
Definition world (n : nat) : World t :=
  {| remote := {| cloud := Cloud.empty Cloud.edge_hostname; budget := n |};
     journal := []; uuids := fun k => "uuid-" +:+ pretty k; drawn := 0 |}.

End Throttled.

(** A provider that lists a distribution under the domain name of its origin
    and already holds the three policies and the distribution of [lms.x], and
    a distribution for [cms.x]. *)
Definition provisioned_cloud : Cloud.t :=
  let c := Cloud.empty Cloud.origin_hostname in
  let c := snd (Cloud.add_origin_request_policy
                  (CloudFrontClient.origin_request_policy_config
                     "lms.x-origin-request-policy") c) in
  let c := snd (Cloud.add_response_headers_policy
                  (CloudFrontClient.response_headers_policy_config
                     "lms.x-response-headers-policy") c) in
  let c := snd (Cloud.add_cache_policy
                  (CloudFrontClient.cache_policy_config
                     "lms.x-cache-policy" 0 300 3600) c) in
  let c := snd (Cloud.add_distribution
                  (CloudFrontClient.distribution_config
                     "uuid-a" "lms.x" "id-2" "id-0" "id-1" ∅) c) in
  let c := snd (Cloud.add_distribution
                  (CloudFrontClient.distribution_config
                     "uuid-b" "cms.x" "id-2" "id-0" "id-1" ∅) c) in
  c.

Definition mirrored_world : World Cloud.t := Cloud.world provisioned_cloud.

(** * Properties *)

(** ** Sanitization *)

Example sanitize_name_example :
  sanitize_name "Example.com" = "example-com".
Proof. reflexivity. Qed.

Example sanitize_name_spaces :
  sanitize_name "My Site.Example.ORG" = "my-site-example-org".
Proof. reflexivity. Qed.

Lemma sanitize_name_cons c s :
  sanitize_name (String c s) = String (Str.sanitize_char c) (sanitize_name s).
Proof.
  unfold sanitize_name, Str.sanitize_char; cbn [Str.lower Str.replace].
  f_equal.
  destruct c as [[] [] [] [] [] [] [] []]; reflexivity.
Qed.

Lemma sanitize_name_map s : sanitize_name s = Str.map Str.sanitize_char s.
Proof.
  induction s as [|c s IH]; [reflexivity|].
  rewrite sanitize_name_cons, IH. reflexivity.
Qed.

(** The ASCII model is the method on ASCII names. *)

Lemma codes_app (a b : string) :
  PyStr.codes (a +:+ b) = PyStr.codes a ++ PyStr.codes b.
Proof.
  induction a as [|c a IH]; [reflexivity|].
  change (String c a +:+ b) with (String c (a +:+ b)).
  cbn [PyStr.codes app]. by rewrite IH.
Qed.

Section UnicodeLower.
Variable U : PyStr.UnicodeData.
Hypothesis HU : PyStr.sound U.

Lemma settled_of_clean_ascii c :
  (c < 128)%N -> PyStr.clean c = true -> PyStr.settled U c.
Proof.
  intros Hc Hclean. split.
  - rewrite (PyStr.lower_ascii U HU c Hc). unfold PyStr.ascii_lower.
    unfold PyStr.clean in Hclean.
    destruct (N.leb 65 c && N.leb c 90)%bool; [discriminate|reflexivity].
  - unfold PyStr.capital_sigma. lia.
Qed.

Lemma settled_hyphen : PyStr.settled U PyStr.hyphen.
Proof. apply settled_of_clean_ascii; reflexivity. Qed.

Lemma handle_capital_sigma_settled before after :
  PyStr.settled U (PyStr.handle_capital_sigma U before after).
Proof.
  destruct (PyStr.sigmas_settled U HU) as [Hsmall Hfinal].
  unfold PyStr.handle_capital_sigma. cbv zeta.
  repeat case_match; assumption.
Qed.

Lemma lower_from_settled before x :
  Forall (PyStr.settled U) (PyStr.lower_from U before x).
Proof.
  revert before.
  induction x as [|c x IH]; intros before; cbn [PyStr.lower_from];
    [constructor|].
  apply Forall_app. split; [|apply IH].
  destruct (N.eqb c PyStr.capital_sigma).
  - apply Forall_singleton, handle_capital_sigma_settled.
  - apply Forall_forall. intros c' Hc'.
    exact (PyStr.lower_settled U HU c c' Hc').
Qed.

Lemma lower_from_fixed before x :
  Forall (PyStr.settled U) x -> PyStr.lower_from U before x = x.
Proof.
  intros Hx. revert before.
  induction Hx as [|c x [Hc Hn] _ IH]; intros before;
    cbn [PyStr.lower_from]; [reflexivity|].
  apply N.eqb_neq in Hn. rewrite Hn, Hc, IH. reflexivity.
Qed.

Lemma replace_settled old x :
  Forall (PyStr.settled U) x ->
  Forall (PyStr.settled U) (PyStr.replace old PyStr.hyphen x).
Proof.
  intros Hx. unfold PyStr.replace.
  induction Hx as [|c x Hc _ IH]; cbn [map]; constructor; [|exact IH].
  destruct (N.eqb c old); [apply settled_hyphen | exact Hc].
Qed.

Lemma sanitize_name_settled x :
  Forall (PyStr.settled U) (PyStr.sanitize_name U x).
Proof.
  unfold PyStr.sanitize_name, PyStr.lower.
  do 2 apply replace_settled. apply lower_from_settled.
Qed.

End UnicodeLower.

Lemma hyphenate_replace x :
  PyStr.replace PyStr.space PyStr.hyphen
    (PyStr.replace PyStr.full_stop PyStr.hyphen x)
  = map PyStr.hyphenate x.
Proof.
  unfold PyStr.replace. induction x as [|c x IH]; [reflexivity|].
  cbn [map]. rewrite IH. f_equal.
  unfold PyStr.hyphenate, PyStr.full_stop, PyStr.space, PyStr.hyphen.
  destruct (N.eqb_spec c 46) as [->|H46]; [reflexivity|].
  destruct (N.eqb_spec c 32); reflexivity.
Qed.

Lemma hyphenate_idem c :
  PyStr.hyphenate (PyStr.hyphenate c) = PyStr.hyphenate c.
Proof.
  unfold PyStr.hyphenate, PyStr.full_stop, PyStr.space, PyStr.hyphen.
  destruct (N.eqb_spec c 46) as [->|H46]; [reflexivity|].
  destruct (N.eqb_spec c 32) as [->|H32]; [reflexivity|].
  cbn [orb].
  destruct (N.eqb_spec c 46); [contradiction|].
  destruct (N.eqb_spec c 32); [contradiction|]. reflexivity.
Qed.

Lemma fragment_sound : PyStr.sound PyStr.fragment.
Proof.
  split.
  - intros c Hc. cbn [PyStr.to_lower_full PyStr.fragment].
    repeat match goal with
           | |- context [N.eqb c ?n] => destruct (N.eqb_spec c n); [lia|]
           end.
    reflexivity.
  - intros c c' Hin.
    assert (Hc' : c' <> 304%N /\ c' <> 201%N /\ c' <> 913%N /\ c' <> 931%N
                  /\ ((c' < 65)%N \/ (90 < c')%N)).
    { cbn [PyStr.to_lower_full PyStr.fragment] in Hin.
      unfold PyStr.ascii_lower in Hin.
      repeat match type of Hin with
             | context [N.eqb c ?n] => destruct (N.eqb_spec c n)
             end;
        try (destruct (N.leb_spec 65 c), (N.leb_spec c 90); cbn [andb] in Hin);
        set_unfold in Hin; lia. }
    destruct Hc' as (H304 & H201 & H913 & H931 & Hup).
    split; [|exact H931].
    cbn [PyStr.to_lower_full PyStr.fragment]. unfold PyStr.ascii_lower.
    repeat match goal with
           | |- context [N.eqb c' ?n] =>
               destruct (N.eqb_spec c' n); [contradiction|]
           end.
    destruct (N.leb_spec 65 c'), (N.leb_spec c' 90); cbn [andb];
      first [reflexivity | lia].
  - split; split; first [reflexivity | discriminate].
  - split; reflexivity.
Qed.

(** C8: sanitization, on every Python string, is lowercasing followed by
    turning each full stop and each space into a hyphen, and it is
    idempotent: sanitizing a sanitized name gives it back. Lowercasing is
    [str.lower] with its Unicode rules (a code point may lowercase to several,
    a capital sigma according to its neighbours); what is used of the
    Unicode data is stated by [PyStr.sound]. *)
Theorem sanitize_name_is_lower_then_hyphens_and_idempotent
    (U : PyStr.UnicodeData) (x : PyStr.str) :
  PyStr.sound U ->
  PyStr.sanitize_name U x = map PyStr.hyphenate (PyStr.lower U x) /\
  PyStr.sanitize_name U (PyStr.sanitize_name U x) = PyStr.sanitize_name U x.
Proof.
  intros HU. split; [apply hyphenate_replace|].
  pose proof (sanitize_name_settled U HU x) as Hsettled.
  unfold PyStr.sanitize_name at 1. unfold PyStr.lower.
  rewrite (lower_from_fixed U [] _ Hsettled).
  unfold PyStr.sanitize_name. rewrite !hyphenate_replace.
  rewrite map_map. apply map_ext. intros c. apply hyphenate_idem.
Qed.

Lemma sanitize_name_is_lower_then_hyphens_and_idempotent_witness :
  let x : PyStr.str := [304; 115; 116; 97; 110; 98; 117; 108; 46; 84; 82]%N in
  PyStr.sanitize_name PyStr.fragment x
    = map PyStr.hyphenate (PyStr.lower PyStr.fragment x) /\
  PyStr.sanitize_name PyStr.fragment (PyStr.sanitize_name PyStr.fragment x)
    = PyStr.sanitize_name PyStr.fragment x.
Proof.
  cbv zeta.
  apply (sanitize_name_is_lower_then_hyphens_and_idempotent PyStr.fragment).
  exact fragment_sound.
Defined.

(** [ÉCOLE.fr] becomes [école-fr]. *)
Example sanitize_name_accented :
  PyStr.sanitize_name PyStr.fragment [201; 67; 79; 76; 69; 46; 102; 114]%N
  = [233; 99; 111; 108; 101; 45; 102; 114]%N.
Proof. reflexivity. Qed.

(** [İstanbul.tr], eleven code points, becomes the twelve code points of
    [i̇stanbul-tr]. *)
Example sanitize_name_may_grow :
  PyStr.sanitize_name PyStr.fragment
    [304; 115; 116; 97; 110; 98; 117; 108; 46; 116; 114]%N
  = [105; 775; 115; 116; 97; 110; 98; 117; 108; 45; 116; 114]%N.
Proof. reflexivity. Qed.

(** A capital sigma after a letter becomes a final sigma at the end of the
    name and a small sigma before a letter. *)
Example lower_capital_sigma :
  PyStr.lower PyStr.fragment [913; 931]%N = [945; 962]%N /\
  PyStr.lower PyStr.fragment [913; 931; 120]%N = [945; 963; 120]%N /\
  PyStr.lower PyStr.fragment [931]%N = [963]%N.
Proof. repeat split; reflexivity. Qed.

(** Lowercasing alone is not computed code point by code point, and neither
    is sanitization: the full stop is skipped when the neighbours of a
    capital sigma are looked at, the hyphen that replaces it is not. *)
Example sanitize_name_sigma_before_full_stop :
  PyStr.sanitize_name PyStr.fragment [913; 931; 46; 120]%N
    = [945; 963; 45; 120]%N /\
  PyStr.sanitize_name PyStr.fragment [913; 931; 45; 120]%N
    = [945; 962; 45; 120]%N.
Proof. split; reflexivity. Qed.


(** ** The monad *)

Section MonadFacts.
Context {S : Type}.

Lemma bind_inr {A B} (m : M S A) (k : A -> M S B) w b w' :
  bind m k w = (inr b, w') <->
  exists a w1, m w = (inr a, w1) /\ k a w1 = (inr b, w').
Proof.
  unfold bind. destruct (m w) as [[e|a] w1]; split.
  - discriminate.
  - intros (a & w2 & Hm & _); discriminate.
  - intros Hk; exists a, w1; auto.
  - intros (a' & w2 & Hm & Hk); congruence.
Qed.

Lemma bind_run {A B} (m : M S A) (k : A -> M S B) w a w1 :
  m w = (inr a, w1) -> bind m k w = k a w1.
Proof. unfold bind; intros ->; reflexivity. Qed.

Lemma bind_raise {A B} (m : M S A) (k : A -> M S B) w e w1 :
  m w = (inl e, w1) -> bind m k w = (inl e, w1).
Proof. unfold bind; intros ->; reflexivity. Qed.

Lemma call_run {A} (e : Event) (op : S -> (exn + A) * S) (w : World S) :
  call e op w = (fst (op (remote w)), set_remote (snd (op (remote w))) (log_event e w)).
Proof.
  unfold call, bind, emit; cbn.
  destruct (op (remote w)) as [r s']; reflexivity.
Qed.

Lemma journal_set_remote (s : S) (w : World S) :
  journal (set_remote s w) = journal w.
Proof. reflexivity. Qed.

Lemma journal_log_event e (w : World S) :
  journal (log_event e w) = journal w ++ [e].
Proof. reflexivity. Qed.

Lemma getitem_inr {V} (d : gmap string V) key (w w' : World S) v :
  getitem d key w = (inr v, w') <-> d !! key = Some v /\ w' = w.
Proof.
  unfold getitem. destruct (d !! key) as [v'|]; cbn; split.
  - intros [= -> ->]; auto.
  - intros [[= ->] ->]; reflexivity.
  - discriminate.
  - intros [? _]; discriminate.
Qed.
End MonadFacts.

(** ** Loops with an early return *)

Lemma first_match_first_named {A B} (proj : A -> B) (name_of : B -> string)
    (n : string) (items : list A) :
  first_named name_of n (map proj items)
    (first_match
       (fun item => if String.eqb (name_of (proj item)) n
                    then Some (proj item) else None)
       items).
Proof.
  induction items as [|x items IH]; cbn.
  - constructor.
  - destruct (String.eqb (name_of (proj x)) n) eqn:E.
    + apply String.eqb_eq in E.
      exists [], (map proj items). repeat split; auto.
    + apply String.eqb_neq in E.
      destruct (first_match _ items) as [p|]; cbn in *.
      * destruct IH as (before & after & Hl & Hn & Hb).
        exists (proj x :: before), after. rewrite Hl.
        repeat split; auto.
      * constructor; auto.
Qed.

(** The first element with a given name is unique. *)
Lemma first_named_unique {A} (name_of : A -> string) n (l : list A) r1 r2 :
  first_named name_of n l r1 -> first_named name_of n l r2 -> r1 = r2.
Proof.
  revert r1 r2. induction l as [|x l IH]; intros r1 r2 H1 H2.
  - destruct r1 as [p|]; [destruct H1 as ([|] & ? & ? & _); discriminate|].
    destruct r2 as [p|]; [destruct H2 as ([|] & ? & ? & _); discriminate|].
    reflexivity.
  - destruct (String.eqb (name_of x) n) eqn:E.
    + apply String.eqb_eq in E.
      assert (Hx : forall r, first_named name_of n (x :: l) r -> r = Some x).
      { intros [p|] Hr; cbn in Hr.
        - destruct Hr as ([|y before] & after & Hl & Hn & Hb).
          + injection Hl as -> _. reflexivity.
          + injection Hl as <- _. inversion Hb; subst. contradiction.
        - inversion Hr; subst. contradiction. }
      rewrite (Hx _ H1), (Hx _ H2). reflexivity.
    + apply String.eqb_neq in E.
      assert (Hx : forall r, first_named name_of n (x :: l) r ->
                             first_named name_of n l r).
      { intros [p|] Hr; cbn in *.
        - destruct Hr as ([|y before] & after & Hl & Hn & Hb).
          + injection Hl as -> _. contradiction.
          + injection Hl as <- ->. inversion Hb; subst.
            exists before, after. auto.
        - inversion Hr; auto. }
      apply IH; auto.
Qed.

(** ** The client's methods, run on a world *)

Section ClientFacts.
Context {S : Type} `{!boto3.Client S}.

Lemma get_cache_policy_run name (w : World S) resp s' :
  boto3.list_cache_policies "custom" (remote w) = (inr resp, s') ->
  exists r,
    CloudFrontClient.get_cache_policy name w =
      (inr r, set_remote s' (log_event (ListCachePolicies "custom") w)) /\
    first_named cache_policy_name (sanitize_name name)
      (listed CachePolicy_ (CachePolicyList resp)) r.
Proof.
  intros Hop. unfold CloudFrontClient.get_cache_policy.
  eexists; split.
  - erewrite bind_run; [reflexivity|]. rewrite call_run, Hop. reflexivity.
  - apply (first_match_first_named CachePolicy_ cache_policy_name).
Qed.

Lemma get_origin_request_policy_run name (w : World S) resp s' :
  boto3.list_origin_request_policies "custom" (remote w) = (inr resp, s') ->
  exists r,
    CloudFrontClient.get_origin_request_policy name w =
      (inr r, set_remote s' (log_event (ListOriginRequestPolicies "custom") w)) /\
    first_named origin_request_policy_name (sanitize_name name)
      (listed OriginRequestPolicy_ (OriginRequestPolicyList resp)) r.
Proof.
  intros Hop. unfold CloudFrontClient.get_origin_request_policy.
  eexists; split.
  - erewrite bind_run; [reflexivity|]. rewrite call_run, Hop. reflexivity.
  - apply (first_match_first_named OriginRequestPolicy_ origin_request_policy_name).
Qed.

Lemma get_response_headers_policy_run name (w : World S) resp s' :
  boto3.list_response_headers_policies "custom" (remote w) = (inr resp, s') ->
  exists r,
    CloudFrontClient.get_response_headers_policy name w =
      (inr r, set_remote s' (log_event (ListResponseHeadersPolicies "custom") w)) /\
    first_named response_headers_policy_name (sanitize_name name)
      (listed ResponseHeadersPolicy_ (ResponseHeadersPolicyList resp)) r.
Proof.
  intros Hop. unfold CloudFrontClient.get_response_headers_policy.
  eexists; split.
  - erewrite bind_run; [reflexivity|]. rewrite call_run, Hop. reflexivity.
  - apply (first_match_first_named ResponseHeadersPolicy_
             response_headers_policy_name).
Qed.

Lemma get_distribution_run domain (w : World S) resp s' :
  boto3.list_distributions (remote w) = (inr resp, s') ->
  exists r,
    CloudFrontClient.get_distribution domain w =
      (inr r, set_remote s' (log_event ListDistributions w)) /\
    first_named Distribution.DomainName domain
      (listed id (DistributionList resp)) r.
Proof.
  intros Hop. unfold CloudFrontClient.get_distribution.
  eexists; split.
  - erewrite bind_run; [reflexivity|]. rewrite call_run, Hop. reflexivity.
  - apply (first_match_first_named id Distribution.DomainName).
Qed.

End ClientFacts.

Section CreateFacts.
Context {S : Type} `{!boto3.Client S}.

Lemma create_cache_policy_run name min_ttl default_ttl max_ttl (w : World S) :
  let cfg := CloudFrontClient.cache_policy_config name min_ttl default_ttl max_ttl in
  let res := boto3.create_cache_policy cfg (remote w) in
  CloudFrontClient.create_cache_policy name min_ttl default_ttl max_ttl w =
    (match fst res with
     | inl e => inl e
     | inr resp => inr (resp_CachePolicy resp)
     end,
     set_remote (snd res) (log_event (CreateCachePolicy cfg) w)).
Proof.
  cbv zeta. unfold CloudFrontClient.create_cache_policy, bind.
  rewrite call_run.
  destruct (boto3.create_cache_policy _ _) as [[e|resp] s']; reflexivity.
Qed.

Lemma create_origin_request_policy_run name (w : World S) :
  let cfg := CloudFrontClient.origin_request_policy_config name in
  let res := boto3.create_origin_request_policy cfg (remote w) in
  CloudFrontClient.create_origin_request_policy name w =
    (match fst res with
     | inl e => inl e
     | inr resp => inr (resp_OriginRequestPolicy resp)
     end,
     set_remote (snd res) (log_event (CreateOriginRequestPolicy cfg) w)).
Proof.
  cbv zeta. unfold CloudFrontClient.create_origin_request_policy, bind.
  rewrite call_run.
  destruct (boto3.create_origin_request_policy _ _) as [[e|resp] s']; reflexivity.
Qed.

Lemma create_response_headers_policy_run name (w : World S) :
  let cfg := CloudFrontClient.response_headers_policy_config name in
  let res := boto3.create_response_headers_policy cfg (remote w) in
  CloudFrontClient.create_response_headers_policy name w =
    (match fst res with
     | inl e => inl e
     | inr resp => inr (resp_ResponseHeadersPolicy resp)
     end,
     set_remote (snd res) (log_event (CreateResponseHeadersPolicy cfg) w)).
Proof.
  cbv zeta. unfold CloudFrontClient.create_response_headers_policy, bind.
  rewrite call_run.
  destruct (boto3.create_response_headers_policy _ _) as [[e|resp] s']; reflexivity.
Qed.

Lemma create_distribution_run domain cp orp rhp alias (w : World S) :
  let cfg :=
    CloudFrontClient.distribution_config (uuids w (drawn w)) domain cp orp rhp
      (match alias with None => ∅ | Some a => a end) in
  let res := boto3.create_distribution cfg (remote w) in
  CloudFrontClient.create_distribution domain cp orp rhp alias w =
    (match fst res with
     | inl e => inl e
     | inr resp => inr (resp_Distribution resp)
     end,
     set_remote (snd res) (log_event (CreateDistribution cfg) (draw w))).
Proof.
  cbv zeta. unfold CloudFrontClient.create_distribution, bind, uuid4.
  rewrite call_run. cbn [remote draw].
  destruct (boto3.create_distribution _ _) as [[e|resp] s']; reflexivity.
Qed.

Lemma size_pos_of_lookup {V} (d : gmap string V) k v :
  d !! k = Some v -> size d <> 0%nat.
Proof.
  intros Hk Hsz. apply map_size_empty_inv in Hsz. subst d.
  rewrite lookup_empty in Hk. discriminate.
Qed.

Lemma len_is_0_of_lookup {V} (d : gmap string V) k v :
  d !! k = Some v -> len_is_0 d = false.
Proof.
  intros Hk. unfold len_is_0. apply Nat.eqb_neq.
  exact (size_pos_of_lookup d k v Hk).
Qed.

Lemma truthy_of_lookup {V} (d : gmap string V) k v :
  d !! k = Some v -> truthy d = true.
Proof.
  intros Hk. unfold truthy.
  change (negb (len_is_0 d) = true).
  rewrite (len_is_0_of_lookup d k v Hk). reflexivity.
Qed.

End CreateFacts.

(** ** Lookup by name *)



(** Of the two cache policies named [example-com], the one listed first is
    returned; a name that no policy has gives [None]. *)
Example get_cache_policy_takes_first :
  match fst (CloudFrontClient.get_cache_policy "Example.com"
               (Cloud.world stocked_cloud)) with
  | inr (Some p) => Some (CachePolicy.Id p, CachePolicyConfig.MaxTTL
                                              (CachePolicy.CachePolicyConfig_ p))
  | _ => None
  end = Some ("id-1", 2).
Proof. vm_compute. reflexivity. Qed.

Example get_cache_policy_absent :
  fst (CloudFrontClient.get_cache_policy "example.org"
         (Cloud.world stocked_cloud)) = inr None.
Proof. vm_compute. reflexivity. Qed.

(** ** The distribution configuration *)

(** C5: without an alias ([alias=None]) the creation call carries a
    configuration with no [Aliases] key, the provider's default certificate
    switched on and [SSLSupportMethod] equal to [static-ip]. *)
Theorem create_distribution_without_alias
    {S : Type} `{!boto3.Client S}
    (domain cache_policy_id origin_request_policy_id
       response_headers_policy_id : string) (w : World S) :
  exists cfg,
    journal (snd (CloudFrontClient.create_distribution domain cache_policy_id
                    origin_request_policy_id response_headers_policy_id None w))
      = journal w ++ [CreateDistribution cfg] /\
    DistributionConfig.Aliases cfg = None /\
    DistributionConfig.CloudFrontDefaultCertificate
      (DistributionConfig.ViewerCertificate cfg) = true /\
    DistributionConfig.SSLSupportMethod
      (DistributionConfig.ViewerCertificate cfg) = "static-ip".
Proof.
  eexists. rewrite create_distribution_run. cbn [snd].
  rewrite journal_set_remote, journal_log_event.
  split; [reflexivity|].
  repeat split; reflexivity.
Qed.

(** C6: with an alias dict that has both keys, the alias domain is the only
    item of [Aliases], the certificate ARN is attached as
    [ACMCertificateArn], and [SSLSupportMethod] is [sni-only]. *)
Theorem create_distribution_with_alias
    {S : Type} `{!boto3.Client S}
    (domain cache_policy_id origin_request_policy_id
       response_headers_policy_id : string)
    (alias : gmap string string) (alias_domain arn : string) (w : World S) :
  alias !! "domain" = Some alias_domain ->
  alias !! "certificate_arn" = Some arn ->
  exists cfg,
    journal (snd (CloudFrontClient.create_distribution domain cache_policy_id
                    origin_request_policy_id response_headers_policy_id
                    (Some alias) w))
      = journal w ++ [CreateDistribution cfg] /\
    DistributionConfig.Aliases cfg
      = Some {| DistributionConfig.a_Items := [alias_domain] |} /\
    DistributionConfig.ACMCertificateArn
      (DistributionConfig.ViewerCertificate cfg) = Some arn /\
    DistributionConfig.SSLSupportMethod
      (DistributionConfig.ViewerCertificate cfg) = "sni-only".
Proof.
  intros Hd Ha. eexists. rewrite create_distribution_run. cbn [snd].
  rewrite journal_set_remote, journal_log_event.
  split; [reflexivity|].
  unfold CloudFrontClient.distribution_config.
  rewrite Hd, Ha, (truthy_of_lookup alias _ _ Hd).
  repeat split; reflexivity.
Qed.

Lemma create_distribution_with_alias_witness :
  exists cfg,
    journal (snd (CloudFrontClient.create_distribution
                    "cdn.example.com" "cp-id" "orp-id" "rhp-id"
                    (Some example_alias)
                    (Cloud.world (Cloud.empty Cloud.edge_hostname))))
      = [] ++ [CreateDistribution cfg] /\
    DistributionConfig.Aliases cfg
      = Some {| DistributionConfig.a_Items := ["mfe.example.com"] |} /\
    DistributionConfig.ACMCertificateArn
      (DistributionConfig.ViewerCertificate cfg) = Some "arn:x" /\
    DistributionConfig.SSLSupportMethod
      (DistributionConfig.ViewerCertificate cfg) = "sni-only".
Proof.
  apply (create_distribution_with_alias
           "cdn.example.com" "cp-id" "orp-id" "rhp-id" example_alias
           "mfe.example.com" "arn:x"
           (Cloud.world (Cloud.empty Cloud.edge_hostname))).
  - vm_compute; reflexivity.
  - vm_compute; reflexivity.
Defined.

(** C10: an alias dict with a certificate ARN and no ["domain"] key is
    accepted as it is: the client raises nothing of its own, the creation
    call is made and its outcome is the provider's; the configuration sent
    has no [Aliases] key, the default certificate switched off,
    [SSLSupportMethod] equal to [sni-only] and the ARN attached. *)
Theorem create_distribution_certificate_without_domain
    {S : Type} `{!boto3.Client S}
    (domain cache_policy_id origin_request_policy_id
       response_headers_policy_id : string)
    (alias : gmap string string) (arn : string) (w : World S) :
  alias !! "domain" = None ->
  alias !! "certificate_arn" = Some arn ->
  exists cfg,
    let out :=
      CloudFrontClient.create_distribution domain cache_policy_id
        origin_request_policy_id response_headers_policy_id (Some alias) w in
    journal (snd out) = journal w ++ [CreateDistribution cfg] /\
    (forall e, fst out = inl e ->
               fst (boto3.create_distribution cfg (remote w)) = inl e) /\
    (forall resp s',
        boto3.create_distribution cfg (remote w) = (inr resp, s') ->
        fst out = inr (resp_Distribution resp)) /\
    DistributionConfig.Aliases cfg = None /\
    DistributionConfig.CloudFrontDefaultCertificate
      (DistributionConfig.ViewerCertificate cfg) = false /\
    DistributionConfig.SSLSupportMethod
      (DistributionConfig.ViewerCertificate cfg) = "sni-only" /\
    DistributionConfig.ACMCertificateArn
      (DistributionConfig.ViewerCertificate cfg) = Some arn.
Proof.
  intros Hd Ha. eexists. cbv zeta. rewrite create_distribution_run.
  cbn [fst snd]. rewrite journal_set_remote, journal_log_event.
  split; [reflexivity|].
  split; [|split].
  - intros e He.
    destruct (boto3.create_distribution _ _) as [[e'|resp] s']; cbn in *;
      congruence.
  - intros resp s' Hop. rewrite Hop. reflexivity.
  - unfold CloudFrontClient.distribution_config.
    rewrite Hd, Ha, (truthy_of_lookup alias _ _ Ha),
      (len_is_0_of_lookup alias _ _ Ha).
    repeat split; reflexivity.
Qed.

Lemma create_distribution_certificate_without_domain_witness :
  exists cfg,
    let out :=
      CloudFrontClient.create_distribution
        "cdn.example.com" "cp-id" "orp-id" "rhp-id"
        (Some {[ "certificate_arn" := "arn:x" ]})
        (Cloud.world (Cloud.empty Cloud.edge_hostname)) in
    journal (snd out) = [] ++ [CreateDistribution cfg] /\
    (forall e, fst out = inl e ->
               fst (boto3.create_distribution cfg
                      (Cloud.empty Cloud.edge_hostname)) = inl e) /\
    (forall resp s',
        boto3.create_distribution cfg (Cloud.empty Cloud.edge_hostname)
          = (inr resp, s') ->
        fst out = inr (resp_Distribution resp)) /\
    DistributionConfig.Aliases cfg = None /\
    DistributionConfig.CloudFrontDefaultCertificate
      (DistributionConfig.ViewerCertificate cfg) = false /\
    DistributionConfig.SSLSupportMethod
      (DistributionConfig.ViewerCertificate cfg) = "sni-only" /\
    DistributionConfig.ACMCertificateArn
      (DistributionConfig.ViewerCertificate cfg) = Some "arn:x".
Proof.
  apply (create_distribution_certificate_without_domain
           "cdn.example.com" "cp-id" "orp-id" "rhp-id"
           {[ "certificate_arn" := "arn:x" ]} "arn:x"
           (Cloud.world (Cloud.empty Cloud.edge_hostname))).
  - vm_compute; reflexivity.
  - vm_compute; reflexivity.
Defined.

(** ** The cache policy request *)

(** C7: [create_cache_policy("Example.com", 0, 300, 3600)] issues one
    cache-policy creation call; its configuration is named [example-com],
    has TTLs 0, 300 and 3600, and forwards with gzip and brotli enabled,
    the header whitelist [Origin], no cookies and all query strings. *)
Theorem create_cache_policy_example_request
    {S : Type} `{!boto3.Client S} (w : World S) :
  exists cfg,
    journal (snd (CloudFrontClient.create_cache_policy "Example.com" 0 300 3600 w))
      = journal w ++ [CreateCachePolicy cfg] /\
    CachePolicyConfig.Name cfg = "example-com" /\
    CachePolicyConfig.MinTTL cfg = 0 /\
    CachePolicyConfig.DefaultTTL cfg = 300 /\
    CachePolicyConfig.MaxTTL cfg = 3600 /\
    CachePolicyConfig.ParametersInCacheKeyAndForwardedToOrigin cfg =
      {| CachePolicyConfig.EnableAcceptEncodingGzip := true;
         CachePolicyConfig.EnableAcceptEncodingBrotli := true;
         CachePolicyConfig.HeadersConfig_ :=
           {| HeaderBehavior := "whitelist";
              Headers := {| Quantity := 1; Items := ["Origin"] |} |};
         CachePolicyConfig.CookiesConfig_ := {| CookieBehavior := "none" |};
         CachePolicyConfig.QueryStringsConfig_ :=
           {| QueryStringBehavior := "all" |} |}.
Proof.
  eexists. rewrite create_cache_policy_run. cbn [snd].
  rewrite journal_set_remote, journal_log_event.
  split; [reflexivity|].
  repeat split; reflexivity.
Qed.

(** ** The set of domains *)

Section Dicts.
Context {V : Type}.
Implicit Types (d : odict V) (k : string) (v : V).

Lemma dict_get_set k k' v d :
  dict_get k (dict_set k' v d) =
    if String.eqb k' k then Some v else dict_get k d.
Proof.
  induction d as [|[k0 v0] d IH]; cbn.
  - reflexivity.
  - destruct (String.eqb_spec k0 k') as [->|Hne]; cbn.
    + destruct (String.eqb k' k); reflexivity.
    + rewrite IH. destruct (String.eqb_spec k0 k) as [->|Hne'].
      * destruct (String.eqb_spec k' k) as [->|]; [contradiction|reflexivity].
      * reflexivity.
Qed.

Lemma dict_keys_set k v d :
  dict_keys (dict_set k v d) = add_key k (dict_keys d).
Proof.
  unfold add_key, dict_keys. induction d as [|[k0 v0] d IH]; cbn.
  - rewrite decide_False; [reflexivity|]. apply not_elem_of_nil.
  - destruct (String.eqb_spec k0 k) as [->|Hne]; cbn.
    + rewrite decide_True; [reflexivity|]. apply list_elem_of_here.
    + rewrite IH. destruct (decide (k ∈ map fst d)) as [Hin|Hnin].
      * rewrite decide_True; [reflexivity|]. by apply list_elem_of_further.
      * rewrite decide_False; [reflexivity|].
        intros Hin. apply elem_of_cons in Hin as [->|Hin]; contradiction.
Qed.

Lemma add_key_NoDup k (l : list string) : NoDup l -> NoDup (add_key k l).
Proof.
  intros Hl. unfold add_key. destruct (decide (k ∈ l)); [assumption|].
  apply NoDup_app. repeat split; auto.
  - intros x Hx Hx'. apply list_elem_of_singleton in Hx'. subst. contradiction.
  - apply NoDup_singleton.
Qed.

Lemma elem_of_add_key k x (l : list string) :
  x ∈ add_key k l <-> x = k \/ x ∈ l.
Proof.
  unfold add_key. destruct (decide (k ∈ l)) as [Hin|Hnin].
  - split; [auto|]. intros [->|]; auto.
  - rewrite elem_of_app, list_elem_of_singleton. tauto.
Qed.

Lemma dict_keys_update d (ws : list (string * V)) :
  dict_keys (dict_update d ws) =
    fold_left (fun seen k => add_key k seen) (map fst ws) (dict_keys d).
Proof.
  unfold dict_update. revert d.
  induction ws as [|[k v] ws IH]; intros d; cbn [fold_left map fst snd];
    [reflexivity|].
  rewrite IH, dict_keys_set. reflexivity.
Qed.

Lemma dict_get_update k d (ws : list (string * V)) :
  dict_get k (dict_update d ws) = overwrite k (dict_get k d) ws.
Proof.
  unfold dict_update, overwrite. revert d.
  induction ws as [|[k' v] ws IH]; intros d; cbn [fold_left fst snd];
    [reflexivity|].
  rewrite IH, dict_get_set. reflexivity.
Qed.

Lemma overwrite_default k (a : option V) ws :
  overwrite k a ws =
    match last_write k ws with Some v => Some v | None => a end.
Proof.
  unfold last_write, overwrite. revert a.
  induction ws as [|[k' v] ws IH]; intros a; cbn.
  - destruct a; reflexivity.
  - rewrite (IH (if String.eqb k' k then Some v else a)).
    rewrite (IH (if String.eqb k' k then Some v else None)).
    destruct (fold_left _ ws None); [reflexivity|].
    destruct (String.eqb k' k); reflexivity.
Qed.

Lemma overwrite_app k (a : option V) ws1 ws2 :
  overwrite k a (ws1 ++ ws2) = overwrite k (overwrite k a ws1) ws2.
Proof. unfold overwrite. apply fold_left_app. Qed.

Lemma last_write_absent k d :
  k ∉ dict_keys d -> last_write k d = None.
Proof.
  unfold last_write, overwrite, dict_keys.
  induction d as [|[k' v] d IH] using rev_ind; intros Hk; [reflexivity|].
  rewrite fold_left_app; cbn.
  rewrite map_app, elem_of_app in Hk. cbn in Hk.
  destruct (String.eqb_spec k' k) as [->|Hne].
  - exfalso. apply Hk. right. apply list_elem_of_here.
  - apply IH. tauto.
Qed.

(** In a dict, where every key occurs once, the last write of a key is
    its value. *)
Lemma last_write_dict k d :
  NoDup (dict_keys d) -> last_write k d = dict_get k d.
Proof.
  induction d as [|[k' v] d IH]; intros Hnd; [reflexivity|].
  apply NoDup_cons in Hnd as [Hk' Hnd].
  change (last_write k ((k', v) :: d))
    with (overwrite k (if String.eqb k' k then Some v else None) d).
  rewrite overwrite_default. cbn [dict_get].
  destruct (String.eqb_spec k' k) as [->|Hne].
  - rewrite last_write_absent; [reflexivity | exact Hk'].
  - rewrite IH by assumption. destruct (dict_get k d); reflexivity.
Qed.

Lemma dict_update_NoDup d (ws : list (string * V)) :
  NoDup (dict_keys d) -> NoDup (dict_keys (dict_update d ws)).
Proof.
  unfold dict_update. revert d.
  induction ws as [|[k v] ws IH]; intros d Hd; cbn [fold_left fst snd];
    [assumption|].
  apply IH. rewrite dict_keys_set. by apply add_key_NoDup.
Qed.

End Dicts.

Lemma fold_add_key_elem (ks l : list string) x :
  x ∈ fold_left (fun seen k => add_key k seen) ks l <-> x ∈ l \/ x ∈ ks.
Proof.
  revert l. induction ks as [|k ks IH]; intros l; cbn.
  - rewrite elem_of_nil. tauto.
  - rewrite IH, elem_of_add_key, elem_of_cons. tauto.
Qed.

Lemma fold_add_key_NoDup (ks l : list string) :
  NoDup l -> NoDup (fold_left (fun seen k => add_key k seen) ks l).
Proof.
  revert l. induction ks as [|k ks IH]; intros l Hl; cbn; [assumption|].
  apply IH. by apply add_key_NoDup.
Qed.

Lemma fold_add_key_add_key (x : string) (b l : list string) :
  fold_left (fun seen k => add_key k seen) (add_key x b) l =
    add_key x (fold_left (fun seen k => add_key k seen) b l).
Proof.
  unfold add_key at 2 3. destruct (decide (x ∈ b)) as [Hin|Hnin].
  - rewrite decide_True; [reflexivity|]. apply fold_add_key_elem. auto.
  - rewrite fold_left_app. reflexivity.
Qed.

(** Writing the keys of a mapping filled from [m] is the same as writing
    the elements of [m]. *)
Lemma fold_add_key_fold (m a l : list string) :
  fold_left (fun seen k => add_key k seen)
    (fold_left (fun seen k => add_key k seen) m a) l =
  fold_left (fun seen k => add_key k seen) m
    (fold_left (fun seen k => add_key k seen) a l).
Proof.
  induction m as [|x m IH] using rev_ind; [reflexivity|].
  rewrite !fold_left_app. cbn [fold_left].
  rewrite fold_add_key_add_key, IH. reflexivity.
Qed.

Lemma extra_origins_writes extra_config entries acc :
  Forall2 (fun x e => entry_of x = Some e) extra_config entries ->
  extra_origins extra_config acc = inr (dict_update acc entries).
Proof.
  intros H. revert acc.
  induction H as [|x [k v] xs es Hx _ IH]; intros acc; [reflexivity|].
  cbn [extra_origins]. unfold entry_of in Hx. unfold item.
  destruct (x !! "domain") as [k'|]; [|discriminate].
  destruct (x !! "alias") as [a|]; [|discriminate].
  destruct (x !! "certificate_arn") as [c|]; [|discriminate].
  injection Hx as -> <-. rewrite IH. reflexivity.
Qed.

(** C3: the processed domains are the primary LMS domain, the primary CMS
    domain and the domains of the extra entries in their order, each kept
    once at the place of its first occurrence, and the value kept for a
    domain is the one written last. *)
Theorem build_origins_domain_set (loaded_config : LoadedConfig)
    (entries : list (string * OriginConfig)) :
  Forall2 (fun x e => entry_of x = Some e)
    (CLOUDFRONT_EXTRA_DOMAINS loaded_config) entries ->
  let writes :=
    (CLOUDFRONT_LMS_DOMAIN loaded_config, ∅)
      :: (CLOUDFRONT_CMS_DOMAIN loaded_config, ∅) :: entries in
  exists origins,
    build_origins loaded_config = inr origins /\
    NoDup (dict_keys origins) /\
    dict_keys origins = dedup_first (map fst writes) /\
    forall k, dict_get k origins = last_write k writes.
Proof.
  intros Hent writes. unfold build_origins.
  rewrite (extra_origins_writes _ entries [] Hent).
  eexists; split; [reflexivity|].
  set (d0 := dict_set (CLOUDFRONT_CMS_DOMAIN loaded_config) ∅
               (dict_set (CLOUDFRONT_LMS_DOMAIN loaded_config) ∅ [])).
  set (inner := dict_update [] entries).
  assert (Hd0 : dict_keys d0 =
                fold_left (fun seen k => add_key k seen)
                  [CLOUDFRONT_LMS_DOMAIN loaded_config;
                   CLOUDFRONT_CMS_DOMAIN loaded_config] []).
  { unfold d0. rewrite !dict_keys_set. reflexivity. }
  assert (Hin : dict_keys inner =
                fold_left (fun seen k => add_key k seen) (map fst entries) []).
  { unfold inner. rewrite dict_keys_update. reflexivity. }
  assert (Hnd0 : NoDup (dict_keys d0)).
  { rewrite Hd0. apply fold_add_key_NoDup, NoDup_nil_2. }
  assert (Hndi : NoDup (dict_keys inner)).
  { rewrite Hin. apply fold_add_key_NoDup, NoDup_nil_2. }
  split; [|split].
  - by apply dict_update_NoDup.
  - rewrite dict_keys_update.
    change (map fst inner) with (dict_keys inner). rewrite Hin, Hd0.
    rewrite fold_add_key_fold. cbn [fold_left].
    unfold dedup_first, writes. reflexivity.
  - intros k. rewrite dict_get_update, overwrite_default.
    rewrite (last_write_dict k inner Hndi).
    unfold inner. rewrite dict_get_update. cbn [dict_get].
    unfold d0. rewrite !dict_get_set. cbn [dict_get].
    unfold writes, last_write.
    change ((CLOUDFRONT_LMS_DOMAIN loaded_config, (∅ : OriginConfig))
              :: (CLOUDFRONT_CMS_DOMAIN loaded_config, ∅) :: entries)
      with ([(CLOUDFRONT_LMS_DOMAIN loaded_config, (∅ : OriginConfig));
             (CLOUDFRONT_CMS_DOMAIN loaded_config, ∅)] ++ entries).
    rewrite overwrite_app.
    rewrite (overwrite_default k (overwrite k None (_ :: _)) entries).
    unfold last_write. destruct (overwrite k None entries); reflexivity.
Qed.

Lemma build_origins_domain_set_witness :
  exists origins,
    build_origins example_config = inr origins /\
    NoDup (dict_keys origins) /\
    dict_keys origins = ["lms.x"; "cms.x"; "apps.x"] /\
    forall k,
      dict_get k origins =
        last_write k
          [("lms.x", ∅); ("cms.x", ∅);
           ("apps.x",
            {[ "alias" := {[ "domain" := "mfe.x"; "certificate_arn" := "arn:y" ]} ]})].
Proof.
  apply (build_origins_domain_set example_config
           [("apps.x",
             {[ "alias" := {[ "domain" := "mfe.x"; "certificate_arn" := "arn:y" ]} ]})]).
  repeat constructor.
Defined.

(** Duplicates: a domain keeps the place of its first occurrence and the
    value written last, also when an extra entry repeats a primary domain. *)
Example build_origins_duplicates :
  match
    build_origins
      {| CLOUDFRONT_AWS_REGION := "us-east-1";
         CLOUDFRONT_AWS_ACCESS_KEY_ID := "key";
         CLOUDFRONT_AWS_SECRET_ACCESS_KEY := "secret";
         CLOUDFRONT_CACHE_CONFIG := ∅;
         CLOUDFRONT_EXTRA_DOMAINS :=
           [ {[ "domain" := "c"; "alias" := "one"; "certificate_arn" := "arn:1" ]};
             {[ "domain" := "a"; "alias" := "two"; "certificate_arn" := "arn:2" ]};
             {[ "domain" := "c"; "alias" := "three"; "certificate_arn" := "arn:3" ]} ];
         CLOUDFRONT_LMS_DOMAIN := "a";
         CLOUDFRONT_CMS_DOMAIN := "b" |}
  with
  | inr origins =>
      map (fun kv => (fst kv, (snd kv !! "alias") ≫= (fun a => a !! "domain")))
        origins
  | inl _ => []
  end = [("a", Some "two"); ("b", None); ("c", Some "three")].
Proof. vm_compute. reflexivity. Qed.

(** An entry without a ["domain"] key stops the command before any call. *)
Example build_origins_key_error :
  build_origins
    {| CLOUDFRONT_AWS_REGION := "us-east-1";
       CLOUDFRONT_AWS_ACCESS_KEY_ID := "key";
       CLOUDFRONT_AWS_SECRET_ACCESS_KEY := "secret";
       CLOUDFRONT_CACHE_CONFIG := ∅;
       CLOUDFRONT_EXTRA_DOMAINS := [ {[ "alias" := "one" ]} ];
       CLOUDFRONT_LMS_DOMAIN := "a";
       CLOUDFRONT_CMS_DOMAIN := "b" |}
  = inl (KeyError "domain").
Proof. vm_compute. reflexivity. Qed.

(** ** One pass of the loop *)

Section LoopFacts.
Context {S : Type} `{!boto3.Client S}.

Lemma call_journals {A} e (op : S -> (exn + A) * S) : journals (call e op) [e].
Proof. intros w. rewrite call_run. cbn. auto. Qed.

Lemma bind_ret_journals {A B} (m : M S A) (f : A -> B) evs :
  journals m evs -> journals (bind m (fun a => ret (f a))) evs.
Proof.
  intros Hm w. specialize (Hm w). unfold bind, ret.
  destruct (m w) as [[e|a] w1]; exact Hm.
Qed.

Lemma get_origin_request_policy_journals name :
  journals (CloudFrontClient.get_origin_request_policy name)
    [ListOriginRequestPolicies "custom"].
Proof. apply bind_ret_journals, call_journals. Qed.

Lemma get_response_headers_policy_journals name :
  journals (CloudFrontClient.get_response_headers_policy name)
    [ListResponseHeadersPolicies "custom"].
Proof. apply bind_ret_journals, call_journals. Qed.

Lemma get_cache_policy_journals name :
  journals (CloudFrontClient.get_cache_policy name)
    [ListCachePolicies "custom"].
Proof. apply bind_ret_journals, call_journals. Qed.

Lemma get_distribution_journals domain :
  journals (CloudFrontClient.get_distribution domain) [ListDistributions].
Proof. apply bind_ret_journals, call_journals. Qed.

Lemma create_origin_request_policy_journals name :
  journals (CloudFrontClient.create_origin_request_policy name)
    [CreateOriginRequestPolicy
       (CloudFrontClient.origin_request_policy_config name)].
Proof. apply bind_ret_journals, call_journals. Qed.

Lemma create_response_headers_policy_journals name :
  journals (CloudFrontClient.create_response_headers_policy name)
    [CreateResponseHeadersPolicy
       (CloudFrontClient.response_headers_policy_config name)].
Proof. apply bind_ret_journals, call_journals. Qed.

Lemma create_cache_policy_journals name min_ttl default_ttl max_ttl :
  journals (CloudFrontClient.create_cache_policy name min_ttl default_ttl max_ttl)
    [CreateCachePolicy
       (CloudFrontClient.cache_policy_config name min_ttl default_ttl max_ttl)].
Proof. apply bind_ret_journals, call_journals. Qed.

Lemma journals_run {A} (m : M S A) evs w r w' :
  journals m evs -> m w = (r, w') ->
  journal w' = journal w ++ evs /\ uuids w' = uuids w /\ drawn w' = drawn w.
Proof. intros Hm Hrun. specialize (Hm w). rewrite Hrun in Hm. exact Hm. Qed.

Lemma create_cache_policy_from_inr cache_config name w p w' :
  create_cache_policy_from cache_config name w = (inr p, w') ->
  exists min_ttl default_ttl max_ttl,
    cache_config !! "min_ttl" = Some min_ttl /\
    cache_config !! "default_ttl" = Some default_ttl /\
    cache_config !! "max_ttl" = Some max_ttl /\
    CloudFrontClient.create_cache_policy name min_ttl default_ttl max_ttl w
      = (inr p, w').
Proof.
  unfold create_cache_policy_from. intros Hrun.
  apply bind_inr in Hrun as (dflt & w1 & H1 & Hrun1).
  apply getitem_inr in H1 as [H1 ->].
  apply bind_inr in Hrun1 as (mn & w2 & H2 & Hrun2).
  apply getitem_inr in H2 as [H2 ->].
  apply bind_inr in Hrun2 as (mx & w3 & H3 & Hrun3).
  apply getitem_inr in H3 as [H3 ->].
  exists mn, dflt, mx. auto.
Qed.

Lemma get_or_create_inr {A B} (get : M S (option A)) (create : M S A)
    (k : A -> M S B) w b w' :
  bind get
    (fun found =>
       bind (match found with Some p => ret p | None => create end) k) w
    = (inr b, w') ->
  exists found used w1,
    get_or_create_step get create w found used w1 /\ k used w1 = (inr b, w').
Proof.
  intros Hrun. apply bind_inr in Hrun as (found & wl & Hget & Hrest).
  apply bind_inr in Hrest as (used & w1 & Hsel & Hk).
  exists found, used, w1. split; [|exact Hk].
  exists wl. split; [exact Hget|].
  destruct found as [p|]; [|exact Hsel].
  unfold ret in Hsel. injection Hsel as -> ->. auto.
Qed.

Lemma get_or_create_step_journal {A} (get : M S (option A)) (create : M S A)
    lookup creation w found used w' :
  journals get [lookup] ->
  (found = None -> journals create [creation]) ->
  get_or_create_step get create w found used w' ->
  journal w' = journal w ++ step_events lookup creation found /\
  uuids w' = uuids w /\ drawn w' = drawn w.
Proof.
  intros Hget Hcreate (wl & Hl & Hsel).
  destruct (journals_run _ _ _ _ _ Hget Hl) as (Hj & Hu & Hd).
  destruct found as [p|]; cbn.
  - destruct Hsel as [_ ->]. auto.
  - destruct (journals_run _ _ _ _ _ (Hcreate eq_refl) Hsel) as (Hj' & Hu' & Hd').
    rewrite Hj', Hj, Hu', Hd', <- app_assoc. auto.
Qed.

End LoopFacts.

Section LoopBody.
Context {S : Type} `{!boto3.Client S}.

Lemma create_distribution_inr domain cp orp rhp alias (w : World S) d w' :
  CloudFrontClient.create_distribution domain cp orp rhp alias w = (inr d, w') ->
  journal w' =
    journal w ++
      [CreateDistribution
         (CloudFrontClient.distribution_config (uuids w (drawn w)) domain
            cp orp rhp (match alias with None => ∅ | Some a => a end))].
Proof.
  rewrite create_distribution_run. cbv zeta. intros [= _ <-]. reflexivity.
Qed.

Lemma get_or_create_distribution_inr domain (create : M S Distribution.t) w w' :
  bind (CloudFrontClient.get_distribution domain)
    (fun found =>
       match found with
       | Some _ => ret tt
       | None => bind create (fun _ => ret tt)
       end) w = (inr tt, w') ->
  exists found used,
    get_or_create_step (CloudFrontClient.get_distribution domain) create
      w found used w'.
Proof.
  intros Hrun. apply bind_inr in Hrun as (found & wl & Hget & Hsel).
  destruct found as [p|].
  - unfold ret in Hsel. injection Hsel as Hw.
    exists (Some p), p, wl. split; [exact Hget | split; congruence].
  - apply bind_inr in Hsel as (created & w2 & Hcreate & Hret).
    unfold ret in Hret. injection Hret as Hw.
    exists None, created, wl. split; [exact Hget | congruence].
Qed.

(** One pass of the loop. A pass that completes is four get-or-create steps, in
    the order origin request policy, response headers policy, cache
    policy, distribution. In each step the creation call is issued exactly
    when the lookup found nothing; the resource used afterwards is the one
    found or else the one created, and the distribution is created with
    the ids of the three policies used. When the lookup finds a
    distribution, no call that writes a distribution is issued: the pass
    only lists and creates. *)
Theorem loop_body_get_or_create_steps
    (cache_config : gmap string Z) (domain : string)
    (origin_config : OriginConfig) (w w' : World S) :
  loop_body cache_config domain origin_config w = (inr tt, w') ->
  exists (found_request : option OriginRequestPolicy.t)
         (found_response : option ResponseHeadersPolicy.t)
         (found_cache : option CachePolicy.t)
         (found_distribution : option Distribution.t)
         request_policy response_policy cache_policy distribution
         (w1 w2 w3 : World S) (min_ttl default_ttl max_ttl : Z)
         (evs : list Event),
    let request_policy_name := domain +:+ "-origin-request-policy" in
    let response_policy_name := domain +:+ "-response-headers-policy" in
    let cache_policy_name := domain +:+ "-cache-policy" in
    get_or_create_step
      (CloudFrontClient.get_origin_request_policy request_policy_name)
      (CloudFrontClient.create_origin_request_policy request_policy_name)
      w found_request request_policy w1 /\
    get_or_create_step
      (CloudFrontClient.get_response_headers_policy response_policy_name)
      (CloudFrontClient.create_response_headers_policy response_policy_name)
      w1 found_response response_policy w2 /\
    get_or_create_step
      (CloudFrontClient.get_cache_policy cache_policy_name)
      (create_cache_policy_from cache_config cache_policy_name)
      w2 found_cache cache_policy w3 /\
    get_or_create_step
      (CloudFrontClient.get_distribution domain)
      (CloudFrontClient.create_distribution domain
         (CachePolicy.Id cache_policy)
         (OriginRequestPolicy.Id request_policy)
         (ResponseHeadersPolicy.Id response_policy)
         (origin_config !! "alias"))
      w3 found_distribution distribution w' /\
    (found_cache = None ->
     cache_config !! "min_ttl" = Some min_ttl /\
     cache_config !! "default_ttl" = Some default_ttl /\
     cache_config !! "max_ttl" = Some max_ttl) /\
    journal w' = journal w ++ evs /\
    evs =
      step_events (ListOriginRequestPolicies "custom")
        (CreateOriginRequestPolicy
           (CloudFrontClient.origin_request_policy_config request_policy_name))
        found_request
      ++ step_events (ListResponseHeadersPolicies "custom")
           (CreateResponseHeadersPolicy
              (CloudFrontClient.response_headers_policy_config
                 response_policy_name))
           found_response
      ++ step_events (ListCachePolicies "custom")
           (CreateCachePolicy
              (CloudFrontClient.cache_policy_config cache_policy_name
                 min_ttl default_ttl max_ttl))
           found_cache
      ++ step_events ListDistributions
           (CreateDistribution
              (CloudFrontClient.distribution_config (uuids w (drawn w)) domain
                 (CachePolicy.Id cache_policy)
                 (OriginRequestPolicy.Id request_policy)
                 (ResponseHeadersPolicy.Id response_policy)
                 (match origin_config !! "alias" with
                  | None => ∅
                  | Some a => a
                  end)))
           found_distribution /\
    (is_Some found_distribution ->
     Forall (fun e => creates_distribution e = false) evs) /\
    Forall (fun e => is_lookup e = true \/ is_create e = true) evs.
Proof.
  intros Hrun. unfold loop_body in Hrun.
  apply get_or_create_inr in Hrun as (f1 & rp & w1 & Hs1 & Hrun).
  apply get_or_create_inr in Hrun as (f2 & sp & w2 & Hs2 & Hrun).
  change (bind (CloudFrontClient.get_cache_policy (domain +:+ "-cache-policy"))
            (fun found =>
               bind (match found with
                     | Some p => ret p
                     | None =>
                         create_cache_policy_from cache_config
                           (domain +:+ "-cache-policy")
                     end)
                 (fun cache_policy =>
                    bind (CloudFrontClient.get_distribution domain)
                      (fun found =>
                         match found with
                         | Some _ => ret tt
                         | None =>
                             bind (CloudFrontClient.create_distribution domain
                                     (CachePolicy.Id cache_policy)
                                     (OriginRequestPolicy.Id rp)
                                     (ResponseHeadersPolicy.Id sp)
                                     (origin_config !! "alias"))
                               (fun _ => ret tt)
                         end))) w2 = (inr tt, w')) in Hrun.
  apply get_or_create_inr in Hrun as (f3 & cp & w3 & Hs3 & Hrun).
  apply get_or_create_distribution_inr in Hrun as (f4 & dist & Hs4).
  (* the TTLs read when the cache policy is created *)
  assert (Httl : exists mn dflt mx,
             (f3 = None ->
              cache_config !! "min_ttl" = Some mn /\
              cache_config !! "default_ttl" = Some dflt /\
              cache_config !! "max_ttl" = Some mx) /\
             (f3 = None ->
              journals (create_cache_policy_from cache_config
                          (domain +:+ "-cache-policy"))
                [CreateCachePolicy
                   (CloudFrontClient.cache_policy_config
                      (domain +:+ "-cache-policy") mn dflt mx)])).
  { destruct f3 as [p|].
    - exists 0, 0, 0. split; discriminate.
    - destruct Hs3 as (wl & _ & Hcreate).
      apply create_cache_policy_from_inr in Hcreate
        as (mn & dflt & mx & Hmn & Hdf & Hmx & _).
      exists mn, dflt, mx. split; [auto|]. intros _ w0.
      unfold create_cache_policy_from, bind, getitem.
      rewrite Hdf, Hmn, Hmx. cbn.
      apply create_cache_policy_journals. }
  destruct Httl as (mn & dflt & mx & Httl & Hcj).
  destruct (get_or_create_step_journal _ _ _ _ _ _ _ _
              (get_origin_request_policy_journals _)
              (fun _ => create_origin_request_policy_journals _) Hs1)
    as (Hj1 & Hu1 & Hd1).
  destruct (get_or_create_step_journal _ _ _ _ _ _ _ _
              (get_response_headers_policy_journals _)
              (fun _ => create_response_headers_policy_journals _) Hs2)
    as (Hj2 & Hu2 & Hd2).
  destruct (get_or_create_step_journal _ _ _ _ _ _ _ _
              (get_cache_policy_journals _) Hcj Hs3)
    as (Hj3 & Hu3 & Hd3).
  assert (Hj4 : journal w' = journal w3 ++
            step_events ListDistributions
              (CreateDistribution
                 (CloudFrontClient.distribution_config (uuids w (drawn w)) domain
                    (CachePolicy.Id cp) (OriginRequestPolicy.Id rp)
                    (ResponseHeadersPolicy.Id sp)
                    (match origin_config !! "alias" with
                     | None => ∅
                     | Some a => a
                     end))) f4).
  { destruct Hs4 as (wl & Hl & Hsel).
    destruct (journals_run _ _ _ _ _ (get_distribution_journals _) Hl)
      as (Hj & Hu & Hd).
    destruct f4 as [p|]; cbn.
    - destruct Hsel as [_ ->]. exact Hj.
    - apply create_distribution_inr in Hsel.
      rewrite Hsel, Hj, Hu, Hd, Hu3, Hd3, Hu2, Hd2, Hu1, Hd1, <- app_assoc.
      reflexivity. }
  exists f1, f2, f3, f4, rp, sp, cp, dist, w1, w2, w3, mn, dflt, mx.
  eexists. cbv zeta.
  do 5 (split; [eassumption|]).
  split; [|split; [reflexivity|]].
  - rewrite Hj4, Hj3, Hj2, Hj1, <- !app_assoc. reflexivity.
  - split.
    + intros [p ->]. destruct f1, f2, f3; cbn; repeat constructor.
    + destruct f1, f2, f3, f4; cbn;
        repeat (apply Forall_cons_2;
                [first [left; reflexivity | right; reflexivity]|]);
        apply Forall_nil_2.
Qed.

End LoopBody.

Lemma loop_body_get_or_create_steps_witness :
  let cache_config := CLOUDFRONT_CACHE_CONFIG example_config in
  let out := loop_body cache_config "lms.x" ∅ second_run_world in
  fst out = inr tt /\
  exists evs,
    journal (snd out) = journal second_run_world ++ evs /\
    Forall (fun e => is_lookup e = true \/ is_create e = true) evs.
Proof.
  cbv zeta.
  set (out := loop_body (CLOUDFRONT_CACHE_CONFIG example_config) "lms.x" ∅
                second_run_world).
  assert (Hfst : fst out = inr tt) by (vm_compute; reflexivity).
  assert (Hrun : out = (inr tt, snd out)).
  { rewrite <- Hfst. apply surjective_pairing. }
  split; [exact Hfst|].
  destruct (loop_body_get_or_create_steps _ _ _ _ _ Hrun)
    as (f1 & f2 & f3 & f4 & rp & sp & cp & dist & w1 & w2 & w3
        & mn & dflt & mx & evs & _ & _ & _ & _ & _ & Hj & _ & _ & Hall).
  exists evs. split; [exact Hj | exact Hall].
Defined.

(** ** The completion message *)

Section Completion.
Context {S : Type} `{!boto3.Client S}.

Lemma silent_ret {A} (a : A) : silent (S := S) (ret a).
Proof. intros w. exists []. rewrite app_nil_r. auto. Qed.

Lemma silent_raise {A} e : silent (S := S) (raise (A := A) e).
Proof. intros w. exists []. rewrite app_nil_r. auto. Qed.

Lemma silent_bind {A B} (m : M S A) (k : A -> M S B) :
  silent m -> (forall a, silent (k a)) -> silent (bind m k).
Proof.
  intros Hm Hk w. unfold bind.
  destruct (Hm w) as (evs1 & Hj1 & He1).
  destruct (m w) as [[e|a] w1]; cbn in *.
  - exists evs1. auto.
  - destruct (Hk a w1) as (evs2 & Hj2 & He2).
    exists (evs1 ++ evs2). rewrite Hj2, Hj1, <- app_assoc.
    split; [reflexivity|]. apply Forall_app; auto.
Qed.

Lemma silent_call {A} e (op : S -> (exn + A) * S) :
  is_echo e = false -> silent (call e op).
Proof.
  intros He w. exists [e]. rewrite call_run. cbn. auto.
Qed.

Lemma silent_uuid4 : silent (uuid4 (S := S)).
Proof. intros w. exists []. rewrite app_nil_r. auto. Qed.

Lemma silent_getitem {V} (d : gmap string V) key :
  silent (S := S) (getitem d key).
Proof.
  unfold getitem. destruct (d !! key); [apply silent_ret | apply silent_raise].
Qed.

Lemma silent_select {A} (found : option A) (create : M S A) :
  silent create ->
  silent (match found with Some p => ret p | None => create end).
Proof. destruct found; [intros _; apply silent_ret | auto]. Qed.

Ltac silent_step :=
  first
    [ apply silent_ret
    | apply silent_call; reflexivity
    | apply silent_getitem
    | apply silent_uuid4
    | apply silent_bind; [|intros ?] ].

Lemma client_methods_silent :
  (forall name, silent (CloudFrontClient.get_origin_request_policy name)) /\
  (forall name, silent (CloudFrontClient.create_origin_request_policy name)) /\
  (forall name, silent (CloudFrontClient.get_response_headers_policy name)) /\
  (forall name, silent (CloudFrontClient.create_response_headers_policy name)) /\
  (forall name, silent (CloudFrontClient.get_cache_policy name)) /\
  (forall name mn dflt mx,
      silent (CloudFrontClient.create_cache_policy name mn dflt mx)) /\
  (forall domain, silent (CloudFrontClient.get_distribution domain)) /\
  (forall domain cp orp rhp alias,
      silent (CloudFrontClient.create_distribution domain cp orp rhp alias)).
Proof.
  repeat split; intros;
    unfold CloudFrontClient.get_origin_request_policy,
      CloudFrontClient.create_origin_request_policy,
      CloudFrontClient.get_response_headers_policy,
      CloudFrontClient.create_response_headers_policy,
      CloudFrontClient.get_cache_policy,
      CloudFrontClient.create_cache_policy,
      CloudFrontClient.get_distribution,
      CloudFrontClient.create_distribution;
    cbv zeta; repeat silent_step.
Qed.

Lemma loop_body_silent cache_config domain origin_config :
  silent (loop_body cache_config domain origin_config).
Proof.
  destruct client_methods_silent
    as (Hg1 & Hc1 & Hg2 & Hc2 & Hg3 & Hc3 & Hg4 & Hc4).
  unfold loop_body. cbv zeta.
  apply silent_bind; [apply Hg1 | intros f1].
  apply silent_bind; [apply silent_select, Hc1 | intros rp].
  apply silent_bind; [apply Hg2 | intros f2].
  apply silent_bind; [apply silent_select, Hc2 | intros sp].
  apply silent_bind; [apply Hg3 | intros f3].
  apply silent_bind; [apply silent_select | intros cp].
  { repeat (apply silent_bind; [apply silent_getitem | intros ?]). apply Hc3. }
  apply silent_bind; [apply Hg4 | intros f4].
  destruct f4; [apply silent_ret|].
  apply silent_bind; [apply Hc4 | intros ?; apply silent_ret].
Qed.

Lemma for_origins_inr cache_config items bound (w : World S) r w' :
  for_origins cache_config items bound w = (inr r, w') ->
  r = match last (dict_keys items) with Some d => Some d | None => bound end /\
  exists evs,
    journal w' = journal w ++ evs /\
    Forall (fun e => is_echo e = false) evs.
Proof.
  revert bound w. induction items as [|[d oc] items IH]; intros bound w Hrun.
  - cbn in Hrun. unfold ret in Hrun. injection Hrun as <- <-.
    split; [reflexivity|]. exists []. rewrite app_nil_r. auto.
  - cbn [for_origins] in Hrun.
    apply bind_inr in Hrun as ([] & w1 & Hbody & Hrest).
    apply IH in Hrest as (Hr & evs2 & Hj2 & He2).
    split.
    + rewrite Hr. unfold dict_keys. cbn [map fst]. rewrite last_cons.
      destruct (last (map fst items)); reflexivity.
    + destruct (loop_body_silent cache_config d oc w) as (evs1 & Hj1 & He1).
      rewrite Hbody in Hj1. cbn in Hj1.
      exists (evs1 ++ evs2). rewrite Hj2, Hj1, <- app_assoc.
      split; [reflexivity|]. apply Forall_app; auto.
Qed.

(** C9: when the command completes, the domain set it went through is
    not empty and the journal of the run ends with one completion message,
    the only line printed, which names the last domain of the set in
    iteration order. *)
Theorem completion_message_names_last_domain
    (loaded_config : LoadedConfig) (w w' : World S) :
  create_cloudfront_resources loaded_config w = (inr tt, w') ->
  exists origins d evs,
    build_origins loaded_config = inr origins /\
    last (dict_keys origins) = Some d /\
    journal w' =
      journal w ++ evs ++ [Echo ("CloudFront is set up for " +:+ d)] /\
    Forall (fun e => is_echo e = false) evs.
Proof.
  intros Hrun. unfold create_cloudfront_resources in Hrun.
  apply bind_inr in Hrun as (origins & w0 & Hbuild & Hrun).
  apply bind_inr in Hrun as (bound & w1 & Hloop & Hecho).
  unfold lift in Hbuild.
  destruct (build_origins loaded_config) as [e|origins'] eqn:Hb;
    [discriminate|].
  unfold ret in Hbuild. injection Hbuild as -> ->.
  apply for_origins_inr in Hloop as (Hbound & evs & Hj & He).
  destruct bound as [d|]; [|discriminate].
  unfold echo, emit in Hecho. injection Hecho as <-.
  exists origins, d, evs. split; [reflexivity|]. split.
  - destruct (last (dict_keys origins)); congruence.
  - split; [|exact He].
    rewrite journal_log_event, Hj, <- app_assoc. reflexivity.
Qed.

End Completion.

Lemma completion_message_names_last_domain_witness :
  let out :=
    create_cloudfront_resources example_config
      (Cloud.world (Cloud.empty Cloud.edge_hostname)) in
  fst out = inr tt /\
  exists origins d evs,
    build_origins example_config = inr origins /\
    last (dict_keys origins) = Some d /\
    journal (snd out) = [] ++ evs ++ [Echo ("CloudFront is set up for " +:+ d)] /\
    Forall (fun e => is_echo e = false) evs.
Proof.
  cbv zeta.
  set (out := create_cloudfront_resources example_config
                (Cloud.world (Cloud.empty Cloud.edge_hostname))).
  assert (Hfst : fst out = inr tt) by (vm_compute; reflexivity).
  assert (Hrun : out = (inr tt, snd out)).
  { rewrite <- Hfst. apply surjective_pairing. }
  split; [exact Hfst|].
  exact (completion_message_names_last_domain _ _ _ Hrun).
Defined.

(** ** Running the command twice *)

(** C1: on a provider that lists a distribution under a host name of its
    own choosing, the second run of the command is not a no-op. The first
    run creates the three distributions; they are listed with the origins
    [lms.x], [cms.x] and [apps.x] but under the provider's host names, so
    [get_distribution] for [lms.x] finds nothing, and the second run, which
    finds every policy, creates three distributions again. *)
Theorem second_run_creates_distributions_again :
  let first :=
    create_cloudfront_resources example_config
      (Cloud.world (Cloud.empty Cloud.edge_hostname)) in
  let second := create_cloudfront_resources example_config (next_run first) in
  fst first = inr tt /\
  map listed_as (Cloud.distributions (remote (snd first)))
    = [("d3.cloudfront.net", ["lms.x"]); ("d7.cloudfront.net", ["cms.x"]);
       ("d11.cloudfront.net", ["apps.x"])] /\
  fst (CloudFrontClient.get_distribution "lms.x" (next_run first)) = inr None /\
  fst second = inr tt /\
  length (filter (fun e => is_lookup e = true) (events_of second)) = 12%nat /\
  length (filter (fun e => is_create e = true) (events_of second)) = 3%nat /\
  length (filter (fun e => creates_distribution e = true) (events_of second)) = 3%nat /\
  map listed_as (Cloud.distributions (remote (snd second)))
    = [("d3.cloudfront.net", ["lms.x"]); ("d7.cloudfront.net", ["cms.x"]);
       ("d11.cloudfront.net", ["apps.x"]); ("d12.cloudfront.net", ["lms.x"]);
       ("d13.cloudfront.net", ["cms.x"]); ("d14.cloudfront.net", ["apps.x"])].
Proof. cbv zeta. repeat split; vm_compute; reflexivity. Qed.

(** ** Where running twice is a no-op

    On the reference provider the three kinds of policy are found again
    after they were created, whatever the provider held before; a
    distribution is found again exactly when the provider lists it under
    the domain name of its origin. *)

Lemma first_match_map {A B C} (f : A -> B) (pick : B -> option C) (l : list A) :
  first_match pick (map f l) = first_match (fun a => pick (f a)) l.
Proof.
  induction l as [|a l IH]; cbn; [reflexivity|].
  destruct (pick (f a)); [reflexivity | exact IH].
Qed.

Lemma find_named_app {A} (name_of : A -> string) n (l l' : list A) :
  find_named name_of n (l ++ l') =
    match find_named name_of n l with
    | Some p => Some p
    | None => find_named name_of n l'
    end.
Proof.
  unfold find_named. induction l as [|a l IH]; cbn; [reflexivity|].
  destruct (String.eqb (name_of a) n); [reflexivity | exact IH].
Qed.

Lemma find_named_snoc {A} (name_of : A -> string) n (l : list A) p :
  name_of p = n ->
  find_named name_of n l = None ->
  find_named name_of n (l ++ [p]) = Some p.
Proof.
  intros <- Hl. rewrite find_named_app, Hl. unfold find_named; cbn.
  rewrite String.eqb_refl. reflexivity.
Qed.

Lemma default_listing {A B} (wrap : A -> B) (l : list A) :
  default [] (cat_Items (Cloud.listing wrap l)) = map wrap l.
Proof. destruct l; reflexivity. Qed.

Lemma of_type_custom {B} (c : Catalog B) : Cloud.of_type "custom" c = c.
Proof. reflexivity. Qed.

Lemma cloud_get_cache_policy name (w : World Cloud.t) :
  CloudFrontClient.get_cache_policy name w =
    (inr (find_named cache_policy_name (sanitize_name name)
            (Cloud.cache_policies (remote w))),
     log_event (ListCachePolicies "custom") w).
Proof.
  unfold CloudFrontClient.get_cache_policy.
  erewrite bind_run by (rewrite call_run; reflexivity).
  cbn [boto3.list_cache_policies Cloud.client fst snd CachePolicyList].
  rewrite ?of_type_custom, default_listing, first_match_map. reflexivity.
Qed.

Lemma cloud_get_origin_request_policy name (w : World Cloud.t) :
  CloudFrontClient.get_origin_request_policy name w =
    (inr (find_named origin_request_policy_name (sanitize_name name)
            (Cloud.origin_request_policies (remote w))),
     log_event (ListOriginRequestPolicies "custom") w).
Proof.
  unfold CloudFrontClient.get_origin_request_policy.
  erewrite bind_run by (rewrite call_run; reflexivity).
  cbn [boto3.list_origin_request_policies Cloud.client fst snd
         OriginRequestPolicyList].
  rewrite ?of_type_custom, default_listing, first_match_map. reflexivity.
Qed.

Lemma cloud_get_response_headers_policy name (w : World Cloud.t) :
  CloudFrontClient.get_response_headers_policy name w =
    (inr (find_named response_headers_policy_name (sanitize_name name)
            (Cloud.response_headers_policies (remote w))),
     log_event (ListResponseHeadersPolicies "custom") w).
Proof.
  unfold CloudFrontClient.get_response_headers_policy.
  erewrite bind_run by (rewrite call_run; reflexivity).
  cbn [boto3.list_response_headers_policies Cloud.client fst snd
         ResponseHeadersPolicyList].
  rewrite ?of_type_custom, default_listing, first_match_map. reflexivity.
Qed.

Lemma cloud_get_distribution domain (w : World Cloud.t) :
  CloudFrontClient.get_distribution domain w =
    (inr (find_named Distribution.DomainName domain
            (Cloud.distributions (remote w))),
     log_event ListDistributions w).
Proof.
  unfold CloudFrontClient.get_distribution.
  erewrite bind_run by (rewrite call_run; reflexivity).
  cbn [boto3.list_distributions Cloud.client fst snd DistributionList].
  rewrite ?of_type_custom, default_listing, first_match_map. reflexivity.
Qed.

Lemma cloud_create_cache_policy name mn dflt mx (w : World Cloud.t) :
  let cfg := CloudFrontClient.cache_policy_config name mn dflt mx in
  let added := Cloud.add_cache_policy cfg (remote w) in
  CloudFrontClient.create_cache_policy name mn dflt mx w =
    (inr (fst added), set_remote (snd added) (log_event (CreateCachePolicy cfg) w)).
Proof. cbv zeta. rewrite create_cache_policy_run. reflexivity. Qed.

Lemma cloud_create_origin_request_policy name (w : World Cloud.t) :
  let cfg := CloudFrontClient.origin_request_policy_config name in
  let added := Cloud.add_origin_request_policy cfg (remote w) in
  CloudFrontClient.create_origin_request_policy name w =
    (inr (fst added),
     set_remote (snd added) (log_event (CreateOriginRequestPolicy cfg) w)).
Proof. cbv zeta. rewrite create_origin_request_policy_run. reflexivity. Qed.

Lemma cloud_create_response_headers_policy name (w : World Cloud.t) :
  let cfg := CloudFrontClient.response_headers_policy_config name in
  let added := Cloud.add_response_headers_policy cfg (remote w) in
  CloudFrontClient.create_response_headers_policy name w =
    (inr (fst added),
     set_remote (snd added) (log_event (CreateResponseHeadersPolicy cfg) w)).
Proof. cbv zeta. rewrite create_response_headers_policy_run. reflexivity. Qed.

Lemma cloud_create_distribution domain cp orp rhp alias (w : World Cloud.t) :
  let cfg :=
    CloudFrontClient.distribution_config (uuids w (drawn w)) domain cp orp rhp
      (match alias with None => ∅ | Some a => a end) in
  let added := Cloud.add_distribution cfg (remote w) in
  CloudFrontClient.create_distribution domain cp orp rhp alias w =
    (inr (fst added),
     set_remote (snd added) (log_event (CreateDistribution cfg) (draw w))).
Proof. cbv zeta. rewrite create_distribution_run. reflexivity. Qed.

(** The origin of the configuration that [create_distribution] sends is the
    domain it was called with, alias or not. *)
Lemma distribution_config_origin caller_reference domain cp orp rhp alias :
  forall n,
    Cloud.origin_hostname n
      (CloudFrontClient.distribution_config caller_reference domain cp orp rhp
         alias)
    = domain.
Proof.
  intros n. unfold CloudFrontClient.distribution_config, Cloud.origin_hostname.
  destruct (alias !! "domain"), (alias !! "certificate_arn"); reflexivity.
Qed.

Lemma cloud_extends_refl c : cloud_extends c c.
Proof. repeat split; reflexivity. Qed.

Lemma cloud_extends_trans c1 c2 c3 :
  cloud_extends c1 c2 -> cloud_extends c2 c3 -> cloud_extends c1 c3.
Proof.
  intros (Ha & Hb & Hc & Hd & He) (Ha' & Hb' & Hc' & Hd' & He').
  repeat split; try (etrans; eassumption); congruence.
Qed.

Lemma find_named_prefix {A} (name_of : A -> string) n (l l' : list A) :
  l `prefix_of` l' -> is_Some (find_named name_of n l) ->
  find_named name_of n l' = find_named name_of n l.
Proof.
  intros [k ->] [p Hp]. rewrite find_named_app, Hp. reflexivity.
Qed.

Lemma find_named_name {A} (name_of : A -> string) n (l : list A) p :
  find_named name_of n l = Some p -> name_of p = n.
Proof.
  unfold find_named. induction l as [|a l IH]; cbn; [discriminate|].
  destruct (String.eqb_spec (name_of a) n) as [Hn|_]; [|exact IH].
  intros [= <-]. exact Hn.
Qed.

(** *** After a get-or-create step the resource is found *)

Lemma cloud_origin_request_policy_step name (w : World Cloud.t) found used w1 :
  get_or_create_step
    (CloudFrontClient.get_origin_request_policy name)
    (CloudFrontClient.create_origin_request_policy name) w found used w1 ->
  cloud_extends (remote w) (remote w1) /\
  find_named origin_request_policy_name (sanitize_name name)
    (Cloud.origin_request_policies (remote w1)) = Some used.
Proof.
  intros (wl & Hget & Hsel). rewrite cloud_get_origin_request_policy in Hget.
  injection Hget as Hfound <-. destruct found as [p|].
  - destruct Hsel as [-> ->]. split; [apply cloud_extends_refl | exact Hfound].
  - rewrite cloud_create_origin_request_policy in Hsel. cbv zeta in Hsel.
    injection Hsel as <- <-. split.
    + repeat split; try reflexivity. by apply prefix_app_r.
    + apply find_named_snoc; [reflexivity | exact Hfound].
Qed.

Lemma cloud_response_headers_policy_step name (w : World Cloud.t) found used w1 :
  get_or_create_step
    (CloudFrontClient.get_response_headers_policy name)
    (CloudFrontClient.create_response_headers_policy name) w found used w1 ->
  cloud_extends (remote w) (remote w1) /\
  find_named response_headers_policy_name (sanitize_name name)
    (Cloud.response_headers_policies (remote w1)) = Some used.
Proof.
  intros (wl & Hget & Hsel). rewrite cloud_get_response_headers_policy in Hget.
  injection Hget as Hfound <-. destruct found as [p|].
  - destruct Hsel as [-> ->]. split; [apply cloud_extends_refl | exact Hfound].
  - rewrite cloud_create_response_headers_policy in Hsel. cbv zeta in Hsel.
    injection Hsel as <- <-. split.
    + repeat split; try reflexivity. by apply prefix_app_r.
    + apply find_named_snoc; [reflexivity | exact Hfound].
Qed.

Lemma cloud_cache_policy_step cache_config name (w : World Cloud.t) found used w1 :
  get_or_create_step
    (CloudFrontClient.get_cache_policy name)
    (create_cache_policy_from cache_config name) w found used w1 ->
  cloud_extends (remote w) (remote w1) /\
  find_named cache_policy_name (sanitize_name name)
    (Cloud.cache_policies (remote w1)) = Some used.
Proof.
  intros (wl & Hget & Hsel). rewrite cloud_get_cache_policy in Hget.
  injection Hget as Hfound <-. destruct found as [p|].
  - destruct Hsel as [-> ->]. split; [apply cloud_extends_refl | exact Hfound].
  - apply create_cache_policy_from_inr in Hsel
      as (mn & dflt & mx & _ & _ & _ & Hsel).
    rewrite cloud_create_cache_policy in Hsel. cbv zeta in Hsel.
    injection Hsel as <- <-. split.
    + repeat split; try reflexivity. by apply prefix_app_r.
    + apply find_named_snoc; [reflexivity | exact Hfound].
Qed.

Lemma cloud_distribution_step domain cp orp rhp alias
    (w : World Cloud.t) found used w1 :
  Cloud.hostname (remote w) = Cloud.origin_hostname ->
  get_or_create_step
    (CloudFrontClient.get_distribution domain)
    (CloudFrontClient.create_distribution domain cp orp rhp alias)
    w found used w1 ->
  cloud_extends (remote w) (remote w1) /\
  find_named Distribution.DomainName domain
    (Cloud.distributions (remote w1)) = Some used.
Proof.
  intros Hhost (wl & Hget & Hsel). rewrite cloud_get_distribution in Hget.
  injection Hget as Hfound <-. destruct found as [p|].
  - destruct Hsel as [-> ->]. split; [apply cloud_extends_refl | exact Hfound].
  - rewrite cloud_create_distribution in Hsel. cbv zeta in Hsel.
    injection Hsel as <- <-. split.
    + repeat split; try reflexivity. by apply prefix_app_r.
    + apply find_named_snoc; [|exact Hfound].
      cbn [remote set_remote snd Cloud.add_distribution Cloud.distributions
             Distribution.DomainName].
      rewrite Hhost. apply distribution_config_origin.
Qed.

(** *** The whole command *)

Lemma covered_extends c c' domain :
  cloud_extends c c' -> covered c domain -> covered c' domain.
Proof.
  intros (Ha & Hb & Hc & Hd & _) (H1 & H2 & H3 & H4).
  repeat split.
  - rewrite (find_named_prefix _ _ _ _ Hb H1). exact H1.
  - rewrite (find_named_prefix _ _ _ _ Hc H2). exact H2.
  - rewrite (find_named_prefix _ _ _ _ Ha H3). exact H3.
  - rewrite (find_named_prefix _ _ _ _ Hd H4). exact H4.
Qed.

Lemma cloud_extends_hostname c c' :
  cloud_extends c c' -> Cloud.hostname c' = Cloud.hostname c.
Proof. intros (_ & _ & _ & _ & H). exact H. Qed.

(** A pass that completes leaves the domain covered, on a provider that
    lists a distribution under the domain name of its origin. *)
Lemma loop_body_covers cache_config domain origin_config (w w' : World Cloud.t) :
  Cloud.hostname (remote w) = Cloud.origin_hostname ->
  loop_body cache_config domain origin_config w = (inr tt, w') ->
  cloud_extends (remote w) (remote w') /\ covered (remote w') domain.
Proof.
  intros Hhost Hrun. unfold loop_body in Hrun.
  apply get_or_create_inr in Hrun as (f1 & rp & w1 & Hs1 & Hrun).
  apply get_or_create_inr in Hrun as (f2 & sp & w2 & Hs2 & Hrun).
  change (bind (CloudFrontClient.get_cache_policy (domain +:+ "-cache-policy"))
            (fun found =>
               bind (match found with
                     | Some p => ret p
                     | None =>
                         create_cache_policy_from cache_config
                           (domain +:+ "-cache-policy")
                     end)
                 (fun cache_policy =>
                    bind (CloudFrontClient.get_distribution domain)
                      (fun found =>
                         match found with
                         | Some _ => ret tt
                         | None =>
                             bind (CloudFrontClient.create_distribution domain
                                     (CachePolicy.Id cache_policy)
                                     (OriginRequestPolicy.Id rp)
                                     (ResponseHeadersPolicy.Id sp)
                                     (origin_config !! "alias"))
                               (fun _ => ret tt)
                         end))) w2 = (inr tt, w')) in Hrun.
  apply get_or_create_inr in Hrun as (f3 & cp & w3 & Hs3 & Hrun).
  apply get_or_create_distribution_inr in Hrun as (f4 & dist & Hs4).
  apply cloud_origin_request_policy_step in Hs1 as (He1 & Hf1).
  apply cloud_response_headers_policy_step in Hs2 as (He2 & Hf2).
  apply cloud_cache_policy_step in Hs3 as (He3 & Hf3).
  assert (He13 : cloud_extends (remote w) (remote w3)).
  { eapply cloud_extends_trans; [|exact He3].
    eapply cloud_extends_trans; eassumption. }
  apply cloud_distribution_step in Hs4 as (He4 & Hf4);
    [|rewrite (cloud_extends_hostname _ _ He13); exact Hhost].
  split; [eapply cloud_extends_trans; eassumption|].
  repeat split.
  - rewrite (find_named_prefix _ _ (Cloud.origin_request_policies (remote w1))).
    + rewrite Hf1. eauto.
    + pose proof (cloud_extends_trans _ _ _ He2 (cloud_extends_trans _ _ _ He3 He4))
        as (_ & Hp & _). exact Hp.
    + rewrite Hf1. eauto.
  - rewrite (find_named_prefix _ _ (Cloud.response_headers_policies (remote w2))).
    + rewrite Hf2. eauto.
    + pose proof (cloud_extends_trans _ _ _ He3 He4) as (_ & _ & Hp & _). exact Hp.
    + rewrite Hf2. eauto.
  - rewrite (find_named_prefix _ _ (Cloud.cache_policies (remote w3))).
    + rewrite Hf3. eauto.
    + destruct He4 as (Hp & _). exact Hp.
    + rewrite Hf3. eauto.
  - rewrite Hf4. eauto.
Qed.

(** A pass over a covered domain only looks up, and changes nothing at the
    provider. *)
Lemma loop_body_covered cache_config domain origin_config (w : World Cloud.t) :
  covered (remote w) domain ->
  loop_body cache_config domain origin_config w =
    (inr tt,
     log_event ListDistributions
       (log_event (ListCachePolicies "custom")
          (log_event (ListResponseHeadersPolicies "custom")
             (log_event (ListOriginRequestPolicies "custom") w)))).
Proof.
  intros ([p1 H1] & [p2 H2] & [p3 H3] & [p4 H4]). unfold loop_body.
  rewrite (bind_run _ _ _ _ _ (cloud_get_origin_request_policy _ _)).
  cbn [remote log_event]. rewrite H1.
  rewrite (bind_run (ret p1) _ _ p1 _ eq_refl).
  rewrite (bind_run _ _ _ _ _ (cloud_get_response_headers_policy _ _)).
  cbn [remote log_event]. rewrite H2.
  rewrite (bind_run (ret p2) _ _ p2 _ eq_refl).
  rewrite (bind_run _ _ _ _ _ (cloud_get_cache_policy _ _)).
  cbn [remote log_event]. rewrite H3.
  rewrite (bind_run (ret p3) _ _ p3 _ eq_refl).
  rewrite (bind_run _ _ _ _ _ (cloud_get_distribution _ _)).
  cbn [remote log_event]. rewrite H4. reflexivity.
Qed.

Lemma for_origins_covers cache_config items bound (w w' : World Cloud.t) r :
  Cloud.hostname (remote w) = Cloud.origin_hostname ->
  for_origins cache_config items bound w = (inr r, w') ->
  cloud_extends (remote w) (remote w') /\
  Forall (covered (remote w')) (dict_keys items).
Proof.
  revert bound w. induction items as [|[d oc] items IH]; intros bound w Hhost Hrun.
  - cbn in Hrun. unfold ret in Hrun. injection Hrun as _ <-.
    split; [apply cloud_extends_refl | constructor].
  - cbn [for_origins] in Hrun.
    apply bind_inr in Hrun as ([] & w1 & Hbody & Hrest).
    apply loop_body_covers in Hbody as (He1 & Hc1); [|exact Hhost].
    apply IH in Hrest as (He2 & Hc2);
      [|rewrite (cloud_extends_hostname _ _ He1); exact Hhost].
    split; [eapply cloud_extends_trans; eassumption|].
    unfold dict_keys. cbn [map fst]. constructor; [|exact Hc2].
    eapply covered_extends; eassumption.
Qed.

Lemma for_origins_covered cache_config items bound (w : World Cloud.t) :
  Forall (covered (remote w)) (dict_keys items) ->
  exists w' evs,
    for_origins cache_config items bound w =
      (inr (match last (dict_keys items) with Some d => Some d | None => bound end),
       w') /\
    remote w' = remote w /\
    journal w' = journal w ++ evs /\
    Forall (fun e => is_lookup e = true) evs.
Proof.
  revert bound w. induction items as [|[d oc] items IH]; intros bound w Hcov.
  - exists w, []. rewrite app_nil_r. repeat split; auto.
  - unfold dict_keys in Hcov. cbn [map fst] in Hcov.
    apply Forall_cons in Hcov as [Hd Hrest].
    cbn [for_origins].
    rewrite (bind_run _ _ _ _ _ (loop_body_covered cache_config d oc w Hd)).
    set (w1 := log_event ListDistributions _).
    destruct (IH (Some d) w1 Hrest) as (w' & evs & Hrun & Hrem & Hj & Hall).
    exists w',
      ([ListOriginRequestPolicies "custom"; ListResponseHeadersPolicies "custom";
        ListCachePolicies "custom"; ListDistributions] ++ evs).
    split; [|split; [|split]].
    + rewrite Hrun. unfold dict_keys. cbn [map fst]. rewrite last_cons.
      destruct (last (map fst items)); reflexivity.
    + rewrite Hrem. reflexivity.
    + rewrite Hj. unfold w1. cbn [journal log_event].
      rewrite <- !app_assoc. reflexivity.
    + apply Forall_app. split; [repeat constructor | exact Hall].
Qed.

(** On a provider that lists a distribution under the domain name of its
    origin, a run that follows a completed run completes too, issues lookups
    only, leaves the provider as it was and prints the same message. *)
Lemma second_run_only_looks_up (loaded_config : LoadedConfig)
    (w w1 : World Cloud.t) :
  Cloud.hostname (remote w) = Cloud.origin_hostname ->
  create_cloudfront_resources loaded_config w = (inr tt, w1) ->
  exists w2 evs line,
    create_cloudfront_resources loaded_config w1 = (inr tt, w2) /\
    remote w2 = remote w1 /\
    journal w2 = journal w1 ++ evs ++ [Echo line] /\
    Forall (fun e => is_lookup e = true) evs /\
    last (journal w1) = Some (Echo line).
Proof.
  intros Hhost Hrun. unfold create_cloudfront_resources in *.
  apply bind_inr in Hrun as (origins & w0 & Hbuild & Hrun).
  apply bind_inr in Hrun as (bound & w' & Hloop & Hecho).
  unfold lift in *.
  destruct (build_origins loaded_config) as [e|origins'] eqn:Hb; [discriminate|].
  unfold ret in Hbuild. injection Hbuild as -> ->.
  pose proof (for_origins_inr _ _ _ _ _ _ Hloop) as (Hbound & _).
  apply for_origins_covers in Hloop as (Hext & Hcov); [|exact Hhost].
  destruct bound as [d|]; [|discriminate].
  unfold echo, emit in Hecho. injection Hecho as <-.
  destruct (for_origins_covered (CLOUDFRONT_CACHE_CONFIG loaded_config)
              origins None
              (log_event (Echo ("CloudFront is set up for " +:+ d)) w') Hcov)
    as (w2 & evs & Hrun2 & Hrem & Hj & Hall).
  exists (log_event (Echo ("CloudFront is set up for " +:+ d)) w2), evs,
    ("CloudFront is set up for " +:+ d).
  split; [|split; [|split; [|split]]].
  - rewrite (bind_run (ret origins) _ _ origins _ eq_refl).
    rewrite (bind_run _ _ _ _ _ Hrun2), <- Hbound. reflexivity.
  - cbn [remote log_event]. exact Hrem.
  - cbn [journal log_event] in *. rewrite Hj, <- app_assoc. reflexivity.
  - exact Hall.
  - cbn [journal log_event]. apply last_snoc.
Qed.

(** *** Per kind: the lookup that follows a get-or-create step

    Whatever the first lookup returned, the lookup that follows the step
    returns the resource the step used: a second get-or-create issues no
    creation call. For a distribution this needs the provider to list it
    under the domain name of its origin. *)

Lemma cloud_policy_found_again (w w1 : World Cloud.t) (name : string) :
  (forall found used,
      get_or_create_step
        (CloudFrontClient.get_origin_request_policy name)
        (CloudFrontClient.create_origin_request_policy name) w found used w1 ->
      CloudFrontClient.get_origin_request_policy name w1 =
        (inr (Some used), log_event (ListOriginRequestPolicies "custom") w1)) /\
  (forall found used,
      get_or_create_step
        (CloudFrontClient.get_response_headers_policy name)
        (CloudFrontClient.create_response_headers_policy name) w found used w1 ->
      CloudFrontClient.get_response_headers_policy name w1 =
        (inr (Some used), log_event (ListResponseHeadersPolicies "custom") w1)) /\
  (forall cache_config found used,
      get_or_create_step
        (CloudFrontClient.get_cache_policy name)
        (create_cache_policy_from cache_config name) w found used w1 ->
      CloudFrontClient.get_cache_policy name w1 =
        (inr (Some used), log_event (ListCachePolicies "custom") w1)).
Proof.
  split; [|split].
  - intros found used Hstep.
    apply cloud_origin_request_policy_step in Hstep as (_ & Hf).
    rewrite cloud_get_origin_request_policy, Hf. reflexivity.
  - intros found used Hstep.
    apply cloud_response_headers_policy_step in Hstep as (_ & Hf).
    rewrite cloud_get_response_headers_policy, Hf. reflexivity.
  - intros cache_config found used Hstep.
    apply cloud_cache_policy_step in Hstep as (_ & Hf).
    rewrite cloud_get_cache_policy, Hf. reflexivity.
Qed.

Lemma cloud_distribution_found_again (w w1 : World Cloud.t)
    (domain cp orp rhp : string) alias found used :
  Cloud.hostname (remote w) = Cloud.origin_hostname ->
  get_or_create_step
    (CloudFrontClient.get_distribution domain)
    (CloudFrontClient.create_distribution domain cp orp rhp alias)
    w found used w1 ->
  CloudFrontClient.get_distribution domain w1 =
    (inr (Some used), log_event ListDistributions w1).
Proof.
  intros Hhost Hstep.
  apply cloud_distribution_step in Hstep as (_ & Hf); [|exact Hhost].
  rewrite cloud_get_distribution, Hf. reflexivity.
Qed.

(** When the provider names distributions itself, the distribution that
    [create_distribution] has just created for a domain is not the one
    [get_distribution] looks for, unless the provider happened to pick the
    domain as its host name. *)
Lemma cloud_distribution_not_found_again (w : World Cloud.t)
    (domain cp orp rhp : string) alias :
  find_named Distribution.DomainName domain (Cloud.distributions (remote w)) = None ->
  Cloud.hostname (remote w) (Cloud.issued (remote w))
    (CloudFrontClient.distribution_config (uuids w (drawn w)) domain cp orp rhp
       (match alias with None => ∅ | Some a => a end)) <> domain ->
  exists created w1,
    CloudFrontClient.create_distribution domain cp orp rhp alias w
      = (inr created, w1) /\
    created ∈ Cloud.distributions (remote w1) /\
    fst (CloudFrontClient.get_distribution domain w1) = inr None.
Proof.
  intros Hnone Hname. rewrite cloud_create_distribution. cbv zeta.
  eexists _, _. split; [reflexivity|]. split.
  - cbn. apply elem_of_app. right. apply list_elem_of_here.
  - rewrite cloud_get_distribution. cbn [fst]. f_equal.
    cbn [remote set_remote snd Cloud.add_distribution Cloud.distributions].
    rewrite find_named_app, Hnone. unfold find_named. cbn.
    apply String.eqb_neq in Hname. rewrite Hname. reflexivity.
Qed.

(** ** Every target domain gets its four steps *)

Section EveryDomain.
Context {S : Type} `{!boto3.Client S}.

Lemma for_origins_passes cache_config items bound (w w' : World S) r :
  for_origins cache_config items bound w = (inr r, w') ->
  passes (pass_steps cache_config) items w w'.
Proof.
  revert bound w. induction items as [|[d oc] items IH]; intros bound w Hrun.
  - cbn in Hrun. unfold ret in Hrun. injection Hrun as _ <-. reflexivity.
  - cbn [for_origins] in Hrun.
    apply bind_inr in Hrun as ([] & w1 & Hbody & Hrest).
    cbn [passes]. exists w1. split.
    + exact (loop_body_get_or_create_steps cache_config d oc w w1 Hbody).
    + exact (IH _ _ Hrest).
Qed.

(** C2: a run of the command that completes has gone through the target
    domains, the keys of [origins], in their order, and for each of them
    through one pass of four get-or-create steps, in the order origin
    request policy, response headers policy, cache policy, distribution.
    In each step the creation call is issued exactly when the lookup found
    nothing, and the resource used afterwards is the one found or else the
    one created; the distribution is created with the ids of the three
    policies used. When the lookup finds a distribution no call that writes
    a distribution is issued: a pass only lists and creates. Each pass
    starts in the world the pass before it left, and the run ends with the
    completion message. *)
Theorem command_runs_four_steps_for_every_domain
    (loaded_config : LoadedConfig) (w w' : World S) :
  create_cloudfront_resources loaded_config w = (inr tt, w') ->
  exists origins w_end d,
    build_origins loaded_config = inr origins /\
    passes (pass_steps (CLOUDFRONT_CACHE_CONFIG loaded_config)) origins w w_end /\
    last (dict_keys origins) = Some d /\
    w' = log_event (Echo ("CloudFront is set up for " +:+ d)) w_end.
Proof.
  intros Hrun. unfold create_cloudfront_resources in Hrun.
  apply bind_inr in Hrun as (origins & w0 & Hbuild & Hrun).
  apply bind_inr in Hrun as (bound & w1 & Hloop & Hecho).
  unfold lift in Hbuild.
  destruct (build_origins loaded_config) as [e|origins'] eqn:Hb; [discriminate|].
  unfold ret in Hbuild. injection Hbuild as -> ->.
  pose proof (for_origins_inr _ _ _ _ _ _ Hloop) as (Hbound & _).
  apply for_origins_passes in Hloop.
  destruct bound as [d|]; [|discriminate].
  unfold echo, emit in Hecho. injection Hecho as <-.
  exists origins, w1, d. repeat split; auto.
  destruct (last (dict_keys origins)); congruence.
Qed.

End EveryDomain.

Lemma command_runs_four_steps_for_every_domain_witness :
  let w := Cloud.world (Cloud.empty Cloud.edge_hostname) in
  let out := create_cloudfront_resources example_config w in
  fst out = inr tt /\
  exists origins w_end d,
    build_origins example_config = inr origins /\
    passes (pass_steps (CLOUDFRONT_CACHE_CONFIG example_config)) origins w w_end /\
    last (dict_keys origins) = Some d /\
    snd out = log_event (Echo ("CloudFront is set up for " +:+ d)) w_end.
Proof.
  cbv zeta.
  set (out := create_cloudfront_resources example_config
                (Cloud.world (Cloud.empty Cloud.edge_hostname))).
  assert (Hfst : fst out = inr tt) by (vm_compute; reflexivity).
  split; [exact Hfst|].
  apply (command_runs_four_steps_for_every_domain example_config
           (Cloud.world (Cloud.empty Cloud.edge_hostname)) (snd out)).
  rewrite <- Hfst. apply surjective_pairing.
Defined.

(** * Further properties *)

(** ** Sanitized names *)

Section AsciiNames.
Variable U : PyStr.UnicodeData.
Hypothesis HU : PyStr.sound U.

Lemma lower_from_ascii before x :
  Forall (fun c => (c < 128)%N) x ->
  PyStr.lower_from U before x = map PyStr.ascii_lower x.
Proof.
  intros Hx. revert before.
  induction Hx as [|c x Hc _ IH]; intros before;
    cbn [PyStr.lower_from map]; [reflexivity|].
  destruct (N.eqb_spec c PyStr.capital_sigma) as [->|_];
    [unfold PyStr.capital_sigma in Hc; lia|].
  rewrite (PyStr.lower_ascii U HU c Hc), IH. reflexivity.
Qed.

Lemma sanitize_name_ascii x :
  Forall (fun c => (c < 128)%N) x ->
  PyStr.sanitize_name U x
  = map (fun c => PyStr.hyphenate (PyStr.ascii_lower c)) x.
Proof.
  intros Hx. unfold PyStr.sanitize_name, PyStr.lower.
  rewrite hyphenate_replace, (lower_from_ascii [] x Hx), map_map.
  reflexivity.
Qed.

Lemma first_not_ignorable_app_hyphen l t :
  PyStr.first_not_ignorable U (l ++ PyStr.hyphen :: t)
  = match PyStr.first_not_ignorable U l with
    | Some c => Some c
    | None => Some PyStr.hyphen
    end.
Proof.
  destruct (PyStr.hyphen_neutral U HU) as [_ Hign].
  unfold PyStr.first_not_ignorable.
  induction l as [|c l IH]; cbn [app find].
  - rewrite Hign. reflexivity.
  - destruct (negb (PyStr.is_case_ignorable U c)); [reflexivity|exact IH].
Qed.

Lemma handle_capital_sigma_app_hyphen before after t :
  PyStr.handle_capital_sigma U before (after ++ PyStr.hyphen :: t)
  = PyStr.handle_capital_sigma U before after.
Proof.
  destruct (PyStr.hyphen_neutral U HU) as [Hcased _].
  unfold PyStr.handle_capital_sigma. cbv zeta.
  rewrite first_not_ignorable_app_hyphen.
  destruct (PyStr.first_not_ignorable U after); [reflexivity|].
  rewrite Hcased. reflexivity.
Qed.

Lemma lower_from_app_hyphen before d t :
  PyStr.lower_from U before (d ++ PyStr.hyphen :: t)
  = PyStr.lower_from U before d
    ++ PyStr.lower_from U (rev d ++ before) (PyStr.hyphen :: t).
Proof.
  revert before. induction d as [|c d IH]; intros before; [reflexivity|].
  cbn [app rev]. cbn [PyStr.lower_from].
  rewrite IH, handle_capital_sigma_app_hyphen, <- !app_assoc. reflexivity.
Qed.

Lemma sanitize_name_app_suffix d t t' :
  t = PyStr.hyphen :: t' ->
  forallb (fun c => N.ltb c 128 && PyStr.clean c) t = true ->
  PyStr.sanitize_name U (d ++ t) = PyStr.sanitize_name U d ++ t.
Proof.
  intros Ht Hall.
  assert (Hclean : Forall (fun c => (c < 128)%N /\ PyStr.clean c = true) t).
  { apply Forall_forall. intros c Hc.
    rewrite forallb_forall in Hall.
    specialize (Hall c (proj1 (list_elem_of_In _ _) Hc)).
    apply andb_true_iff in Hall as [Hlt Hcl].
    apply N.ltb_lt in Hlt. auto. }
  assert (Hsettled : Forall (PyStr.settled U) t).
  { eapply Forall_impl; [exact Hclean|].
    intros c [Hlt Hcl]. by apply settled_of_clean_ascii. }
  assert (Hfixed : map PyStr.hyphenate t = t).
  { clear Ht Hall Hsettled.
    induction Hclean as [|c t [_ Hcl] _ IH]; [reflexivity|].
    cbn [map]. rewrite IH. f_equal.
    unfold PyStr.clean in Hcl. unfold PyStr.hyphenate.
    destruct (N.eqb c PyStr.full_stop), (N.eqb c PyStr.space);
      rewrite ?andb_false_r in Hcl; try discriminate. reflexivity. }
  unfold PyStr.sanitize_name, PyStr.lower. rewrite !hyphenate_replace.
  rewrite Ht, lower_from_app_hyphen, <- Ht.
  rewrite (lower_from_fixed U _ t Hsettled), map_app, Hfixed. reflexivity.
Qed.

End AsciiNames.

Lemma sanitize_code_clean c :
  PyStr.clean (PyStr.hyphenate (PyStr.ascii_lower c)) = true.
Proof.
  unfold PyStr.clean, PyStr.hyphenate, PyStr.ascii_lower,
    PyStr.full_stop, PyStr.space, PyStr.hyphen.
  destruct (N.leb_spec 65 c), (N.leb_spec c 90); cbn [andb];
    repeat match goal with
           | |- context [N.eqb ?a ?b] => destruct (N.eqb_spec a b)
           | |- context [N.leb ?a ?b] => destruct (N.leb_spec a b)
           end; cbn in *; first [reflexivity | exfalso; lia].
Qed.

Lemma sanitize_code_fixed c :
  PyStr.clean c = true -> PyStr.hyphenate (PyStr.ascii_lower c) = c.
Proof.
  unfold PyStr.clean, PyStr.hyphenate, PyStr.ascii_lower.
  destruct (N.leb 65 c && N.leb c 90)%bool; [discriminate|].
  destruct (N.eqb c PyStr.full_stop), (N.eqb c PyStr.space);
    cbn; congruence.
Qed.

(** X1: on an ASCII name sanitization works character by character: the
    sanitized name is as long as the name and holds no capital letter, full
    stop or space, and a name is left unchanged exactly when it holds none
    of them. (Beyond ASCII the length may change, see
    [sanitize_name_may_grow].) *)
Theorem sanitize_name_of_ascii_name
    (U : PyStr.UnicodeData) (x : PyStr.str) :
  PyStr.sound U ->
  Forall (fun c => (c < 128)%N) x ->
  length (PyStr.sanitize_name U x) = length x /\
  Forall (fun c => PyStr.clean c = true) (PyStr.sanitize_name U x) /\
  (PyStr.sanitize_name U x = x <-> Forall (fun c => PyStr.clean c = true) x).
Proof.
  intros HU Hx. rewrite (sanitize_name_ascii U HU x Hx). clear Hx.
  induction x as [|c x (IHlen & IHall & IHfix)].
  - repeat split; constructor.
  - cbn [map length]. split; [congruence|]. split.
    + constructor; [apply sanitize_code_clean | exact IHall].
    + split.
      * intros [= Hc Hrest]. constructor.
        -- rewrite <- Hc. apply sanitize_code_clean.
        -- apply IHfix, Hrest.
      * intros Hall. apply Forall_cons in Hall as [Hc Hrest].
        rewrite (sanitize_code_fixed _ Hc). f_equal. apply IHfix, Hrest.
Qed.

Lemma sanitize_name_of_ascii_name_witness :
  let x := PyStr.codes "My Site.Example.ORG" in
  length (PyStr.sanitize_name PyStr.fragment x) = length x /\
  Forall (fun c => PyStr.clean c = true) (PyStr.sanitize_name PyStr.fragment x) /\
  (PyStr.sanitize_name PyStr.fragment x = x
   <-> Forall (fun c => PyStr.clean c = true) x).
Proof.
  cbv zeta.
  apply (sanitize_name_of_ascii_name PyStr.fragment
           (PyStr.codes "My Site.Example.ORG") fragment_sound).
  cbv. repeat constructor.
Defined.

(** On an ASCII name the method computes what the ASCII model computes. *)
Lemma sanitize_name_on_ascii (U : PyStr.UnicodeData) (s : string) :
  PyStr.sound U ->
  Forall (fun c => (c < 128)%N) (PyStr.codes s) ->
  PyStr.sanitize_name U (PyStr.codes s) = PyStr.codes (sanitize_name s).
Proof.
  intros HU Hs. rewrite (sanitize_name_ascii U HU _ Hs).
  induction s as [|a s IH]; [reflexivity|].
  cbn [PyStr.codes] in Hs. apply Forall_cons in Hs as [Ha Hs].
  rewrite sanitize_name_cons. cbn [PyStr.codes map].
  rewrite (IH Hs). f_equal. clear IH Hs.
  destruct a as [[] [] [] [] [] [] [] []];
    first [reflexivity | vm_compute in Ha; discriminate].
Qed.

(** X2: the three suffixes the command appends to a domain pass through
    sanitization unchanged and do not affect how the domain is sanitized:
    [sanitize(d + suffix)] is [sanitize(d)] followed by the suffix, for every
    domain [d]. So the policy names of two domains coincide after
    sanitization exactly when the sanitized domains do. *)
Theorem policy_name_is_sanitized_domain_then_suffix
    (U : PyStr.UnicodeData) (d1 d2 : PyStr.str) (suffix : string) :
  PyStr.sound U ->
  suffix ∈ policy_suffixes ->
  PyStr.sanitize_name U (d1 ++ PyStr.codes suffix)
    = PyStr.sanitize_name U d1 ++ PyStr.codes suffix /\
  (PyStr.sanitize_name U (d1 ++ PyStr.codes suffix)
     = PyStr.sanitize_name U (d2 ++ PyStr.codes suffix)
   <-> PyStr.sanitize_name U d1 = PyStr.sanitize_name U d2).
Proof.
  intros HU Hin.
  assert (Happ : forall d,
             PyStr.sanitize_name U (d ++ PyStr.codes suffix)
             = PyStr.sanitize_name U d ++ PyStr.codes suffix).
  { intros d. unfold policy_suffixes in Hin.
    repeat (apply elem_of_cons in Hin as [->|Hin]);
      [| | |by apply elem_of_nil in Hin];
      eapply sanitize_name_app_suffix; try exact HU; reflexivity. }
  split; [apply Happ|]. rewrite !Happ. split.
  - apply app_inv_tail.
  - intros ->. reflexivity.
Qed.

Lemma policy_name_is_sanitized_domain_then_suffix_witness :
  let d1 : PyStr.str := [913; 931]%N in
  let d2 : PyStr.str := [945; 962]%N in
  let suffix := PyStr.codes "-cache-policy" in
  PyStr.sanitize_name PyStr.fragment (d1 ++ suffix)
    = PyStr.sanitize_name PyStr.fragment d1 ++ suffix /\
  (PyStr.sanitize_name PyStr.fragment (d1 ++ suffix)
     = PyStr.sanitize_name PyStr.fragment (d2 ++ suffix)
   <-> PyStr.sanitize_name PyStr.fragment d1
       = PyStr.sanitize_name PyStr.fragment d2).
Proof.
  cbv zeta.
  apply (policy_name_is_sanitized_domain_then_suffix PyStr.fragment
           [913; 931]%N [945; 962]%N "-cache-policy" fragment_sound).
  do 2 apply list_elem_of_further. apply list_elem_of_here.
Defined.

(** [my.site] and [My-Site] share their policies. *)
Example policy_names_collide :
  PyStr.sanitize_name PyStr.fragment
    (PyStr.codes "my.site" ++ PyStr.codes "-cache-policy")
  = PyStr.sanitize_name PyStr.fragment
      (PyStr.codes "My-Site" ++ PyStr.codes "-cache-policy").
Proof. reflexivity. Qed.

(** ** The client's lookups and creations *)

(** X3: [get_distribution] lists the distributions once and returns the
    first listed distribution whose [DomainName] is the given domain, taken
    as it is (no sanitization), or [None] when there is none. *)
Theorem get_distribution_returns_first_exact_match
    {S : Type} `{!boto3.Client S} (domain : string) (w : World S) resp s' :
  boto3.list_distributions (remote w) = (inr resp, s') ->
  exists r,
    CloudFrontClient.get_distribution domain w =
      (inr r, set_remote s' (log_event ListDistributions w)) /\
    first_named Distribution.DomainName domain
      (listed id (DistributionList resp)) r.
Proof. apply get_distribution_run. Qed.

Lemma get_distribution_returns_first_exact_match_witness :
  exists r,
    CloudFrontClient.get_distribution "cms.x" mirrored_world =
      (inr r, set_remote (remote mirrored_world)
                (log_event ListDistributions mirrored_world)) /\
    first_named Distribution.DomainName "cms.x"
      (Cloud.distributions (remote mirrored_world)) r.
Proof.
  exact (get_distribution_returns_first_exact_match "cms.x" mirrored_world
           _ _ eq_refl).
Defined.

(** The comparison is exact: the same host name in capitals is not found. *)
Example get_distribution_is_case_sensitive :
  match fst (CloudFrontClient.get_distribution "cms.x" mirrored_world),
        fst (CloudFrontClient.get_distribution "CMS.x" mirrored_world) with
  | inr (Some d), inr None => Distribution.DomainName d = "cms.x"
  | _, _ => False
  end.
Proof. vm_compute. reflexivity. Qed.

Lemma first_match_nil {A B} (pick : A -> option B) : first_match pick [] = None.
Proof. reflexivity. Qed.

(** X4: a list response with no ["Items"] key, or with an empty one, is an
    empty catalog: each of the four lookups returns [None] after its one
    listing call, and raises nothing. *)
Theorem lookup_in_empty_listing_finds_nothing
    {S : Type} `{!boto3.Client S} (name : string) (w : World S) :
  (forall resp s',
      boto3.list_cache_policies "custom" (remote w) = (inr resp, s') ->
      default [] (cat_Items (CachePolicyList resp)) = [] ->
      CloudFrontClient.get_cache_policy name w =
        (inr None, set_remote s' (log_event (ListCachePolicies "custom") w)))
  /\ (forall resp s',
      boto3.list_origin_request_policies "custom" (remote w) = (inr resp, s') ->
      default [] (cat_Items (OriginRequestPolicyList resp)) = [] ->
      CloudFrontClient.get_origin_request_policy name w =
        (inr None,
         set_remote s' (log_event (ListOriginRequestPolicies "custom") w)))
  /\ (forall resp s',
      boto3.list_response_headers_policies "custom" (remote w) = (inr resp, s') ->
      default [] (cat_Items (ResponseHeadersPolicyList resp)) = [] ->
      CloudFrontClient.get_response_headers_policy name w =
        (inr None,
         set_remote s' (log_event (ListResponseHeadersPolicies "custom") w)))
  /\ (forall resp s',
      boto3.list_distributions (remote w) = (inr resp, s') ->
      default [] (cat_Items (DistributionList resp)) = [] ->
      CloudFrontClient.get_distribution name w =
        (inr None, set_remote s' (log_event ListDistributions w))).
Proof.
  repeat split; intros resp s' Hop Hempty.
  - unfold CloudFrontClient.get_cache_policy.
    erewrite bind_run by (rewrite call_run, Hop; reflexivity).
    rewrite Hempty. reflexivity.
  - unfold CloudFrontClient.get_origin_request_policy.
    erewrite bind_run by (rewrite call_run, Hop; reflexivity).
    rewrite Hempty. reflexivity.
  - unfold CloudFrontClient.get_response_headers_policy.
    erewrite bind_run by (rewrite call_run, Hop; reflexivity).
    rewrite Hempty. reflexivity.
  - unfold CloudFrontClient.get_distribution.
    erewrite bind_run by (rewrite call_run, Hop; reflexivity).
    rewrite Hempty. reflexivity.
Qed.

Lemma lookup_in_empty_listing_finds_nothing_witness :
  let w := Cloud.world (Cloud.empty Cloud.edge_hostname) in
  CloudFrontClient.get_cache_policy "lms.x-cache-policy" w =
    (inr None, set_remote (remote w) (log_event (ListCachePolicies "custom") w))
  /\ CloudFrontClient.get_origin_request_policy "lms.x-origin-request-policy" w =
    (inr None,
     set_remote (remote w) (log_event (ListOriginRequestPolicies "custom") w))
  /\ CloudFrontClient.get_response_headers_policy "lms.x-response-headers-policy" w =
    (inr None,
     set_remote (remote w) (log_event (ListResponseHeadersPolicies "custom") w))
  /\ CloudFrontClient.get_distribution "lms.x" w =
    (inr None, set_remote (remote w) (log_event ListDistributions w)).
Proof.
  cbv zeta.
  pose proof (fun name =>
                lookup_in_empty_listing_finds_nothing name
                  (Cloud.world (Cloud.empty Cloud.edge_hostname))) as H.
  split; [|split; [|split]].
  - exact (proj1 (H _) _ _ eq_refl eq_refl).
  - exact (proj1 (proj2 (H _)) _ _ eq_refl eq_refl).
  - exact (proj1 (proj2 (proj2 (H _))) _ _ eq_refl eq_refl).
  - exact (proj2 (proj2 (proj2 (H _))) _ _ eq_refl eq_refl).
Defined.

Section Propagation.
Context {S : Type} `{!boto3.Client S}.

Lemma call_raise {A} ev (op : S -> (exn + A) * S) (w : World S) e s' :
  op (remote w) = (inl e, s') ->
  call ev op w = (inl e, set_remote s' (log_event ev w)).
Proof. intros Hop. rewrite call_run, Hop. reflexivity. Qed.

(** X5: an exception raised by the provider comes out of the client's
    method unchanged; nothing is caught or retried. The call that failed is
    the only one the method made, and the provider is left in the state in
    which the failed call left it. *)
Theorem client_methods_propagate_provider_errors (w : World S) (e : exn) (s' : S) :
  (forall name,
      boto3.list_cache_policies "custom" (remote w) = (inl e, s') ->
      CloudFrontClient.get_cache_policy name w =
        (inl e, set_remote s' (log_event (ListCachePolicies "custom") w)))
  /\ (forall name,
      boto3.list_origin_request_policies "custom" (remote w) = (inl e, s') ->
      CloudFrontClient.get_origin_request_policy name w =
        (inl e, set_remote s' (log_event (ListOriginRequestPolicies "custom") w)))
  /\ (forall name,
      boto3.list_response_headers_policies "custom" (remote w) = (inl e, s') ->
      CloudFrontClient.get_response_headers_policy name w =
        (inl e, set_remote s' (log_event (ListResponseHeadersPolicies "custom") w)))
  /\ (forall domain,
      boto3.list_distributions (remote w) = (inl e, s') ->
      CloudFrontClient.get_distribution domain w =
        (inl e, set_remote s' (log_event ListDistributions w)))
  /\ (forall name mn dflt mx,
      let cfg := CloudFrontClient.cache_policy_config name mn dflt mx in
      boto3.create_cache_policy cfg (remote w) = (inl e, s') ->
      CloudFrontClient.create_cache_policy name mn dflt mx w =
        (inl e, set_remote s' (log_event (CreateCachePolicy cfg) w)))
  /\ (forall name,
      let cfg := CloudFrontClient.origin_request_policy_config name in
      boto3.create_origin_request_policy cfg (remote w) = (inl e, s') ->
      CloudFrontClient.create_origin_request_policy name w =
        (inl e, set_remote s' (log_event (CreateOriginRequestPolicy cfg) w)))
  /\ (forall name,
      let cfg := CloudFrontClient.response_headers_policy_config name in
      boto3.create_response_headers_policy cfg (remote w) = (inl e, s') ->
      CloudFrontClient.create_response_headers_policy name w =
        (inl e, set_remote s' (log_event (CreateResponseHeadersPolicy cfg) w)))
  /\ (forall domain cp orp rhp alias,
      let cfg :=
        CloudFrontClient.distribution_config (uuids w (drawn w)) domain cp orp rhp
          (match alias with None => ∅ | Some a => a end) in
      boto3.create_distribution cfg (remote w) = (inl e, s') ->
      CloudFrontClient.create_distribution domain cp orp rhp alias w =
        (inl e, set_remote s' (log_event (CreateDistribution cfg) (draw w)))).
Proof.
  repeat split; intros;
    repeat match goal with x := _ |- _ => subst x end.
  - apply bind_raise, call_raise; assumption.
  - apply bind_raise, call_raise; assumption.
  - apply bind_raise, call_raise; assumption.
  - apply bind_raise, call_raise; assumption.
  - rewrite create_cache_policy_run. cbv zeta.
    match goal with H : _ = (inl e, s') |- _ => rewrite H end. reflexivity.
  - rewrite create_origin_request_policy_run. cbv zeta.
    match goal with H : _ = (inl e, s') |- _ => rewrite H end. reflexivity.
  - rewrite create_response_headers_policy_run. cbv zeta.
    match goal with H : _ = (inl e, s') |- _ => rewrite H end. reflexivity.
  - rewrite create_distribution_run. cbv zeta.
    match goal with H : _ = (inl e, s') |- _ => rewrite H end. reflexivity.
Qed.

End Propagation.

Lemma client_methods_propagate_provider_errors_witness :
  let w := Throttled.world 0 in
  let e := ClientError "Throttling" in
  CloudFrontClient.get_cache_policy "lms.x-cache-policy" w =
    (inl e, set_remote (remote w) (log_event (ListCachePolicies "custom") w))
  /\ CloudFrontClient.get_distribution "lms.x" w =
    (inl e, set_remote (remote w) (log_event ListDistributions w))
  /\ CloudFrontClient.create_origin_request_policy "lms.x-origin-request-policy" w =
    (inl e,
     set_remote (remote w)
       (log_event
          (CreateOriginRequestPolicy
             (CloudFrontClient.origin_request_policy_config
                "lms.x-origin-request-policy")) w))
  /\ CloudFrontClient.create_distribution "lms.x" "cp" "orp" "rhp" None w =
    (inl e,
     set_remote (remote w)
       (log_event
          (CreateDistribution
             (CloudFrontClient.distribution_config "uuid-0" "lms.x"
                "cp" "orp" "rhp" ∅)) (draw w))).
Proof.
  cbv zeta.
  pose proof (client_methods_propagate_provider_errors (Throttled.world 0)
                (ClientError "Throttling") (remote (Throttled.world 0)))
    as (H1 & _ & _ & H4 & _ & H6 & _ & H8).
  split; [|split; [|split]].
  - exact (H1 _ eq_refl).
  - exact (H4 _ eq_refl).
  - exact (H6 _ eq_refl).
  - exact (H8 "lms.x" "cp" "orp" "rhp" None eq_refl).
Defined.

(** ** From creation to lookup *)

Lemma first_named_exists {A} (name_of : A -> string) n (l : list A) r :
  first_named name_of n l r ->
  Exists (fun q => name_of q = n) l ->
  exists q, r = Some q /\ name_of q = n /\ q ∈ l.
Proof.
  intros Hr Hex. destruct r as [p|]; cbn in Hr.
  - destruct Hr as (before & after & -> & Hn & _).
    exists p. repeat split; auto.
    apply elem_of_app. right. apply list_elem_of_here.
  - exfalso. apply Exists_exists in Hex as (q & Hq & Hn).
    rewrite Forall_forall in Hr. exact (Hr q Hq Hn).
Qed.

(** X6: what a policy creation writes is what the lookup reads. When the
    listing holds a policy whose configuration is the one
    [create_<kind>(name)] sends, [get_<kind>(name')] returns a policy (not
    [None]) for every [name'] that sanitizes to the same string as [name],
    and the policy returned carries that sanitized name. *)
Theorem created_policy_is_found_by_name
    {S : Type} `{!boto3.Client S} (name name' : string) (w : World S) :
  sanitize_name name' = sanitize_name name ->
  (forall resp s' mn dflt mx p,
      boto3.list_cache_policies "custom" (remote w) = (inr resp, s') ->
      p ∈ listed CachePolicy_ (CachePolicyList resp) ->
      CachePolicy.CachePolicyConfig_ p
        = CloudFrontClient.cache_policy_config name mn dflt mx ->
      exists q,
        fst (CloudFrontClient.get_cache_policy name' w) = inr (Some q) /\
        cache_policy_name q = sanitize_name name)
  /\ (forall resp s' p,
      boto3.list_origin_request_policies "custom" (remote w) = (inr resp, s') ->
      p ∈ listed OriginRequestPolicy_ (OriginRequestPolicyList resp) ->
      OriginRequestPolicy.OriginRequestPolicyConfig_ p
        = CloudFrontClient.origin_request_policy_config name ->
      exists q,
        fst (CloudFrontClient.get_origin_request_policy name' w) = inr (Some q) /\
        origin_request_policy_name q = sanitize_name name)
  /\ (forall resp s' p,
      boto3.list_response_headers_policies "custom" (remote w) = (inr resp, s') ->
      p ∈ listed ResponseHeadersPolicy_ (ResponseHeadersPolicyList resp) ->
      ResponseHeadersPolicy.ResponseHeadersPolicyConfig_ p
        = CloudFrontClient.response_headers_policy_config name ->
      exists q,
        fst (CloudFrontClient.get_response_headers_policy name' w)
          = inr (Some q) /\
        response_headers_policy_name q = sanitize_name name).
Proof.
  intros Hsame. split; [|split].
  - intros resp s' mn dflt mx p Hop Hin Hcfg.
    destruct (get_cache_policy_run name' w resp s' Hop) as (r & Hrun & Hr).
    destruct (first_named_exists _ _ _ _ Hr) as (q & -> & Hq & _).
    { apply Exists_exists. exists p. split; [exact Hin|].
      unfold cache_policy_name. rewrite Hcfg. symmetry. exact Hsame. }
    exists q. rewrite Hrun. split; [reflexivity | congruence].
  - intros resp s' p Hop Hin Hcfg.
    destruct (get_origin_request_policy_run name' w resp s' Hop) as (r & Hrun & Hr).
    destruct (first_named_exists _ _ _ _ Hr) as (q & -> & Hq & _).
    { apply Exists_exists. exists p. split; [exact Hin|].
      unfold origin_request_policy_name. rewrite Hcfg. symmetry. exact Hsame. }
    exists q. rewrite Hrun. split; [reflexivity | congruence].
  - intros resp s' p Hop Hin Hcfg.
    destruct (get_response_headers_policy_run name' w resp s' Hop)
      as (r & Hrun & Hr).
    destruct (first_named_exists _ _ _ _ Hr) as (q & -> & Hq & _).
    { apply Exists_exists. exists p. split; [exact Hin|].
      unfold response_headers_policy_name. rewrite Hcfg. symmetry. exact Hsame. }
    exists q. rewrite Hrun. split; [reflexivity | congruence].
Qed.

Lemma created_policy_is_found_by_name_witness :
  let w := Cloud.world stocked_cloud in
  (exists q,
      fst (CloudFrontClient.get_cache_policy "Example com" w) = inr (Some q) /\
      cache_policy_name q = sanitize_name "example.com")
  /\ (exists q,
      fst (CloudFrontClient.get_origin_request_policy "Example com" w)
        = inr (Some q) /\
      origin_request_policy_name q = sanitize_name "example.com")
  /\ (exists q,
      fst (CloudFrontClient.get_response_headers_policy "Example com" w)
        = inr (Some q) /\
      response_headers_policy_name q = sanitize_name "example.com").
Proof.
  cbv zeta.
  pose proof (created_policy_is_found_by_name "example.com" "Example com"
                (Cloud.world stocked_cloud) eq_refl) as (H1 & H2 & H3).
  split; [|split].
  - eapply (H1 _ _ 0 1 2);
      [reflexivity | apply list_elem_of_further, list_elem_of_here | reflexivity].
  - eapply H2;
      [reflexivity | apply list_elem_of_further, list_elem_of_here | reflexivity].
  - eapply H3;
      [reflexivity | apply list_elem_of_further, list_elem_of_here | reflexivity].
Defined.

(** ** The distribution configuration, for every alias *)

Lemma len_is_0_true_iff {V} (d : gmap string V) : len_is_0 d = true <-> d = ∅.
Proof.
  unfold len_is_0. rewrite Nat.eqb_eq. split.
  - apply map_size_empty_inv.
  - intros ->. apply map_size_empty.
Qed.

(** X7: in the configuration [create_distribution] sends, the default
    certificate is switched on exactly when the alias dict is empty ([None]
    counts as empty), [SSLSupportMethod] is [static-ip] in that case and
    [sni-only] otherwise, [ACMCertificateArn] is present exactly when the
    dict has a ["certificate_arn"] and [Aliases] exactly when it has a
    ["domain"]. So a dict that has neither key but is not empty switches the
    default certificate off and attaches none. Passing [None] and passing
    an empty dict give the same call. *)
Theorem viewer_certificate_follows_alias
    {S : Type} `{!boto3.Client S}
    (caller_reference domain cp orp rhp : string) (alias : gmap string string)
    (w : World S) :
  let cfg :=
    CloudFrontClient.distribution_config caller_reference domain cp orp rhp alias in
  let vc := DistributionConfig.ViewerCertificate cfg in
  (DistributionConfig.CloudFrontDefaultCertificate vc = true <-> alias = ∅) /\
  (DistributionConfig.SSLSupportMethod vc = "static-ip" <-> alias = ∅) /\
  (DistributionConfig.SSLSupportMethod vc = "sni-only" <-> alias <> ∅) /\
  DistributionConfig.ACMCertificateArn vc = alias !! "certificate_arn" /\
  DistributionConfig.Aliases cfg
    = (fun a => {| DistributionConfig.a_Items := [a] |}) <$> (alias !! "domain") /\
  CloudFrontClient.create_distribution domain cp orp rhp None w
    = CloudFrontClient.create_distribution domain cp orp rhp (Some ∅) w.
Proof.
  cbv zeta. unfold CloudFrontClient.distribution_config.
  pose proof (len_is_0_true_iff alias) as Hlen.
  change (truthy alias) with (negb (len_is_0 alias)).
  destruct (alias !! "domain"), (alias !! "certificate_arn"),
    (len_is_0 alias); cbn;
    (split; [|split; [|split; [|split; [|split]]]]);
    try reflexivity;
    (split; [intros Heq | intros Heq]);
    try discriminate; try reflexivity; try (apply Hlen; reflexivity);
    try (intros Hempty; apply Hlen in Hempty; discriminate);
    try (exfalso; apply Heq, Hlen; reflexivity);
    try (apply Hlen in Heq; discriminate).
Qed.

Example alias_with_unrelated_key :
  let cfg :=
    CloudFrontClient.distribution_config "uuid" "cdn.example.com" "cp" "orp" "rhp"
      {[ "comment" := "none" ]} in
  (DistributionConfig.Aliases cfg,
   DistributionConfig.ViewerCertificate cfg)
  = (None,
     {| DistributionConfig.CloudFrontDefaultCertificate := false;
        DistributionConfig.SSLSupportMethod := "sni-only";
        DistributionConfig.ACMCertificateArn := None |}).
Proof. vm_compute. reflexivity. Qed.

(** X8: the alias touches nothing but [Aliases] and [ViewerCertificate]. For
    every alias the configuration has one origin, whose [Id] and
    [DomainName] are the domain; the default cache behaviour targets that
    origin and carries the three policy ids in their own slots; the caller
    reference is the one drawn; every [Quantity] is the length of its
    [Items]; and all these fields are the same as without alias. *)
Theorem alias_leaves_the_rest_of_the_configuration
    (caller_reference domain cp orp rhp : string) (alias : gmap string string) :
  let cfg :=
    CloudFrontClient.distribution_config caller_reference domain cp orp rhp alias in
  let base :=
    CloudFrontClient.distribution_config caller_reference domain cp orp rhp ∅ in
  let behaviour := DistributionConfig.DefaultCacheBehavior cfg in
  let origins := DistributionConfig.Origins cfg in
  (DistributionConfig.Enabled cfg, DistributionConfig.Staging cfg,
   DistributionConfig.IsIPV6Enabled cfg, DistributionConfig.CallerReference cfg,
   DistributionConfig.Comment cfg, DistributionConfig.Restrictions cfg,
   behaviour, origins)
  = (DistributionConfig.Enabled base, DistributionConfig.Staging base,
     DistributionConfig.IsIPV6Enabled base, DistributionConfig.CallerReference base,
     DistributionConfig.Comment base, DistributionConfig.Restrictions base,
     DistributionConfig.DefaultCacheBehavior base, DistributionConfig.Origins base) /\
  DistributionConfig.CallerReference cfg = caller_reference /\
  map (fun o => (DistributionConfig.Id o, DistributionConfig.DomainName o))
    (DistributionConfig.o_Items origins) = [(domain, domain)] /\
  DistributionConfig.TargetOriginId behaviour = domain /\
  DistributionConfig.CachePolicyId behaviour = cp /\
  DistributionConfig.OriginRequestPolicyId behaviour = orp /\
  DistributionConfig.ResponseHeadersPolicyId behaviour = rhp /\
  DistributionConfig.o_Quantity origins
    = Z.of_nat (length (DistributionConfig.o_Items origins)) /\
  DistributionConfig.am_Quantity (DistributionConfig.AllowedMethods behaviour)
    = Z.of_nat (length (DistributionConfig.am_Items
                          (DistributionConfig.AllowedMethods behaviour))) /\
  Quantity (DistributionConfig.CachedMethods
              (DistributionConfig.AllowedMethods behaviour))
    = Z.of_nat (length (Items (DistributionConfig.CachedMethods
                                 (DistributionConfig.AllowedMethods behaviour)))) /\
  Forall (fun o =>
            let protocols :=
              DistributionConfig.OriginSslProtocols
                (DistributionConfig.CustomOriginConfig o) in
            Quantity protocols = Z.of_nat (length (Items protocols)))
    (DistributionConfig.o_Items origins) /\
  DistributionConfig.geo_Quantity
    (DistributionConfig.GeoRestriction (DistributionConfig.Restrictions cfg)) = 0.
Proof.
  cbv zeta. unfold CloudFrontClient.distribution_config.
  rewrite !lookup_empty.
  destruct (alias !! "domain"), (alias !! "certificate_arn");
    repeat split; repeat constructor.
Qed.

(** ** The command: configuration errors *)

Lemma missing_key_entry_of x : missing_key x = None -> is_Some (entry_of x).
Proof.
  unfold missing_key, entry_of.
  destruct (x !! "domain"), (x !! "alias"), (x !! "certificate_arn");
    intros; try discriminate; eauto.
Qed.

Lemma extra_origins_key_error good x rest key acc :
  Forall (fun y => missing_key y = None) good ->
  missing_key x = Some key ->
  extra_origins (good ++ x :: rest) acc = inl (KeyError key).
Proof.
  intros Hgood Hx. revert acc.
  induction Hgood as [|y good Hy _ IH]; intros acc.
  - cbn [app extra_origins]. unfold missing_key in Hx. unfold item.
    destruct (x !! "domain"), (x !! "alias"), (x !! "certificate_arn");
      congruence.
  - cbn [app extra_origins]. unfold missing_key in Hy. unfold item.
    destruct (y !! "domain"), (y !! "alias"), (y !! "certificate_arn");
      try discriminate.
    apply IH.
Qed.

(** X9: when an entry of [CLOUDFRONT_EXTRA_DOMAINS] lacks one of its keys,
    the command raises [KeyError] for the first key that the first such
    entry lacks (in the order domain, alias, certificate_arn) and does so
    before anything else: no API call is made, nothing is printed, and the
    entries that come before are not provisioned either. *)
Theorem malformed_extra_entry_stops_before_any_call
    {S : Type} `{!boto3.Client S} (loaded_config : LoadedConfig) (w : World S)
    (good : list (gmap string string)) (x : gmap string string)
    (rest : list (gmap string string)) (key : string) :
  CLOUDFRONT_EXTRA_DOMAINS loaded_config = good ++ x :: rest ->
  Forall (fun y => missing_key y = None) good ->
  missing_key x = Some key ->
  create_cloudfront_resources loaded_config w = (inl (KeyError key), w).
Proof.
  intros Hextra Hgood Hx. unfold create_cloudfront_resources, build_origins.
  rewrite Hextra, (extra_origins_key_error good x rest key [] Hgood Hx).
  reflexivity.
Qed.

(** A configuration whose second extra entry has no certificate. *)
Lemma malformed_extra_entry_stops_before_any_call_witness :
  let loaded_config :=
    {| CLOUDFRONT_AWS_REGION := "us-east-1";
       CLOUDFRONT_AWS_ACCESS_KEY_ID := "key";
       CLOUDFRONT_AWS_SECRET_ACCESS_KEY := "secret";
       CLOUDFRONT_CACHE_CONFIG :=
         {[ "min_ttl" := 0; "default_ttl" := 300; "max_ttl" := 3600 ]};
       CLOUDFRONT_EXTRA_DOMAINS :=
         [ {[ "domain" := "apps.x"; "alias" := "mfe.x";
              "certificate_arn" := "arn:y" ]};
           {[ "domain" := "docs.x"; "alias" := "help.x" ]} ];
       CLOUDFRONT_LMS_DOMAIN := "lms.x";
       CLOUDFRONT_CMS_DOMAIN := "cms.x" |} in
  let w := Cloud.world (Cloud.empty Cloud.edge_hostname) in
  create_cloudfront_resources loaded_config w
    = (inl (KeyError "certificate_arn"), w).
Proof.
  cbv zeta.
  eapply (malformed_extra_entry_stops_before_any_call _ _
            [ {[ "domain" := "apps.x"; "alias" := "mfe.x";
                 "certificate_arn" := "arn:y" ]} ]
            {[ "domain" := "docs.x"; "alias" := "help.x" ]} []).
  - reflexivity.
  - repeat constructor.
  - vm_compute. reflexivity.
Defined.

(** ** The command: one pass *)

Section PassFacts.
Context {S : Type} `{!boto3.Client S}.

Lemma get_or_create_run {A B} (get : M S (option A)) (create : M S A)
    (k : A -> M S B) w found used w1 :
  get_or_create_step get create w found used w1 ->
  bind get
    (fun found =>
       bind (match found with Some p => ret p | None => create end) k) w
  = k used w1.
Proof.
  intros (wl & Hget & Hsel). rewrite (bind_run _ _ _ _ _ Hget).
  destruct found as [p|].
  - destruct Hsel as [-> ->]. reflexivity.
  - rewrite (bind_run _ _ _ _ _ Hsel). reflexivity.
Qed.

Lemma found_step {A} (get : M S (option A)) (create : M S A) w p w1 :
  get w = (inr (Some p), w1) ->
  get_or_create_step get create w (Some p) p w1.
Proof. intros Hget. exists w1. auto. Qed.

(** X10: a pass over a domain for which each of the four lookups finds a
    resource issues these four lookups and nothing else: no creation call,
    no UUID drawn. It reads neither [cache_config] nor the alias, so it
    completes whatever they hold. *)
Theorem pass_over_existing_resources_only_looks_up
    (cache_config : gmap string Z) (domain : string)
    (origin_config : OriginConfig) (w : World S)
    r1 s1 r2 s2 r3 s3 r4 s4 :
  boto3.list_origin_request_policies "custom" (remote w) = (inr r1, s1) ->
  Exists (fun q => origin_request_policy_name q
                   = sanitize_name (domain +:+ "-origin-request-policy"))
    (listed OriginRequestPolicy_ (OriginRequestPolicyList r1)) ->
  boto3.list_response_headers_policies "custom" s1 = (inr r2, s2) ->
  Exists (fun q => response_headers_policy_name q
                   = sanitize_name (domain +:+ "-response-headers-policy"))
    (listed ResponseHeadersPolicy_ (ResponseHeadersPolicyList r2)) ->
  boto3.list_cache_policies "custom" s2 = (inr r3, s3) ->
  Exists (fun q => cache_policy_name q
                   = sanitize_name (domain +:+ "-cache-policy"))
    (listed CachePolicy_ (CachePolicyList r3)) ->
  boto3.list_distributions s3 = (inr r4, s4) ->
  Exists (fun q => Distribution.DomainName q = domain)
    (listed id (DistributionList r4)) ->
  exists w',
    loop_body cache_config domain origin_config w = (inr tt, w') /\
    remote w' = s4 /\
    journal w' =
      journal w ++
        [ListOriginRequestPolicies "custom"; ListResponseHeadersPolicies "custom";
         ListCachePolicies "custom"; ListDistributions] /\
    drawn w' = drawn w.
Proof.
  intros H1 E1 H2 E2 H3 E3 H4 E4.
  destruct (get_origin_request_policy_run
              (domain +:+ "-origin-request-policy") w r1 s1 H1)
    as (f1 & Hrun1 & Hf1).
  destruct (first_named_exists _ _ _ _ Hf1 E1) as (p1 & -> & _).
  set (w1 := set_remote s1 (log_event (ListOriginRequestPolicies "custom") w))
    in *.
  destruct (get_response_headers_policy_run
              (domain +:+ "-response-headers-policy") w1 r2 s2 H2)
    as (f2 & Hrun2 & Hf2).
  destruct (first_named_exists _ _ _ _ Hf2 E2) as (p2 & -> & _).
  set (w2 := set_remote s2 (log_event (ListResponseHeadersPolicies "custom") w1))
    in *.
  destruct (get_cache_policy_run (domain +:+ "-cache-policy") w2 r3 s3 H3)
    as (f3 & Hrun3 & Hf3).
  destruct (first_named_exists _ _ _ _ Hf3 E3) as (p3 & -> & _).
  set (w3 := set_remote s3 (log_event (ListCachePolicies "custom") w2)) in *.
  destruct (get_distribution_run domain w3 r4 s4 H4) as (f4 & Hrun4 & Hf4).
  destruct (first_named_exists _ _ _ _ Hf4 E4) as (p4 & -> & _).
  exists (set_remote s4 (log_event ListDistributions w3)).
  split; [|split; [reflexivity|split; [|reflexivity]]].
  - unfold loop_body.
    rewrite (get_or_create_run _ _ _ _ _ _ _ (found_step _ _ _ _ _ Hrun1)).
    rewrite (get_or_create_run _ _ _ _ _ _ _ (found_step _ _ _ _ _ Hrun2)).
    rewrite (bind_run _ _ _ _ _ Hrun3).
    rewrite (bind_run (ret p3) _ _ p3 _ eq_refl).
    rewrite (bind_run _ _ _ _ _ Hrun4). reflexivity.
  - cbn [journal set_remote log_event w3 w2 w1].
    rewrite <- !app_assoc. reflexivity.
Qed.

(** X11: when the cache policy of a domain is not found and [cache_config]
    lacks a TTL key, the pass raises [KeyError] for the first key missing
    in the order default_ttl, min_ttl, max_ttl. This happens after the
    origin request policy and the response headers policy went through
    their get-or-create steps and after the cache policy lookup: whatever
    those steps created stays, and neither a cache policy nor a distribution
    call is made. *)
Theorem missing_ttl_key_raises_after_two_steps
    (cache_config : gmap string Z) (domain : string)
    (origin_config : OriginConfig) (w w1 w2 w3 : World S)
    found_request request_policy found_response response_policy (key : string) :
  get_or_create_step
    (CloudFrontClient.get_origin_request_policy
       (domain +:+ "-origin-request-policy"))
    (CloudFrontClient.create_origin_request_policy
       (domain +:+ "-origin-request-policy"))
    w found_request request_policy w1 ->
  get_or_create_step
    (CloudFrontClient.get_response_headers_policy
       (domain +:+ "-response-headers-policy"))
    (CloudFrontClient.create_response_headers_policy
       (domain +:+ "-response-headers-policy"))
    w1 found_response response_policy w2 ->
  CloudFrontClient.get_cache_policy (domain +:+ "-cache-policy") w2
    = (inr None, w3) ->
  missing_ttl cache_config = Some key ->
  loop_body cache_config domain origin_config w = (inl (KeyError key), w3) /\
  journal w3 =
    journal w
      ++ step_events (ListOriginRequestPolicies "custom")
           (CreateOriginRequestPolicy
              (CloudFrontClient.origin_request_policy_config
                 (domain +:+ "-origin-request-policy")))
           found_request
      ++ step_events (ListResponseHeadersPolicies "custom")
           (CreateResponseHeadersPolicy
              (CloudFrontClient.response_headers_policy_config
                 (domain +:+ "-response-headers-policy")))
           found_response
      ++ [ListCachePolicies "custom"].
Proof.
  intros Hs1 Hs2 Hget Hkey. split.
  - unfold loop_body.
    rewrite (get_or_create_run _ _ _ _ _ _ _ Hs1).
    rewrite (get_or_create_run _ _ _ _ _ _ _ Hs2).
    rewrite (bind_run _ _ _ _ _ Hget).
    unfold missing_ttl in Hkey. unfold bind, getitem.
    destruct (cache_config !! "default_ttl"); cbn;
      [|injection Hkey as <-; reflexivity].
    destruct (cache_config !! "min_ttl"); cbn;
      [|injection Hkey as <-; reflexivity].
    destruct (cache_config !! "max_ttl"); cbn;
      [discriminate | injection Hkey as <-; reflexivity].
  - destruct (get_or_create_step_journal _ _ _ _ _ _ _ _
                (get_origin_request_policy_journals _)
                (fun _ => create_origin_request_policy_journals _) Hs1)
      as (Hj1 & _).
    destruct (get_or_create_step_journal _ _ _ _ _ _ _ _
                (get_response_headers_policy_journals _)
                (fun _ => create_response_headers_policy_journals _) Hs2)
      as (Hj2 & _).
    destruct (journals_run _ _ _ _ _ (get_cache_policy_journals _) Hget)
      as (Hj3 & _).
    rewrite Hj3, Hj2, Hj1, <- !app_assoc. reflexivity.
Qed.

End PassFacts.

Lemma pass_over_existing_resources_only_looks_up_witness :
  exists w',
    loop_body ∅ "lms.x" ∅ mirrored_world = (inr tt, w') /\
    remote w' = provisioned_cloud /\
    journal w' =
      journal mirrored_world ++
        [ListOriginRequestPolicies "custom"; ListResponseHeadersPolicies "custom";
         ListCachePolicies "custom"; ListDistributions] /\
    drawn w' = drawn mirrored_world.
Proof.
  eapply (pass_over_existing_resources_only_looks_up ∅ "lms.x" ∅ mirrored_world).
  - reflexivity.
  - apply Exists_cons_hd. reflexivity.
  - reflexivity.
  - apply Exists_cons_hd. reflexivity.
  - reflexivity.
  - apply Exists_cons_hd. reflexivity.
  - reflexivity.
  - apply Exists_cons_hd. reflexivity.
Defined.

Lemma missing_ttl_key_raises_after_two_steps_witness :
  let w := Cloud.world (Cloud.empty Cloud.edge_hostname) in
  exists w3,
    loop_body ∅ "lms.x" ∅ w = (inl (KeyError "default_ttl"), w3) /\
    journal w3 =
      journal w
        ++ [ListOriginRequestPolicies "custom";
            CreateOriginRequestPolicy
              (CloudFrontClient.origin_request_policy_config
                 ("lms.x" +:+ "-origin-request-policy"))]
        ++ [ListResponseHeadersPolicies "custom";
            CreateResponseHeadersPolicy
              (CloudFrontClient.response_headers_policy_config
                 ("lms.x" +:+ "-response-headers-policy"))]
        ++ [ListCachePolicies "custom"].
Proof.
  cbv zeta. eexists.
  eapply (missing_ttl_key_raises_after_two_steps ∅ "lms.x" ∅
            (Cloud.world (Cloud.empty Cloud.edge_hostname)) _ _ _
            None _ None _ "default_ttl").
  - eexists. split; reflexivity.
  - eexists. split; reflexivity.
  - reflexivity.
  - reflexivity.
Defined.

(** ** The command: failure *)

Section Failure.
Context {S : Type} `{!boto3.Client S}.

Lemma for_origins_app cache_config items1 items2 bound (w : World S) :
  for_origins cache_config (items1 ++ items2) bound w =
    bind (for_origins cache_config items1 bound)
      (fun b => for_origins cache_config items2 b) w.
Proof.
  revert bound w. induction items1 as [|[d oc] items1 IH]; intros bound w.
  - reflexivity.
  - cbn [app for_origins]. unfold bind.
    destruct (loop_body cache_config d oc w) as [[e|[]] w1]; [reflexivity|].
    rewrite IH. reflexivity.
Qed.

(** X12: nothing is caught in the loop. When the pass for a domain raises,
    the command raises the same exception and stops in the world that pass
    left: the domains before it stay provisioned, the domains after it are
    not touched, and the completion message is not printed. *)
Theorem failing_pass_aborts_the_run
    (loaded_config : LoadedConfig) (w w1 w2 : World S)
    (before after : odict OriginConfig) (domain : string)
    (origin_config : OriginConfig) (bound : option string) (e : exn) :
  build_origins loaded_config = inr (before ++ (domain, origin_config) :: after) ->
  for_origins (CLOUDFRONT_CACHE_CONFIG loaded_config) before None w
    = (inr bound, w1) ->
  loop_body (CLOUDFRONT_CACHE_CONFIG loaded_config) domain origin_config w1
    = (inl e, w2) ->
  create_cloudfront_resources loaded_config w = (inl e, w2).
Proof.
  intros Hbuild Hbefore Hbody. unfold create_cloudfront_resources.
  rewrite Hbuild. unfold lift.
  rewrite (bind_run (ret _) _ _ _ _ eq_refl).
  apply bind_raise. rewrite for_origins_app.
  rewrite (bind_run _ _ _ _ _ Hbefore). cbn [for_origins].
  apply bind_raise. exact Hbody.
Qed.

Lemma for_origins_silent cache_config items bound :
  silent (for_origins (S := S) cache_config items bound).
Proof.
  revert bound. induction items as [|[d oc] items IH]; intros bound.
  - apply silent_ret.
  - cbn [for_origins]. apply silent_bind; [apply loop_body_silent|].
    intros _. apply IH.
Qed.

(** X13: a run that raises has printed nothing, whatever raised and
    wherever: the completion message appears only when every domain went
    through. *)
Theorem no_completion_message_on_failure
    (loaded_config : LoadedConfig) (w w' : World S) (e : exn) :
  create_cloudfront_resources loaded_config w = (inl e, w') ->
  exists evs,
    journal w' = journal w ++ evs /\
    Forall (fun ev => is_echo ev = false) evs.
Proof.
  intros Hrun. unfold create_cloudfront_resources in Hrun.
  destruct (build_origins loaded_config) as [e0|origins].
  - cbn in Hrun. injection Hrun as _ <-. exists []. rewrite app_nil_r. auto.
  - unfold lift in Hrun. rewrite (bind_run (ret _) _ _ _ _ eq_refl) in Hrun.
    destruct (for_origins_silent (CLOUDFRONT_CACHE_CONFIG loaded_config)
                origins None w) as (evs & Hj & He).
    unfold bind in Hrun.
    destruct (for_origins _ origins None w) as [[e1|[d|]] w1].
    + injection Hrun as _ <-. exists evs. auto.
    + discriminate.
    + cbn in Hrun. injection Hrun as _ <-. exists evs. auto.
Qed.

End Failure.

(** With a budget of ten calls the first domain goes through (eight calls)
    and the pass for the second one fails at its third call. *)
Lemma failing_pass_aborts_the_run_witness :
  let w := Throttled.world 10 in
  let cache_config := CLOUDFRONT_CACHE_CONFIG example_config in
  let w1 := snd (for_origins cache_config [("lms.x", ∅)] None w) in
  let w2 := snd (loop_body cache_config "cms.x" ∅ w1) in
  create_cloudfront_resources example_config w
    = (inl (ClientError "Throttling"), w2) /\
  length (journal w2) = 11%nat /\
  Throttled.budget (remote w2) = 0%nat.
Proof.
  cbv zeta.
  set (w := Throttled.world 10).
  set (cache_config := CLOUDFRONT_CACHE_CONFIG example_config).
  set (first := for_origins cache_config [("lms.x", ∅)] None w).
  set (second := loop_body cache_config "cms.x" ∅ (snd first)).
  assert (H1 : fst first = inr (Some "lms.x")) by (vm_compute; reflexivity).
  assert (H2 : fst second = inl (ClientError "Throttling"))
    by (vm_compute; reflexivity).
  split; [|split; vm_compute; reflexivity].
  eapply (failing_pass_aborts_the_run example_config w (snd first) (snd second)
            [("lms.x", ∅)]
            [("apps.x",
              {[ "alias" := {[ "domain" := "mfe.x"; "certificate_arn" := "arn:y" ]} ]})]
            "cms.x" ∅ (Some "lms.x") (ClientError "Throttling")).
  - vm_compute. reflexivity.
  - rewrite <- H1. apply surjective_pairing.
  - rewrite <- H2. apply surjective_pairing.
Defined.

Lemma no_completion_message_on_failure_witness :
  let out := create_cloudfront_resources example_config (Throttled.world 10) in
  fst out = inl (ClientError "Throttling") /\
  exists evs,
    journal (snd out) = [] ++ evs /\
    Forall (fun ev => is_echo ev = false) evs.
Proof.
  cbv zeta.
  set (out := create_cloudfront_resources example_config (Throttled.world 10)).
  assert (Hfst : fst out = inl (ClientError "Throttling"))
    by (vm_compute; reflexivity).
  split; [exact Hfst|].
  apply (no_completion_message_on_failure example_config (Throttled.world 10)
           (snd out) (ClientError "Throttling")).
  rewrite <- Hfst. apply surjective_pairing.
Defined.

(** ** The command: what a completed run has done *)

Lemma count_events_app f evs1 evs2 :
  count_events f (evs1 ++ evs2) = (count_events f evs1 + count_events f evs2)%nat.
Proof. unfold count_events. rewrite List.filter_app, length_app. reflexivity. Qed.

Lemma caller_references_app evs1 evs2 :
  caller_references (evs1 ++ evs2)
    = caller_references evs1 ++ caller_references evs2.
Proof. unfold caller_references. apply omap_app. Qed.

Lemma distribution_config_caller_reference caller_reference domain cp orp rhp alias :
  DistributionConfig.CallerReference
    (CloudFrontClient.distribution_config caller_reference domain cp orp rhp alias)
  = caller_reference.
Proof.
  unfold CloudFrontClient.distribution_config.
  destruct (alias !! "domain"), (alias !! "certificate_arn"); reflexivity.
Qed.

Section Completed.
Context {S : Type} `{!boto3.Client S}.

Lemma create_distribution_inr_supply domain cp orp rhp alias (w : World S) d w' :
  CloudFrontClient.create_distribution domain cp orp rhp alias w = (inr d, w') ->
  uuids w' = uuids w /\ drawn w' = Datatypes.S (drawn w).
Proof.
  rewrite create_distribution_run. cbv zeta. intros [= _ <-]. auto.
Qed.

(** The calls of a completed pass: four lookups, each followed by its
    creation when it found nothing; the UUID supply moves by one exactly when
    the distribution is created, and that creation carries the UUID drawn. *)
Lemma loop_body_inr_shape cache_config domain origin_config (w w' : World S) :
  loop_body cache_config domain origin_config w = (inr tt, w') ->
  exists (f1 : option OriginRequestPolicy.t) (f2 : option ResponseHeadersPolicy.t)
         (f3 : option CachePolicy.t) (f4 : option Distribution.t) c1 c2 c3 cfg,
    journal w' =
      journal w
        ++ step_events (ListOriginRequestPolicies "custom")
             (CreateOriginRequestPolicy c1) f1
        ++ step_events (ListResponseHeadersPolicies "custom")
             (CreateResponseHeadersPolicy c2) f2
        ++ step_events (ListCachePolicies "custom") (CreateCachePolicy c3) f3
        ++ step_events ListDistributions (CreateDistribution cfg) f4 /\
    DistributionConfig.CallerReference cfg = uuids w (drawn w) /\
    uuids w' = uuids w /\
    drawn w' = (drawn w + match f4 with Some _ => 0 | None => 1 end)%nat.
Proof.
  intros Hrun. unfold loop_body in Hrun.
  apply get_or_create_inr in Hrun as (f1 & rp & w1 & Hs1 & Hrun).
  apply get_or_create_inr in Hrun as (f2 & sp & w2 & Hs2 & Hrun).
  change (bind (CloudFrontClient.get_cache_policy (domain +:+ "-cache-policy"))
            (fun found =>
               bind (match found with
                     | Some p => ret p
                     | None =>
                         create_cache_policy_from cache_config
                           (domain +:+ "-cache-policy")
                     end)
                 (fun cache_policy =>
                    bind (CloudFrontClient.get_distribution domain)
                      (fun found =>
                         match found with
                         | Some _ => ret tt
                         | None =>
                             bind (CloudFrontClient.create_distribution domain
                                     (CachePolicy.Id cache_policy)
                                     (OriginRequestPolicy.Id rp)
                                     (ResponseHeadersPolicy.Id sp)
                                     (origin_config !! "alias"))
                               (fun _ => ret tt)
                         end))) w2 = (inr tt, w')) in Hrun.
  apply get_or_create_inr in Hrun as (f3 & cp & w3 & Hs3 & Hrun).
  apply get_or_create_distribution_inr in Hrun as (f4 & dist & Hs4).
  destruct (get_or_create_step_journal _ _ _ _ _ _ _ _
              (get_origin_request_policy_journals _)
              (fun _ => create_origin_request_policy_journals _) Hs1)
    as (Hj1 & Hu1 & Hd1).
  destruct (get_or_create_step_journal _ _ _ _ _ _ _ _
              (get_response_headers_policy_journals _)
              (fun _ => create_response_headers_policy_journals _) Hs2)
    as (Hj2 & Hu2 & Hd2).
  assert (H3 : exists c3,
             journal w3 = journal w2 ++
               step_events (ListCachePolicies "custom") (CreateCachePolicy c3) f3 /\
             uuids w3 = uuids w2 /\ drawn w3 = drawn w2).
  { destruct Hs3 as (wl & Hl & Hsel).
    destruct (journals_run _ _ _ _ _ (get_cache_policy_journals _) Hl)
      as (Hj & Hu & Hd).
    destruct f3 as [p|].
    - destruct Hsel as [_ ->].
      exists (CloudFrontClient.cache_policy_config domain 0 0 0). auto.
    - apply create_cache_policy_from_inr in Hsel
        as (mn & dflt & mx & _ & _ & _ & Hsel).
      destruct (journals_run _ _ _ _ _ (create_cache_policy_journals _ _ _ _) Hsel)
        as (Hj' & Hu' & Hd').
      eexists. cbn [step_events].
      rewrite Hj', Hj, Hu', Hd', <- app_assoc. auto. }
  destruct H3 as (c3 & Hj3 & Hu3 & Hd3).
  destruct Hs4 as (wl & Hl & Hsel).
  destruct (journals_run _ _ _ _ _ (get_distribution_journals _) Hl)
    as (Hj & Hu & Hd).
  exists f1, f2, f3, f4.
  exists (CloudFrontClient.origin_request_policy_config
            (domain +:+ "-origin-request-policy")),
    (CloudFrontClient.response_headers_policy_config
       (domain +:+ "-response-headers-policy")),
    c3,
    (CloudFrontClient.distribution_config (uuids w (drawn w)) domain
       (CachePolicy.Id cp) (OriginRequestPolicy.Id rp)
       (ResponseHeadersPolicy.Id sp)
       (match origin_config !! "alias" with None => ∅ | Some a => a end)).
  split; [|split; [apply distribution_config_caller_reference|]].
  - destruct f4 as [p|]; cbn [step_events].
    + destruct Hsel as [_ ->].
      rewrite Hj, Hj3, Hj2, Hj1, <- !app_assoc. reflexivity.
    + rewrite (create_distribution_inr _ _ _ _ _ _ _ _ Hsel).
      rewrite Hj, Hu, Hd, Hj3, Hu3, Hd3, Hj2, Hu2, Hd2, Hj1, Hu1, Hd1,
        <- !app_assoc.
      reflexivity.
  - destruct f4 as [p|].
    + destruct Hsel as [_ ->]. split; [congruence|].
      rewrite Hd, Hd3, Hd2, Hd1. lia.
    + apply create_distribution_inr_supply in Hsel as [Hu4 Hd4].
      split; [congruence|]. rewrite Hd4, Hd, Hd3, Hd2, Hd1. lia.
Qed.

Lemma loop_body_inr_counts cache_config domain origin_config (w w' : World S) :
  loop_body cache_config domain origin_config w = (inr tt, w') ->
  exists evs,
    journal w' = journal w ++ evs /\
    uuids w' = uuids w /\
    (drawn w <= drawn w')%nat /\
    count_events is_lookup evs = 4%nat /\
    (count_events is_create evs <= 4)%nat /\
    count_events is_echo evs = 0%nat /\
    count_events creates_distribution evs = (drawn w' - drawn w)%nat /\
    caller_references evs = map (uuids w) (seq (drawn w) (drawn w' - drawn w)).
Proof.
  intros Hrun.
  apply loop_body_inr_shape in Hrun
    as (f1 & f2 & f3 & f4 & c1 & c2 & c3 & cfg & Hj & Hcr & Hu & Hd).
  eexists. split; [exact Hj|]. split; [exact Hu|]. split; [lia|].
  assert (Hdiff : (drawn w' - drawn w = match f4 with Some _ => 0 | None => 1 end)%nat)
    by lia.
  rewrite Hdiff.
  destruct f1, f2, f3, f4; cbn; rewrite ?Hcr; repeat split; lia.
Qed.

Lemma for_origins_inr_counts cache_config items bound (w w' : World S) r :
  for_origins cache_config items bound w = (inr r, w') ->
  exists evs,
    journal w' = journal w ++ evs /\
    uuids w' = uuids w /\
    (drawn w <= drawn w')%nat /\
    count_events is_lookup evs = (4 * length items)%nat /\
    (count_events is_create evs <= 4 * length items)%nat /\
    count_events is_echo evs = 0%nat /\
    count_events creates_distribution evs = (drawn w' - drawn w)%nat /\
    caller_references evs = map (uuids w) (seq (drawn w) (drawn w' - drawn w)).
Proof.
  revert bound w. induction items as [|[d oc] items IH]; intros bound w Hrun.
  - cbn in Hrun. unfold ret in Hrun. injection Hrun as _ <-.
    exists []. rewrite app_nil_r, Nat.sub_diag. repeat split; cbn; lia.
  - cbn [for_origins] in Hrun.
    apply bind_inr in Hrun as ([] & w1 & Hbody & Hrest).
    apply loop_body_inr_counts in Hbody
      as (evs1 & Hj1 & Hu1 & Hd1 & Hl1 & Hc1 & He1 & Hcd1 & Hr1).
    apply IH in Hrest as (evs2 & Hj2 & Hu2 & Hd2 & Hl2 & Hc2 & He2 & Hcd2 & Hr2).
    exists (evs1 ++ evs2).
    rewrite !count_events_app, caller_references_app, Hj2, Hj1, <- app_assoc.
    split; [reflexivity|]. split; [congruence|]. split; [lia|].
    cbn [length]. split; [lia|]. split; [lia|]. split; [lia|]. split; [lia|].
    rewrite Hr1, Hr2, Hu1, <- map_app. f_equal.
    replace (drawn w' - drawn w)%nat
      with ((drawn w1 - drawn w) + (drawn w' - drawn w1))%nat by lia.
    rewrite seq_app. f_equal. f_equal. lia.
Qed.

(** X14: a run that completes has made exactly four lookups per domain of
    [origins] and at most four creations per domain, before its one
    message; the number of distributions created is the number of UUIDs
    drawn. *)
Theorem completed_run_call_counts
    (loaded_config : LoadedConfig) (w w' : World S) :
  create_cloudfront_resources loaded_config w = (inr tt, w') ->
  exists origins evs,
    build_origins loaded_config = inr origins /\
    journal w' = journal w ++ evs /\
    count_events is_lookup evs = (4 * length origins)%nat /\
    (count_events is_create evs <= 4 * length origins)%nat /\
    count_events is_echo evs = 1%nat /\
    count_events creates_distribution evs = (drawn w' - drawn w)%nat.
Proof.
  intros Hrun. unfold create_cloudfront_resources in Hrun.
  apply bind_inr in Hrun as (origins & w0 & Hbuild & Hrun).
  apply bind_inr in Hrun as (bound & w1 & Hloop & Hecho).
  unfold lift in Hbuild.
  destruct (build_origins loaded_config) as [e|origins'] eqn:Hb; [discriminate|].
  unfold ret in Hbuild. injection Hbuild as -> ->.
  apply for_origins_inr_counts in Hloop
    as (evs & Hj & Hu & Hd & Hl & Hc & He & Hcd & Hr).
  destruct bound as [d|]; [|discriminate].
  unfold echo, emit in Hecho. injection Hecho as <-.
  exists origins, (evs ++ [Echo ("CloudFront is set up for " +:+ d)]).
  split; [reflexivity|].
  rewrite !count_events_app. cbn [journal log_event drawn].
  rewrite Hj, <- app_assoc.
  split; [reflexivity|]. cbn. repeat split; lia.
Qed.

(** X15: the distributions created in a run carry, in the order of their
    creation, the UUIDs drawn one after the other from where the supply
    stood at the start; no call other than a distribution creation draws
    one. So two creations of a run never share their caller reference
    unless [uuid4] itself repeats. *)
Theorem caller_references_are_drawn_in_order
    (loaded_config : LoadedConfig) (w w' : World S) :
  create_cloudfront_resources loaded_config w = (inr tt, w') ->
  exists evs,
    journal w' = journal w ++ evs /\
    caller_references evs = map (uuids w) (seq (drawn w) (drawn w' - drawn w)) /\
    ((forall i j, uuids w i = uuids w j -> i = j) ->
     NoDup (caller_references evs)).
Proof.
  intros Hrun. unfold create_cloudfront_resources in Hrun.
  apply bind_inr in Hrun as (origins & w0 & Hbuild & Hrun).
  apply bind_inr in Hrun as (bound & w1 & Hloop & Hecho).
  unfold lift in Hbuild.
  destruct (build_origins loaded_config) as [e|origins'] eqn:Hb; [discriminate|].
  unfold ret in Hbuild. injection Hbuild as -> ->.
  apply for_origins_inr_counts in Hloop
    as (evs & Hj & Hu & Hd & Hl & Hc & He & Hcd & Hr).
  destruct bound as [d|]; [|discriminate].
  unfold echo, emit in Hecho. injection Hecho as <-.
  exists (evs ++ [Echo ("CloudFront is set up for " +:+ d)]).
  cbn [journal log_event drawn]. rewrite Hj, <- app_assoc.
  split; [reflexivity|].
  rewrite caller_references_app. cbn. rewrite app_nil_r.
  split; [exact Hr|].
  intros Hinj. rewrite Hr. apply NoDup_fmap_2.
  - intros i j. apply Hinj.
  - apply NoDup_seq.
Qed.

End Completed.

Lemma completed_run_call_counts_witness :
  let w := Cloud.world (Cloud.empty Cloud.edge_hostname) in
  let out := create_cloudfront_resources example_config w in
  fst out = inr tt /\
  exists origins evs,
    build_origins example_config = inr origins /\
    journal (snd out) = journal w ++ evs /\
    count_events is_lookup evs = (4 * length origins)%nat /\
    (count_events is_create evs <= 4 * length origins)%nat /\
    count_events is_echo evs = 1%nat /\
    count_events creates_distribution evs = (drawn (snd out) - drawn w)%nat.
Proof.
  cbv zeta.
  set (out := create_cloudfront_resources example_config
                (Cloud.world (Cloud.empty Cloud.edge_hostname))).
  assert (Hfst : fst out = inr tt) by (vm_compute; reflexivity).
  split; [exact Hfst|].
  apply (completed_run_call_counts example_config
           (Cloud.world (Cloud.empty Cloud.edge_hostname)) (snd out)).
  rewrite <- Hfst. apply surjective_pairing.
Defined.

Lemma caller_references_are_drawn_in_order_witness :
  let w := Cloud.world (Cloud.empty Cloud.edge_hostname) in
  let out := create_cloudfront_resources example_config w in
  fst out = inr tt /\
  exists evs,
    journal (snd out) = journal w ++ evs /\
    caller_references evs
      = map (uuids w) (seq (drawn w) (drawn (snd out) - drawn w)) /\
    ((forall i j, uuids w i = uuids w j -> i = j) ->
     NoDup (caller_references evs)).
Proof.
  cbv zeta.
  set (out := create_cloudfront_resources example_config
                (Cloud.world (Cloud.empty Cloud.edge_hostname))).
  assert (Hfst : fst out = inr tt) by (vm_compute; reflexivity).
  split; [exact Hfst|].
  apply (caller_references_are_drawn_in_order example_config
           (Cloud.world (Cloud.empty Cloud.edge_hostname)) (snd out)).
  rewrite <- Hfst. apply surjective_pairing.
Defined.

Example caller_references_of_the_example :
  caller_references
    (events_of (create_cloudfront_resources example_config
                  (Cloud.world (Cloud.empty Cloud.edge_hostname))))
  = ["uuid-0"; "uuid-1"; "uuid-2"].
Proof. vm_compute. reflexivity. Qed.

(** ** The command and the client together *)

Lemma dict_set_Forall {V} (P : string * V -> Prop) k v (d : odict V) :
  (forall k', P (k', v)) -> Forall P d -> Forall P (dict_set k v d).
Proof.
  intros Hv Hd. induction Hd as [|[k0 v0] d H0 Hd IH]; cbn.
  - constructor; [apply Hv | constructor].
  - destruct (String.eqb k0 k); constructor; auto.
Qed.

Lemma dict_update_Forall {V} (P : string * V -> Prop) (d more : odict V) :
  (forall k k' v, P (k, v) -> P (k', v)) ->
  Forall P d -> Forall P more -> Forall P (dict_update d more).
Proof.
  intros Hkey Hd Hmore. unfold dict_update. revert d Hd.
  induction Hmore as [|[k v] more Hkv _ IH]; intros d Hd; cbn [fold_left fst snd].
  - exact Hd.
  - apply IH. apply dict_set_Forall; [|exact Hd].
    intros k'. exact (Hkey _ _ _ Hkv).
Qed.

(** What the command keeps for a domain: nothing, or an alias with both of
    its keys. *)
Lemma extra_origins_values extra_config acc origins :
  let P := fun kv : string * OriginConfig =>
             snd kv = ∅ \/
             exists a c,
               snd kv = {[ "alias" := {[ "domain" := a; "certificate_arn" := c ]} ]} in
  Forall P acc ->
  extra_origins extra_config acc = inr origins ->
  Forall P origins.
Proof.
  cbv zeta. revert acc.
  induction extra_config as [|x rest IH]; intros acc Hacc Hrun.
  - cbn in Hrun. injection Hrun as <-. exact Hacc.
  - cbn [extra_origins] in Hrun. unfold item in Hrun.
    destruct (x !! "domain") as [k|]; [|discriminate].
    destruct (x !! "alias") as [a|]; [|discriminate].
    destruct (x !! "certificate_arn") as [c|]; [|discriminate].
    apply IH in Hrun; [exact Hrun|].
    apply dict_set_Forall; [|exact Hacc].
    intros k'. right. exists a, c. reflexivity.
Qed.

(** X16: when the entries of [CLOUDFRONT_EXTRA_DOMAINS] hold strings under
    their three keys, every distribution configuration the command sends is
    coherent. The value the command keeps for a domain is then either empty
    or an alias with both a domain and a certificate, so the configuration
    sent for it either relies on the default certificate and registers no
    alias, or registers the alias with its certificate under [sni-only]. An
    entry with a key set to [null] is not covered: for it the method's tests
    [is not None] decide otherwise. *)
Theorem command_sends_coherent_configurations
    (loaded_config : LoadedConfig) (origins : odict OriginConfig)
    (domain : string) (origin_config : OriginConfig)
    (caller_reference cp orp rhp : string) :
  build_origins loaded_config = inr origins ->
  (domain, origin_config) ∈ origins ->
  coherent
    (CloudFrontClient.distribution_config caller_reference domain cp orp rhp
       (match origin_config !! "alias" with None => ∅ | Some a => a end)).
Proof.
  intros Hbuild Hin. unfold build_origins in Hbuild.
  destruct (extra_origins (CLOUDFRONT_EXTRA_DOMAINS loaded_config) [])
    as [e|extra] eqn:Hextra; [discriminate|].
  injection Hbuild as <-.
  pose proof (extra_origins_values _ [] extra (Forall_nil_2 _) Hextra) as Hvals.
  cbv zeta in Hvals.
  assert (Hall : Forall (fun kv : string * OriginConfig =>
                           snd kv = ∅ \/
                           exists a c,
                             snd kv = {[ "alias" :=
                                           {[ "domain" := a;
                                              "certificate_arn" := c ]} ]})
                   (dict_update
                      (dict_set (CLOUDFRONT_CMS_DOMAIN loaded_config) ∅
                         (dict_set (CLOUDFRONT_LMS_DOMAIN loaded_config) ∅ []))
                      extra)).
  { apply dict_update_Forall; [auto | | exact Hvals].
    apply dict_set_Forall; [intros; left; reflexivity|].
    apply dict_set_Forall; [intros; left; reflexivity | constructor]. }
  rewrite Forall_forall in Hall. specialize (Hall _ Hin). cbn [snd] in Hall.
  destruct Hall as [-> | (a & c & ->)].
  - left. rewrite lookup_empty. repeat split; reflexivity.
  - right. exists a, c. rewrite lookup_singleton_eq.
    unfold CloudFrontClient.distribution_config.
    assert (Hd : ({[ "domain" := a; "certificate_arn" := c ]} : gmap string string)
                   !! "domain" = Some a) by apply lookup_insert_eq.
    assert (Hc : ({[ "domain" := a; "certificate_arn" := c ]} : gmap string string)
                   !! "certificate_arn" = Some c).
    { rewrite lookup_insert_ne by discriminate. apply lookup_singleton_eq. }
    rewrite Hd, Hc, (truthy_of_lookup _ _ _ Hd), (len_is_0_of_lookup _ _ _ Hd).
    repeat split; reflexivity.
Qed.

Lemma command_sends_coherent_configurations_witness :
  let origin_config : OriginConfig :=
    {[ "alias" := {[ "domain" := "mfe.x"; "certificate_arn" := "arn:y" ]} ]} in
  build_origins example_config
    = inr [("lms.x", ∅); ("cms.x", ∅); ("apps.x", origin_config)] /\
  coherent
    (CloudFrontClient.distribution_config "uuid-2" "apps.x" "id-8" "id-6" "id-7"
       (match origin_config !! "alias" with None => ∅ | Some a => a end)).
Proof.
  cbv zeta. split; [reflexivity|].
  apply (command_sends_coherent_configurations example_config
           [("lms.x", ∅); ("cms.x", ∅);
            ("apps.x",
             {[ "alias" := {[ "domain" := "mfe.x"; "certificate_arn" := "arn:y" ]} ]})]
           "apps.x"
           {[ "alias" := {[ "domain" := "mfe.x"; "certificate_arn" := "arn:y" ]} ]}
           "uuid-2" "id-8" "id-6" "id-7").
  - reflexivity.
  - apply list_elem_of_further, list_elem_of_further, list_elem_of_here.
Defined.

(** ** A second run, on the reference provider *)


(** X17: on a provider that keeps and lists in full what it is asked to
    create and lists a distribution under the domain name of its origin, a
    run of the command that follows a completed run completes too, issues
    lookups only, leaves the provider unchanged and prints the same
    message. *)
Theorem rerun_only_looks_up_when_listed_under_origin
    (loaded_config : LoadedConfig) (w w1 : World Cloud.t) :
  Cloud.hostname (remote w) = Cloud.origin_hostname ->
  create_cloudfront_resources loaded_config w = (inr tt, w1) ->
  exists w2 evs line,
    create_cloudfront_resources loaded_config w1 = (inr tt, w2) /\
    remote w2 = remote w1 /\
    journal w2 = journal w1 ++ evs ++ [Echo line] /\
    Forall (fun e => is_lookup e = true) evs /\
    last (journal w1) = Some (Echo line).
Proof. apply second_run_only_looks_up. Qed.

Lemma rerun_only_looks_up_when_listed_under_origin_witness :
  let w := Cloud.world (Cloud.empty Cloud.origin_hostname) in
  let first := create_cloudfront_resources example_config w in
  fst first = inr tt /\
  exists w2 evs line,
    create_cloudfront_resources example_config (snd first) = (inr tt, w2) /\
    remote w2 = remote (snd first) /\
    journal w2 = journal (snd first) ++ evs ++ [Echo line] /\
    Forall (fun e => is_lookup e = true) evs /\
    last (journal (snd first)) = Some (Echo line).
Proof.
  cbv zeta.
  set (first := create_cloudfront_resources example_config
                  (Cloud.world (Cloud.empty Cloud.origin_hostname))).
  assert (Hfst : fst first = inr tt) by (vm_compute; reflexivity).
  split; [exact Hfst|].
  apply (rerun_only_looks_up_when_listed_under_origin example_config
           (Cloud.world (Cloud.empty Cloud.origin_hostname)) (snd first)).
  - reflexivity.
  - rewrite <- Hfst. apply surjective_pairing.
Defined.
